(** * Control de Transportes BMM: the mail functions of [functions/index.js]

    A shallow embedding of the four HTTP functions that send mail through
    SendGrid ([sendNewProviderEmail], [sendAccessCredentials],
    [sendAppointmentNotification], [sendCitaConfirmacion]) and of the helpers
    they share ([initSendGridOrFail], [sendError], [normalizeEmail]).

    Modelling choices, all documented where they are made:
    - a JavaScript value parsed from a JSON body is a [JsVal];
    - a JavaScript string is a [string]; [trim] and [toLowerCase] act on the
      ASCII range (the alphabet of e-mail addresses), bytes above 127 are
      carried through unchanged, and the properties that depend on the two
      say so with [is_ascii];
    - a conversion to a string has two parts: whether it returns
      ([stringifiable]) and the string it returns ([ToString]); the functions
      make their conversions through [Call], which throws the TypeError of
      the engine when the conversion does not return;
    - Firestore, the file system, SendGrid and the console are an explicit
      [World] the handlers read, and every call leaves an [Event] in a trace;
    - a JavaScript exception is the [Throw] outcome of the monad [M]; what is
      thrown is an [Error] object. *)

From Stdlib Require Import ZArith List String Ascii Bool Lia.
From Stdlib Require Import Decimal DecimalString.
Import ListNotations.
Open Scope string_scope.
Open Scope Z_scope.

Set Warnings "-register-all".

(** ** JavaScript values and the primitives the functions use *)

Module Js.

(** A value as [JSON.parse] builds it, plus [undefined] for an absent
    property.  Numbers are the integers, as far as a double holds them
    exactly and prints them in full; an object is its list of own properties
    (first binding wins). *)
Inductive JsVal : Type :=
| JUndefined
| JNull
| JBool (b : bool)
| JNum (n : Z)
| JStr (s : string)
| JArr (items : list JsVal)
| JObj (props : list (string * JsVal)).

(** ToBoolean. *)
Definition truthy (v : JsVal) : bool :=
  match v with
  | JUndefined | JNull => false
  | JBool b => b
  | JNum n => negb (n =? 0)
  | JStr s => negb (s =? "")%string
  | JArr _ | JObj _ => true
  end.

(** [a || b] and [a && b]. *)
Definition js_or (a b : JsVal) : JsVal := if truthy a then a else b.
Definition js_and (a b : JsVal) : JsVal := if truthy a then b else a.

Fixpoint assoc (k : string) (props : list (string * JsVal)) : JsVal :=
  match props with
  | [] => JUndefined
  | (k', v) :: rest => if (k =? k')%string then v else assoc k rest
  end.

(** [v.k] (also the destructuring [const { k } = v]) for a [v] that is neither
    [null] nor [undefined]; none of the property names the functions read
    exists on a primitive or on a prototype. *)
Definition get (k : string) (v : JsVal) : JsVal :=
  match v with
  | JObj props => assoc k props
  | _ => JUndefined
  end.

Fixpoint has_key (k : string) (props : list (string * JsVal)) : bool :=
  match props with
  | [] => false
  | (k', _) :: rest => (k =? k')%string || has_key k rest
  end.

(** Whether the conversion of [v] to a string returns.  The conversion of an
    object calls the [toString] its property lookup finds: the one of
    [Object.prototype], unless the object has an own property of that name.
    An own property parsed from JSON is never a function, the inherited
    [valueOf] gives the object back, and the conversion throws a TypeError.
    An array converts when the items it joins do. *)
Fixpoint stringifiable (v : JsVal) : bool :=
  match v with
  | JArr items =>
      (fix all (l : list JsVal) : bool :=
         match l with
         | [] => true
         | x :: rest => stringifiable x && all rest
         end) items
  | JObj props => negb (has_key "toString" props)
  | _ => true
  end.

(** The items of [v] when [Array.isArray(v)]. *)
Definition array_items (v : JsVal) : option (list JsVal) :=
  match v with
  | JArr items => Some items
  | _ => None
  end.

Definition string_of_Z (n : Z) : string := NilZero.string_of_int (Z.to_int n).

(** ToString, as [String(v)], [v.toString()] and template interpolation apply
    it: the string the conversion gives when it returns, that is for a
    [stringifiable] value.  An array is joined with commas, [null] and
    [undefined] items giving the empty string. *)
Fixpoint ToString (v : JsVal) : string :=
  match v with
  | JUndefined => "undefined"
  | JNull => "null"
  | JBool true => "true"
  | JBool false => "false"
  | JNum n => string_of_Z n
  | JStr s => s
  | JArr items =>
      (fix join (l : list JsVal) : string :=
         match l with
         | [] => ""
         | x :: rest =>
             let sx := match x with
                       | JUndefined | JNull => ""
                       | _ => ToString x
                       end in
             match rest with
             | [] => sx
             | _ :: _ => sx ++ "," ++ join rest
             end
         end) items
  | JObj _ => "[object Object]"
  end%string.

(** White space removed by [String.prototype.trim], ASCII range: TAB, LF, VT,
    FF, CR and SPACE. *)
Definition is_space (c : ascii) : bool :=
  let n := N_of_ascii c in
  ((9 <=? n) && (n <=? 13) || (n =? 32))%N.

Definition lower_char (c : ascii) : ascii :=
  let n := N_of_ascii c in
  if ((65 <=? n) && (n <=? 90))%N then ascii_of_N (n + 32) else c.

Fixpoint toLowerCase (s : string) : string :=
  match s with
  | EmptyString => EmptyString
  | String c r => String (lower_char c) (toLowerCase r)
  end.

Fixpoint trimStart (s : string) : string :=
  match s with
  | EmptyString => EmptyString
  | String c r => if is_space c then trimStart r else s
  end.

Fixpoint trimEnd (s : string) : string :=
  match s with
  | EmptyString => EmptyString
  | String c r =>
      match trimEnd r with
      | EmptyString => if is_space c then EmptyString else String c EmptyString
      | r' => String c r'
      end
  end.

Definition trim (s : string) : string := trimEnd (trimStart s).

(** [s.replace(/c/g, by)] for a one-character pattern. *)
Fixpoint replaceAll (c : ascii) (by_ : string) (s : string) : string :=
  match s with
  | EmptyString => EmptyString
  | String d r =>
      if Ascii.eqb d c then (by_ ++ replaceAll c by_ r)%string
      else String d (replaceAll c by_ r)
  end.

(** [s.includes(sub)]. *)
Fixpoint includes (sub s : string) : bool :=
  String.prefix sub s ||
  match s with
  | EmptyString => false
  | String _ r => includes sub r
  end.

(** [new Set(l)] in insertion order: a value already present is not added. *)
Definition Set_add (acc : list string) (x : string) : list string :=
  if existsb (String.eqb x) acc then acc else acc ++ [x].

(** [[...new Set(l)]]. *)
Definition Set_spread (l : list string) : list string :=
  fold_left Set_add l [].

End Js.

Import Js.

(** ** The collaborators: Firestore, the file system, SendGrid, the console *)

Module Effects.

(** An [Error] object as the functions look at it: [name], [message], and the
    [response.body] a SendGrid error carries. *)
Record Exn : Type := mkExn {
  exn_name : string;
  exn_message : string;
  exn_response_body : option string
}.

(** [error.message || String(error)]. *)
Definition error_detail (e : Exn) : string :=
  if (exn_message e =? "")%string then exn_name e else exn_message e.

(** Calling a property that is not a function. *)
Definition TypeError_not_a_function (callee : string) : Exn :=
  mkExn "TypeError" (callee ++ " is not a function") None.

Inductive AttachmentContent : Type :=
| ClientBase64 (v : JsVal)          (* the caller's [zipBase64], as received *)
| BufferBase64 (buf : list Byte.byte).   (* [buf.toString("base64")] *)

Record Attachment : Type := mkAttachment {
  att_content : AttachmentContent;
  att_filename : JsVal;
  att_type : string;
  att_disposition : string
}.

Inductive MsgTo : Type :=
| ToOne (address : string)
| ToMany (addresses : list string).

Record Sender : Type := mkSender { from_email : string; from_name : string }.

(** The object handed to [mailClient.send]; an absent key is [None]. *)
Record Msg : Type := mkMsg {
  msg_to : MsgTo;
  msg_from : Sender;
  msg_subject : string;
  msg_text : option string;
  msg_html : string;
  msg_attachments : option (list Attachment)
}.

(** [collection(c).where(field, "in", values).get()]. *)
Record Query : Type := mkQuery {
  q_collection : string;
  q_field : string;
  q_in : list Z
}.

Inductive Outcome (A : Type) : Type :=
| Ok (a : A)
| Throw (e : Exn).
Arguments Ok {A} a.
Arguments Throw {A} e.

(** What the outside answers.  [firestore_get] gives the [data()] of each
    document of the snapshot; [sgMail_send] gives the status code of the
    accepted message. *)
Record World : Type := mkWorld {
  SENDGRID_API_KEY : option string;
  firestore_get : Query -> Outcome (list JsVal);
  readFileSync : string -> Outcome (list Byte.byte);
  sgMail_send : Msg -> Outcome Z
}.

Inductive Level : Type := LogInfo | LogError.

(** [EvLog] keeps the fixed text of a [console.log] / [console.error] call,
    not the values printed after it. *)
Inductive Event : Type :=
| EvLog (lvl : Level) (text : string)
| EvSetApiKey (key : string)
| EvFirestoreGet (q : Query)
| EvReadFile (path : string)
| EvSend (m : Msg).

(** A computation reads the world, may throw, and leaves a trace. *)
Definition M (A : Type) : Type := World -> Outcome A * list Event.

Definition ret {A} (a : A) : M A := fun _ => (Ok a, []).

Definition throw {A} (e : Exn) : M A := fun _ => (Throw e, []).

Definition bind {A B} (m : M A) (f : A -> M B) : M B :=
  fun w =>
    match m w with
    | (Ok a, t1) => let (r, t2) := f a w in (r, (t1 ++ t2)%list)
    | (Throw e, t1) => (Throw e, t1)
    end.

(** [try { m } catch (e) { h e }]. *)
Definition try_catch {A} (m : M A) (h : Exn -> M A) : M A :=
  fun w =>
    match m w with
    | (Ok a, t1) => (Ok a, t1)
    | (Throw e, t1) => let (r, t2) := h e w in (r, (t1 ++ t2)%list)
    end.

Definition emit (ev : Event) : M unit := fun _ => (Ok tt, [ev]).

Definition console_log (text : string) : M unit := emit (EvLog LogInfo text).
Definition console_error (text : string) : M unit := emit (EvLog LogError text).

Definition env_SENDGRID_API_KEY : M (option string) :=
  fun w => (Ok (SENDGRID_API_KEY w), []).

Definition setApiKey (key : string) : M unit := emit (EvSetApiKey key).

Definition firestore_where_in_get (q : Query) : M (list JsVal) :=
  fun w => (firestore_get w q, [EvFirestoreGet q]).

Definition fs_readFileSync (path : string) : M (list Byte.byte) :=
  fun w => (readFileSync w path, [EvReadFile path]).

Definition mailClient_send (m : Msg) : M Z :=
  fun w => (sgMail_send w m, [EvSend m]).

End Effects.

Import Effects.

Notation "x <- m ;; k" := (bind m (fun x => k))
  (at level 61, m at next level, right associativity).
Notation "m ;;; k" := (bind m (fun _ => k))
  (at level 61, right associativity).

(** ** HTTP requests and responses *)

Record Request : Type := mkRequest {
  req_method : string;
  req_body : JsVal
}.

Inductive Payload : Type :=
| SendText (text : string)
| Json (success : bool) (message : string) (error : option string).

Record Response : Type := mkResponse {
  res_headers : list (string * string);
  res_status : Z;
  res_payload : Payload
}.

(** The three [res.set] calls every function starts with. *)
Definition cors_headers : list (string * string) :=
  [ ("Access-Control-Allow-Origin", "*");
    ("Access-Control-Allow-Methods", "POST, OPTIONS");
    ("Access-Control-Allow-Headers", "Content-Type") ].

Definition respond (code : Z) (p : Payload) : Response :=
  mkResponse cors_headers code p.

(** ** The helpers of [index.js] *)

(** Gives [true] for the configured [sgMail], [false] for [null]. *)
Definition initSendGridOrFail : M bool :=
  sendgridKey <- env_SENDGRID_API_KEY ;;
  match sendgridKey with
  | Some key =>
      if (key =? "")%string then
        console_error "[functions] Falta SENDGRID_API_KEY en las variables de entorno." ;;;
        ret false
      else
        setApiKey key ;;; ret true
  | None =>
      console_error "[functions] Falta SENDGRID_API_KEY en las variables de entorno." ;;;
      ret false
  end.

(** [sendError(res, httpCode, message)]; no caller passes [extra]. *)
Definition sendError (httpCode : Z) (message : string) : Response :=
  respond httpCode (Json false message None).

(** What [normalizeEmail(email)] returns; the call itself, which throws when
    [String(email)] does, is [Call.normalizeEmail] below. *)
Definition normalizeEmail (email : JsVal) : string :=
  if negb (truthy email) then "" else toLowerCase (trim (ToString email)).

(** [.filter(Boolean)] on strings. *)
Definition filter_Boolean (l : list string) : list string :=
  filter (fun s => negb (s =? "")%string) l.

Definition sender : Sender :=
  mkSender "logisticabmm@gmail.com" "Control de Transportes BMM".

(** The query both administrator lookups make. *)
Definition admins_query : Query := mkQuery "UsuarioAdmin" "id" [1; 2].

(** What
    [adminsSnapshot.docs.map((doc) => normalizeEmail(doc.data()?.correo)).filter(Boolean)]
    gives; the expression with its calls is [Call.correos]. *)
Definition correos (docs : list JsVal) : list string :=
  filter_Boolean (map (fun data => normalizeEmail (get "correo" data)) docs).

(** The inner [try { send } catch (sgError) { log; throw sgError }]. *)
Definition send_logged (tag ok_text err_text : string) (msg : Msg) : M unit :=
  try_catch
    (_ <- mailClient_send msg ;; console_log (tag ++ ok_text))
    (fun sgError =>
       console_error (tag ++ err_text) ;;;
       match exn_response_body sgError with
       | Some _ => console_error (tag ++ " Detalle SendGrid:")
       | None => ret tt
       end ;;;
       throw sgError).

(** The outer [catch (error)] of every function. *)
Definition on_error (tag message : string) (error : Exn) : M Response :=
  console_error (tag ++ " Error general:") ;;;
  match exn_response_body error with
  | Some _ => console_error (tag ++ " Detalle SendGrid:")
  | None => ret tt
  end ;;;
  ret (respond 500 (Json false message (Some (error_detail error)))).

(** Template literals: every source line of the literal is one item; the
    literal opens with a line break and closes after [last]. *)
Definition LF : string := String (ascii_of_N 10) EmptyString.
Definition dq : string := String (ascii_of_N 34) EmptyString.

Fixpoint unlines (lines : list string) : string :=
  match lines with
  | [] => ""
  | l :: rest => l ++ LF ++ unlines rest
  end.

Definition template (lines : list string) (last : string) : string :=
  LF ++ unlines lines ++ last.

(** [${v || "-"}] *)
Definition or_dash (v : JsVal) : string := ToString (js_or v (JStr "-")).

(** [s || d] on strings. *)
Definition str_or (s d : string) : string := if (s =? "")%string then d else s.

(** What [(v || "").toString().trim()] gives; the expression with its call is
    [Call.text_field]. *)
Definition text_field (v : JsVal) : string := trim (ToString (js_or v (JStr ""))).

(** [${horaExtra ? ` (hora extra: ${horaExtra})` : ""}] *)
Definition hora_extra (horaExtra : JsVal) : string :=
  if truthy horaExtra then " (hora extra: " ++ ToString horaExtra ++ ")" else "".

(** [v.replace(/c/g, by)]: only a string has the method; on any other value
    the call throws. *)
Definition replace_method (callee : string) (c : ascii) (by_ : string)
    (v : JsVal) : M string :=
  match v with
  | JStr s => ret (replaceAll c by_ s)
  | _ => throw (TypeError_not_a_function callee)
  end.

(** ** Conversions as the engine runs them *)

(** The TypeError of a conversion that does not return. *)
Definition TypeError_cannot_convert : Exn :=
  mkExn "TypeError" "Cannot convert object to primitive value" None.

(** Reading a property of [null] or [undefined]. *)
Definition TypeError_cannot_read (property : string) : Exn :=
  mkExn "TypeError" ("Cannot read properties of undefined (reading '" ++ property ++ "')")
    None.

(** [l.map(f)] for an [f] that can throw: the items in order, up to the first
    that throws. *)
Fixpoint mapM {A B : Type} (f : A -> M B) (l : list A) : M (list B) :=
  match l with
  | [] => ret []
  | x :: rest => y <- f x ;; ys <- mapM f rest ;; ret (y :: ys)
  end.

Module Call.

(** [String(v)] and the interpolation [${v}]. *)
Definition ToString (v : JsVal) : M string :=
  if stringifiable v then ret (Js.ToString v) else throw TypeError_cannot_convert.

(** [v.toString()]: an object answers with the property the lookup finds,
    an array with the join of its items. *)
Definition toString (callee : string) (v : JsVal) : M string :=
  match v with
  | JUndefined | JNull => throw (TypeError_cannot_read "toString")
  | JObj props =>
      if has_key "toString" props then throw (TypeError_not_a_function callee)
      else ret "[object Object]"
  | _ => ToString v
  end.

(** Lines 43-46. *)
Definition normalizeEmail (email : JsVal) : M string :=
  if negb (truthy email) then ret ""
  else s <- ToString email ;; ret (toLowerCase (trim s)).

(** [(v || "").toString().trim()] *)
Definition text_field (callee : string) (v : JsVal) : M string :=
  s <- toString callee (js_or v (JStr "")) ;; ret (trim s).

(** [adminsSnapshot.docs.map((doc) => normalizeEmail(doc.data()?.correo)).filter(Boolean)] *)
Definition correos (docs : list JsVal) : M (list string) :=
  l <- mapM (fun data => normalizeEmail (get "correo" data)) docs ;;
  ret (filter_Boolean l).

(** The conversions of a template literal, in order: [${v}] for each [v]. *)
Fixpoint interpolate (values : list JsVal) : M unit :=
  match values with
  | [] => ret tt
  | v :: rest => _ <- ToString v ;; interpolate rest
  end.

End Call.

(** ** 1) New provider: [sendNewProviderEmail] *)

Module NewProvider.

Definition tag : string := "[sendNewProviderEmail]".

Definition htmlBody (providerId providerEmail providerData : JsVal) : string :=
  let linea := get "linea" providerData in
  let razon := get "razon" providerData in
  let direccionFiscal := get "direccionFiscal" providerData in
  let direccionPatios := get "direccionPatios" providerData in
  let frontera := get "frontera" providerData in
  let telefonoContacto := get "telefonoContacto" providerData in
  template
  ([ "      <h2>Nueva solicitud de registro de proveedor</h2>";
    "      <p>Se ha registrado un nuevo proveedor en el sistema de Control de Transportes.</p>";
    "      <h3>Datos del proveedor</h3>";
    "      <ul>";
    "        <li><strong>ID Proveedor:</strong> " ++ or_dash providerId ++ " </li>";
    "        <li><strong>Línea transportista / Nombre comercial:</strong> " ++ or_dash linea ++ " </li>";
    "        <li><strong>Razón social:</strong> " ++ or_dash razon ++ " </li>";
    "        <li><strong>Dirección fiscal:</strong> " ++ or_dash direccionFiscal ++ " </li>";
    "        <li><strong>Dirección de patios de maniobra:</strong> " ++ or_dash direccionPatios ++ " </li>";
    "        <li><strong>Frontera por donde cruza:</strong> " ++ or_dash frontera ++ " </li>";
    "        <li><strong>Contacto (teléfono):</strong> " ++ or_dash telefonoContacto ++ " </li>";
    "        <li><strong>Contacto (correo electrónico):</strong> " ++ or_dash providerEmail ++ " </li>";
    "      </ul>";
    "      <p>En el archivo ZIP adjunto se incluye la documentación enviada por el proveedor.</p>" ])%string
    "    ".

(** The values the template converts, in the order of its [${...}]. *)
Definition interpolated (providerId providerEmail providerData : JsVal) : list JsVal :=
  let linea := get "linea" providerData in
  let razon := get "razon" providerData in
  let direccionFiscal := get "direccionFiscal" providerData in
  let direccionPatios := get "direccionPatios" providerData in
  let frontera := get "frontera" providerData in
  let telefonoContacto := get "telefonoContacto" providerData in
  [ js_or providerId (JStr "-");
    js_or linea (JStr "-");
    js_or razon (JStr "-");
    js_or direccionFiscal (JStr "-");
    js_or direccionPatios (JStr "-");
    js_or frontera (JStr "-");
    js_or telefonoContacto (JStr "-");
    js_or providerEmail (JStr "-") ].

(** What [Array.isArray(l) ? l.map(normalizeEmail).filter(Boolean) : []]
    gives. *)
Definition explicitAdmins (adminEmailsFromClient : JsVal) : list string :=
  match adminEmailsFromClient with
  | JArr items => filter_Boolean (map normalizeEmail items)
  | _ => []
  end.

(** Lines 100-118: the explicit list, else the administrators of Firestore,
    then the duplicates removed. *)
Definition resolveAdmins (adminEmailsFromClient : JsVal) : M (list string) :=
  adminEmails <-
    match array_items adminEmailsFromClient with
    | Some items => l <- mapM Call.normalizeEmail items ;; ret (filter_Boolean l)
    | None => ret []
    end ;;
  adminEmails <-
    match adminEmails with
    | [] => docs <- firestore_where_in_get admins_query ;; Call.correos docs
    | _ :: _ => ret adminEmails
    end ;;
  ret (Set_spread adminEmails).

Definition zipAttachments (zipBase64 zipName : JsVal) : list Attachment :=
  if truthy zipBase64 && truthy zipName then
    [ mkAttachment (ClientBase64 zipBase64) zipName "application/zip" "attachment" ]
  else [].

Definition sendNewProviderEmail (req : Request) : M Response :=
  if (req_method req =? "OPTIONS")%string then ret (respond 204 (SendText ""))
  else if negb (req_method req =? "POST")%string then
    ret (sendError 405 "Method Not Allowed")
  else
    try_catch
      (mailClient <- initSendGridOrFail ;;
       if negb mailClient then
         ret (sendError 500 "SendGrid no está configurado en el servidor.")
       else
         let body := js_or (req_body req) (JObj []) in
         let providerId := get "providerId" body in
         let providerEmail := get "providerEmail" body in
         let adminEmailsFromClient := get "adminEmails" body in
         let zipBase64 := get "zipBase64" body in
         let zipName := get "zipName" body in
         let providerData := get "providerData" body in
         if negb (truthy providerData) then
           ret (sendError 400 "Faltan los datos del proveedor.")
         else
           adminEmails <- resolveAdmins adminEmailsFromClient ;;
           match adminEmails with
           | [] =>
               console_error
                 (tag ++ " No hay correos de administradores configurados.") ;;;
               ret (sendError 500 "Los administradores no tienen correo configurado.")
           | _ :: _ =>
               Call.interpolate (interpolated providerId providerEmail providerData) ;;;
               let msg :=
                 mkMsg (ToMany adminEmails) sender
                   "Nueva solicitud de registro de proveedor"
                   None
                   (htmlBody providerId providerEmail providerData)
                   (Some (zipAttachments zipBase64 zipName)) in
               send_logged tag " Correo (nuevo proveedor) enviado. Status:"
                 " Error SendGrid (nuevo proveedor):" msg ;;;
               ret (respond 200
                      (Json true "Correo enviado correctamente a los administradores." None))
           end)
      (on_error tag "Ocurrió un error al enviar el correo.").

End NewProvider.

(** ** 2) Access credentials: [sendAccessCredentials] *)

Module AccessCredentials.

Definition tag : string := "[sendAccessCredentials]".

(** What [(rol || "").toString().trim() || "Usuario"] gives. *)
Definition rolFinal_of (rol : JsVal) : string := str_or (text_field rol) "Usuario".

Definition htmlBody (usuarioFinal passFinal rolFinal : string) : string :=
  template
  ([ "      <h2>Acceso al sistema de Control de Transportes BMM</h2>";
    "      <p>Tu usuario ha sido aprobado. Estas son tus credenciales de acceso:</p>";
    "      <ul>";
    "        <li><strong>Usuario:</strong> " ++ usuarioFinal ++ "</li>";
    "        <li><strong>Contraseña:</strong> " ++ passFinal ++ "</li>";
    "        <li><strong>Rol:</strong> " ++ rolFinal ++ "</li>";
    "      </ul>";
    "      <p>Por favor ingresa al sistema con estas credenciales.</p>" ])%string
    "    ".

Definition sendAccessCredentials (req : Request) : M Response :=
  if (req_method req =? "OPTIONS")%string then ret (respond 204 (SendText ""))
  else if negb (req_method req =? "POST")%string then
    ret (sendError 405 "Method Not Allowed")
  else
    try_catch
      (mailClient <- initSendGridOrFail ;;
       if negb mailClient then
         ret (sendError 500 "SendGrid no está configurado en el servidor.")
       else
         console_log (tag ++ " Body recibido:") ;;;
         let body := js_or (req_body req) (JObj []) in
         let to := get "to" body in
         let usuario := get "usuario" body in
         let contrasena := get "contrasena" body in
         let rol := get "rol" body in
         toNorm <- Call.normalizeEmail to ;;
         usuarioFinal <-
           Call.text_field ("(usuario || " ++ dq ++ dq ++ ").toString") usuario ;;
         passFinal <-
           Call.text_field ("(contrasena || " ++ dq ++ dq ++ ").toString") contrasena ;;
         rolText <- Call.text_field ("(rol || " ++ dq ++ dq ++ ").toString") rol ;;
         let rolFinal := str_or rolText "Usuario" in
         if (toNorm =? "")%string then
           console_error (tag ++ " Falta 'to' (correoDestino).") ;;;
           ret (sendError 400 "Falta el correo del usuario.")
         else if (usuarioFinal =? "")%string || (passFinal =? "")%string then
           console_error (tag ++ " Falta usuario o contraseña.") ;;;
           ret (sendError 400 "Faltan usuario o contraseña.")
         else
           let msg :=
             mkMsg (ToOne toNorm) sender
               "Credenciales de acceso - Control de Transportes BMM"
               None
               (htmlBody usuarioFinal passFinal rolFinal)
               None in
           send_logged tag " Credenciales enviadas. Status:" " Error SendGrid:" msg ;;;
           ret (respond 200
                  (Json true "Correo de credenciales enviado correctamente." None)))
      (on_error tag "Ocurrió un error al enviar el correo.").

End AccessCredentials.

(** ** 3) Appointment pre-registration: [sendAppointmentNotification] *)

Module AppointmentNotification.

Definition tag : string := "[sendAppointmentNotification]".

(** [(notas || "").replace(/</g, "&lt;") || "-"] *)
Definition comentarios (notas : JsVal) : M string :=
  escaped <- replace_method ("(notas || " ++ dq ++ dq ++ ").replace") "<"%char "&lt;"
               (js_or notas (JStr "")) ;;
  ret (str_or escaped "-").

Definition htmlBody (providerLinea providerRazon providerFrontera : JsVal)
    (provEmailNorm : string) (citaId cita : JsVal) (notasHtml : string) : string :=
  let fecha := get "fecha" cita in
  let hora := get "hora" cita in
  let horaExtra := get "horaExtra" cita in
  let tipoVisita := get "tipoVisita" cita in
  let tipoTransporte := get "tipoTransporte" cita in
  let destino := get "destino" cita in
  let chofer := get "chofer" cita in
  let lineaTransporte := get "lineaTransporte" cita in
  let placas := get "placas" cita in
  let factura := get "factura" cita in
  let caja := get "caja" cita in
  let sello := get "sello" cita in
  let recolectaCaja := get "recolectaCaja" cita in
  let cajaDeja := get "cajaDeja" cita in
  let cajaRecolecta := get "cajaRecolecta" cita in
  let esDomingo := get "esDomingo" cita in
  template
  ([ "      <h2>Pre-registro de cita de acceso - Control de Transportes BMM</h2>";
    "      <p>Se ha registrado una <strong>nueva cita</strong> con estatus <strong>CitaPendiente</strong>.</p>";
    "      <h3>Datos del proveedor</h3>";
    "      <ul>";
    "        <li><strong>Línea:</strong> " ++ or_dash providerLinea ++ "</li>";
    "        <li><strong>Razón social:</strong> " ++ or_dash providerRazon ++ "</li>";
    "        <li><strong>Frontera:</strong> " ++ or_dash providerFrontera ++ "</li>";
    "        <li><strong>Correo de contacto:</strong> " ++ str_or provEmailNorm "-" ++ "</li>";
    "      </ul>";
    "      <h3>Datos de la cita</h3>";
    "      <ul>";
    "        <li><strong>ID Cita:</strong> " ++ or_dash citaId ++ "</li>";
    "        <li><strong>Fecha:</strong> " ++ or_dash fecha ++ "</li>";
    "        <li><strong>Hora principal:</strong> " ++ or_dash hora ++ "</li>";
    "        <li><strong>Hora bloqueada adicional:</strong> " ++ or_dash horaExtra ++ "</li>";
    "        <li><strong>Tipo de visita:</strong> " ++ or_dash tipoVisita ++ "</li>";
    "        <li><strong>Tipo de transporte:</strong> " ++ or_dash tipoTransporte ++ "</li>";
    "        <li><strong>Destino:</strong> " ++ or_dash destino ++ "</li>";
    "        <li><strong>Nombre del chofer:</strong> " ++ or_dash chofer ++ "</li>";
    "        <li><strong>Transporte / Línea:</strong> " ++ or_dash lineaTransporte ++ "</li>";
    "        <li><strong>No. placas:</strong> " ++ or_dash placas ++ "</li>";
    "        <li><strong>Factura:</strong> " ++ or_dash factura ++ "</li>";
    "        <li><strong>No. caja:</strong> " ++ or_dash caja ++ "</li>";
    "        <li><strong>No. sello:</strong> " ++ or_dash sello ++ "</li>";
    "        <li><strong>¿Recolecta caja?:</strong> " ++ ToString (js_or recolectaCaja (JStr "No")) ++ "</li>";
    "        <li><strong>Caja que deja:</strong> " ++ or_dash cajaDeja ++ "</li>";
    "        <li><strong>Caja que recolecta:</strong> " ++ or_dash cajaRecolecta ++ "</li>";
    "        <li><strong>Es domingo:</strong> " ++ (if truthy esDomingo then "Sí, requiere aprobación especial" else "No") ++ "</li>";
    "      </ul>";
    "      <h3>Comentarios</h3>";
    "      <p>" ++ notasHtml ++ "</p>";
    "      <p style=" ++ dq ++ "margin-top:16px;" ++ dq ++ ">";
    "        <em>Importante:</em> Esta notificación corresponde a un <strong>pre-registro</strong>.";
    "        La cita deberá ser revisada y aprobada por el área de logística para considerarse como";
    "        <strong>CitaConfirmada</strong>.";
    "      </p>" ])%string
    "    ".

(** The values the template converts before the notes, in the order of its
    [${...}]; [provEmailNorm] and the Sunday answer are strings already. *)
Definition interpolated (providerLinea providerRazon providerFrontera citaId cita : JsVal)
    : list JsVal :=
  let fecha := get "fecha" cita in
  let hora := get "hora" cita in
  let horaExtra := get "horaExtra" cita in
  let tipoVisita := get "tipoVisita" cita in
  let tipoTransporte := get "tipoTransporte" cita in
  let destino := get "destino" cita in
  let chofer := get "chofer" cita in
  let lineaTransporte := get "lineaTransporte" cita in
  let placas := get "placas" cita in
  let factura := get "factura" cita in
  let caja := get "caja" cita in
  let sello := get "sello" cita in
  let recolectaCaja := get "recolectaCaja" cita in
  let cajaDeja := get "cajaDeja" cita in
  let cajaRecolecta := get "cajaRecolecta" cita in
  [ js_or providerLinea (JStr "-");
    js_or providerRazon (JStr "-");
    js_or providerFrontera (JStr "-");
    js_or citaId (JStr "-");
    js_or fecha (JStr "-");
    js_or hora (JStr "-");
    js_or horaExtra (JStr "-");
    js_or tipoVisita (JStr "-");
    js_or tipoTransporte (JStr "-");
    js_or destino (JStr "-");
    js_or chofer (JStr "-");
    js_or lineaTransporte (JStr "-");
    js_or placas (JStr "-");
    js_or factura (JStr "-");
    js_or caja (JStr "-");
    js_or sello (JStr "-");
    js_or recolectaCaja (JStr "No");
    js_or cajaDeja (JStr "-");
    js_or cajaRecolecta (JStr "-") ].

(** Lines 370-384: the administrators of Firestore; a query that fails, or
    an administrator address that cannot be normalized, leaves the list
    empty. *)
Definition queryAdminEmails : M (list string) :=
  try_catch
    (docs <- firestore_where_in_get admins_query ;; Call.correos docs)
    (fun e => console_error (tag ++ " Error obteniendo admins:") ;;; ret []).

(** Lines 366-387 as one computation: the provider address, the
    administrators, and the list without blanks and duplicates. *)
Definition resolveRecipients (providerEmail : JsVal) : M (list string) :=
  provEmailNorm <- Call.normalizeEmail providerEmail ;;
  adminEmails <- queryAdminEmails ;;
  ret (Set_spread (filter_Boolean (provEmailNorm :: adminEmails))).

Definition sendAppointmentNotification (req : Request) : M Response :=
  if (req_method req =? "OPTIONS")%string then ret (respond 204 (SendText ""))
  else if negb (req_method req =? "POST")%string then
    ret (sendError 405 "Method Not Allowed")
  else
    try_catch
      (mailClient <- initSendGridOrFail ;;
       if negb mailClient then
         ret (sendError 500 "SendGrid no está configurado en el servidor.")
       else
         let body := js_or (req_body req) (JObj []) in
         let providerEmail := get "providerEmail" body in
         let providerLinea := get "providerLinea" body in
         let providerRazon := get "providerRazon" body in
         let providerFrontera := get "providerFrontera" body in
         let citaId := get "citaId" body in
         let cita := get "cita" body in
         if negb (truthy providerEmail) || negb (truthy cita)
            || negb (truthy (get "fecha" cita)) || negb (truthy (get "hora" cita)) then
           ret (sendError 400 "Faltan datos para enviar la confirmación de cita.")
         else
           provEmailNorm <- Call.normalizeEmail providerEmail ;;
           adminEmails <- queryAdminEmails ;;
           let allRecipients :=
             Set_spread (filter_Boolean (provEmailNorm :: adminEmails)) in
           match allRecipients with
           | [] =>
               console_error (tag ++ " No hay destinatarios para la cita.") ;;;
               ret (sendError 500
                      "No se encontraron correos configurados para notificar la cita.")
           | _ :: _ =>
               Call.interpolate
                 (interpolated providerLinea providerRazon providerFrontera citaId cita) ;;;
               notasHtml <- comentarios (get "notas" cita) ;;
               let msg :=
                 mkMsg (ToMany allRecipients) sender
                   "Pre-registro de cita de acceso - Control de Transportes BMM"
                   None
                   (htmlBody providerLinea providerRazon providerFrontera
                      provEmailNorm citaId cita notasHtml)
                   None in
               send_logged tag " Correo de cita enviado. Status:" " Error SendGrid:" msg ;;;
               ret (respond 200
                      (Json true "Notificación de cita enviada correctamente." None))
           end)
      (on_error tag "Ocurrió un error al enviar la notificación de cita.").

End AppointmentNotification.

(** ** 4) Appointment confirmation with folio and PDF: [sendCitaConfirmacion] *)

Module CitaConfirmacion.

Definition tag : string := "[sendCitaConfirmacion]".

Definition subject_of (folio : JsVal) : string :=
  "Confirmación de cita de transporte - Folio " ++ ToString folio.

(** The values the plain-text template converts, in the order of its
    [${...}]; [horaExtra] is converted only when it is truthy. *)
Definition interpolated_text (folio datosCita : JsVal) : list JsVal :=
  let linea := get "linea" datosCita in
  let placas := get "placas" datosCita in
  let tipoTransporte := get "tipoTransporte" datosCita in
  let tipoVisita := get "tipoVisita" datosCita in
  let fecha := get "fecha" datosCita in
  let hora := get "hora" datosCita in
  let horaExtra := get "horaExtra" datosCita in
  let chofer := get "chofer" datosCita in
  let destino := get "destino" datosCita in
  let factura := get "factura" datosCita in
  let notas := get "notas" datosCita in
  let frontera := get "frontera" datosCita in
  let recolectaCaja := get "recolectaCaja" datosCita in
  [ folio;
    js_or fecha (JStr "-");
    js_or hora (JStr "-");
    js_or horaExtra (JStr "");
    js_or linea (JStr "-");
    js_or placas (JStr "-");
    js_or tipoTransporte (JStr "-");
    js_or tipoVisita (JStr "-");
    js_or chofer (JStr "-");
    js_or destino (JStr "-");
    js_or factura (JStr "-");
    js_or frontera (JStr "-");
    js_or recolectaCaja (JStr "-");
    js_or notas (JStr "-") ].

(** The values the HTML template converts before the notes. *)
Definition interpolated_html (folio datosCita : JsVal) : list JsVal :=
  let linea := get "linea" datosCita in
  let placas := get "placas" datosCita in
  let tipoTransporte := get "tipoTransporte" datosCita in
  let tipoVisita := get "tipoVisita" datosCita in
  let fecha := get "fecha" datosCita in
  let hora := get "hora" datosCita in
  let horaExtra := get "horaExtra" datosCita in
  let chofer := get "chofer" datosCita in
  let destino := get "destino" datosCita in
  let factura := get "factura" datosCita in
  let frontera := get "frontera" datosCita in
  let recolectaCaja := get "recolectaCaja" datosCita in
  [ folio;
    js_or fecha (JStr "-");
    js_or hora (JStr "-");
    js_or horaExtra (JStr "");
    js_or linea (JStr "-");
    js_or placas (JStr "-");
    js_or tipoTransporte (JStr "-");
    js_or tipoVisita (JStr "-");
    js_or chofer (JStr "-");
    js_or destino (JStr "-");
    js_or factura (JStr "-");
    js_or frontera (JStr "-");
    js_or recolectaCaja (JStr "-") ].

Definition textBody (folio datosCita : JsVal) : string :=
  let linea := get "linea" datosCita in
  let placas := get "placas" datosCita in
  let tipoTransporte := get "tipoTransporte" datosCita in
  let tipoVisita := get "tipoVisita" datosCita in
  let fecha := get "fecha" datosCita in
  let hora := get "hora" datosCita in
  let horaExtra := get "horaExtra" datosCita in
  let chofer := get "chofer" datosCita in
  let destino := get "destino" datosCita in
  let factura := get "factura" datosCita in
  let notas := get "notas" datosCita in
  let frontera := get "frontera" datosCita in
  let recolectaCaja := get "recolectaCaja" datosCita in
  trim (template
  ([ "Hola,";
    "";
    "Tu cita de transporte ha sido CONFIRMADA.";
    "";
    "Detalles de la cita:";
    "- Folio: " ++ ToString folio;
    "- Fecha: " ++ or_dash fecha;
    "- Hora: " ++ or_dash hora ++ hora_extra horaExtra;
    "- Línea transportista: " ++ or_dash linea;
    "- Placas: " ++ or_dash placas;
    "- Tipo de transporte: " ++ or_dash tipoTransporte;
    "- Tipo de visita: " ++ or_dash tipoVisita;
    "- Chofer: " ++ or_dash chofer;
    "- Destino: " ++ or_dash destino;
    "- Factura: " ++ or_dash factura;
    "- Frontera: " ++ or_dash frontera;
    "- ¿Recolecta caja?: " ++ or_dash recolectaCaja;
    "- Comentarios / notas: " ++ or_dash notas;
    "";
    "Te pedimos revisar el documento adjunto " ++ dq ++ "Indicaciones de ingreso a transportistas" ++ dq;
    "y tener tu folio a la mano al llegar a caseta, ya que te será solicitado para";
    "permitir el acceso.";
    "";
    "Saludos,";
    "Beiersdorf Manufacturing México";
    "Control de Transportes BMM" ])%string
    "").

(** [(notas && notas.replace(/\n/g, "<br>")) || "-"] *)
Definition comentarios (notas : JsVal) : M string :=
  if truthy notas then
    broken <- replace_method "notas.replace" (ascii_of_N 10) "<br>" notas ;;
    ret (str_or broken "-")
  else ret "-".

Definition htmlBody (folio datosCita : JsVal) (notasHtml : string) : string :=
  let linea := get "linea" datosCita in
  let placas := get "placas" datosCita in
  let tipoTransporte := get "tipoTransporte" datosCita in
  let tipoVisita := get "tipoVisita" datosCita in
  let fecha := get "fecha" datosCita in
  let hora := get "hora" datosCita in
  let horaExtra := get "horaExtra" datosCita in
  let chofer := get "chofer" datosCita in
  let destino := get "destino" datosCita in
  let factura := get "factura" datosCita in
  let frontera := get "frontera" datosCita in
  let recolectaCaja := get "recolectaCaja" datosCita in
  template
  ([ "      <p>Hola,</p>";
    "";
    "      <p>Tu cita de transporte ha sido <strong>CONFIRMADA</strong>.</p>";
    "";
    "      <p><strong>Detalles de la cita</strong></p>";
    "      <ul>";
    "        <li><strong>Folio:</strong> " ++ ToString folio ++ "</li>";
    "        <li><strong>Fecha:</strong> " ++ or_dash fecha ++ "</li>";
    "        <li><strong>Hora:</strong> " ++ or_dash hora ++ hora_extra horaExtra ++ "</li>";
    "        <li><strong>Línea transportista:</strong> " ++ or_dash linea ++ "</li>";
    "        <li><strong>Placas:</strong> " ++ or_dash placas ++ "</li>";
    "        <li><strong>Tipo de transporte:</strong> " ++ or_dash tipoTransporte ++ "</li>";
    "        <li><strong>Tipo de visita:</strong> " ++ or_dash tipoVisita ++ "</li>";
    "        <li><strong>Chofer:</strong> " ++ or_dash chofer ++ "</li>";
    "        <li><strong>Destino:</strong> " ++ or_dash destino ++ "</li>";
    "        <li><strong>Factura:</strong> " ++ or_dash factura ++ "</li>";
    "        <li><strong>Frontera:</strong> " ++ or_dash frontera ++ "</li>";
    "        <li><strong>¿Recolecta caja?:</strong> " ++ or_dash recolectaCaja ++ "</li>";
    "        <li><strong>Comentarios / notas:</strong> " ++ notasHtml ++ "</li>";
    "      </ul>";
    "";
    "      <p>";
    "        Te pedimos revisar el documento adjunto";
    "        <strong>" ++ dq ++ "Indicaciones de ingreso a transportistas" ++ dq ++ "</strong> y tener tu folio";
    "        a la mano al llegar a caseta, ya que te será solicitado para permitir el acceso.";
    "      </p>";
    "";
    "      <p>Saludos,<br>";
    "      Beiersdorf Manufacturing México<br>";
    "      Control de Transportes BMM</p>" ])%string
    "    ".

Definition pdfName : string := "Indicaciones de ingreso a transportistas.pdf".

(** [path.join(__dirname, "docs", pdfName)], relative to [__dirname]. *)
Definition pdfPath : string := "docs/" ++ pdfName.

(** Lines 634-656: the PDF of [functions/docs], or no attachment when it
    cannot be read. *)
Definition loadAttachments : M (list Attachment) :=
  try_catch
    (pdfBuffer <- fs_readFileSync pdfPath ;;
     ret [ mkAttachment (BufferBase64 pdfBuffer) (JStr pdfName)
             "application/pdf" "attachment" ])
    (fun e =>
       console_error (tag ++ " No se pudo leer el PDF de indicaciones:") ;;;
       ret []).

Definition sendCitaConfirmacion (req : Request) : M Response :=
  if (req_method req =? "OPTIONS")%string then ret (respond 204 (SendText ""))
  else if negb (req_method req =? "POST")%string then
    ret (sendError 405 "Method Not Allowed")
  else
    try_catch
      (mailClient <- initSendGridOrFail ;;
       if negb mailClient then
         ret (sendError 500 "SendGrid no está configurado en el servidor.")
       else
         let body := js_or (req_body req) (JObj []) in
         let to := get "to" body in
         let folio := get "folio" body in
         let datosCita := get "datosCita" body in
         if negb (truthy to) || negb (truthy folio) || negb (truthy datosCita) then
           ret (sendError 400 "Faltan parámetros obligatorios (to, folio, datosCita).")
         else
           toNorm <- Call.normalizeEmail to ;;
           Call.interpolate [folio] ;;;
           let subject := subject_of folio in
           Call.interpolate (interpolated_text folio datosCita) ;;;
           let text := textBody folio datosCita in
           Call.interpolate (interpolated_html folio datosCita) ;;;
           notasHtml <- comentarios (get "notas" datosCita) ;;
           let html := htmlBody folio datosCita notasHtml in
           attachments <- loadAttachments ;;
           let msg :=
             mkMsg (ToOne toNorm) sender subject (Some text) html
               (match attachments with
                | [] => None
                | _ :: _ => Some attachments
                end) in
           send_logged tag " Correo de confirmación enviado. Status:"
             " Error SendGrid:" msg ;;;
           ret (respond 200
                  (Json true "Correo de confirmación de cita enviado correctamente." None)))
      (on_error tag "Ocurrió un error al enviar la confirmación de cita.").

End CitaConfirmacion.

(** Running a function against a world. *)
Definition run {A} (m : M A) (w : World) : Outcome A * list Event := m w.

(** The queries and the messages of a trace, in order. *)
Fixpoint queries (t : list Event) : list Query :=
  match t with
  | [] => []
  | EvFirestoreGet q :: r => q :: queries r
  | _ :: r => queries r
  end.

Fixpoint sent (t : list Event) : list Msg :=
  match t with
  | [] => []
  | EvSend m :: r => m :: sent r
  | _ :: r => sent r
  end.


(** A string made of white space only. *)
Fixpoint all_space (s : string) : bool :=
  match s with
  | EmptyString => true
  | String c r => is_space c && all_space r
  end.

(** The files a trace reads, in order. *)
Fixpoint reads (t : list Event) : list string :=
  match t with
  | [] => []
  | EvReadFile path :: r => path :: reads r
  | _ :: r => reads r
  end.


(** ** Values that convert, ASCII text and spellings of an address *)

(** Every value of the list converts to a string. *)
Definition all_stringifiable (values : list JsVal) : bool := forallb stringifiable values.

(** What [(v || "").toString()] throws when it does not return. *)
Definition toString_error (callee : string) (v : JsVal) : Exn :=
  match js_or v (JStr "") with
  | JObj _ => TypeError_not_a_function callee
  | _ => TypeError_cannot_convert
  end.








(** The text of a string: some character that is not white space. *)
Fixpoint has_text (s : string) : bool :=
  match s with
  | EmptyString => false
  | String c r => negb (is_space c) || has_text r
  end.

(** The text of an item in the join of an array. *)
Definition item_text (x : JsVal) : string :=
  match x with
  | JUndefined | JNull => ""
  | _ => ToString x
  end.

(** An object with an own [toString] property, which no conversion accepts. *)
Definition unprintable : JsVal := JObj [("toString", JNum 1)].

(** ** What the functions do, step by step

    The answers and traces the properties below compare the functions with. *)

Definition detail_log (tag : string) (e : Exn) : list Event :=
  match exn_response_body e with
  | Some _ => [EvLog LogError (tag ++ " Detalle SendGrid:")]
  | None => []
  end.

(** The answer and the trace of the outer [catch] for the exception [e]. *)
Definition caught (tag fail_message : string) (e : Exn) : Response * list Event :=
  (respond 500 (Json false fail_message (Some (error_detail e))),
   EvLog LogError (tag ++ " Error general:") :: detail_log tag e).

(** The answer and the trace from [mailClient.send(msg)] on. *)
Definition deliver (w : World) (tag ok_text err_text fail_message ok_message : string)
    (msg : Msg) : Response * list Event :=
  match sgMail_send w msg with
  | Ok _ =>
      (respond 200 (Json true ok_message None),
       [EvSend msg; EvLog LogInfo (tag ++ ok_text)])
  | Throw e =>
      (fst (caught tag fail_message e),
       (EvSend msg :: EvLog LogError (tag ++ err_text) :: detail_log tag e
        ++ snd (caught tag fail_message e))%list)
  end.

(** Whether the directory gave administrators whose addresses all convert. *)
Definition directory_read (w : World) : option (list JsVal) :=
  match firestore_get w admins_query with
  | Ok docs => if all_stringifiable (map (get "correo") docs) then Some docs else None
  | Throw _ => None
  end.

(** The administrators the pre-registration ends with: none when the query
    throws or an address does not convert. *)
Definition adminsOrNone (w : World) : list string :=
  match directory_read w with
  | Some docs => correos docs
  | None => []
  end.

Definition directory_log (w : World) : list Event :=
  match directory_read w with
  | Some _ => []
  | None => [EvLog LogError "[sendAppointmentNotification] Error obteniendo admins:"]
  end.

(** What the query of the new-provider function gives: the addresses, or the
    exception that ends the request. *)
Definition directoryAdmins (w : World) : Outcome (list string) :=
  match firestore_get w admins_query with
  | Ok docs =>
      if all_stringifiable (map (get "correo") docs) then Ok (Set_spread (correos docs))
      else Throw TypeError_cannot_convert
  | Throw e => Throw e
  end.

Definition preRegRecipients (w : World) (providerEmail : JsVal) : list string :=
  Set_spread (filter_Boolean (normalizeEmail providerEmail :: adminsOrNone w)).

(** What [loadAttachments] gives and leaves in the trace. *)
Definition pdfAttachments (w : World) : list Attachment :=
  match readFileSync w CitaConfirmacion.pdfPath with
  | Ok pdfBuffer =>
      [ mkAttachment (BufferBase64 pdfBuffer) (JStr CitaConfirmacion.pdfName)
          "application/pdf" "attachment" ]
  | Throw _ => []
  end.

Definition pdf_log (w : World) : list Event :=
  match readFileSync w CitaConfirmacion.pdfPath with
  | Ok _ => []
  | Throw _ =>
      [EvLog LogError "[sendCitaConfirmacion] No se pudo leer el PDF de indicaciones:"]
  end.

(** The message each function hands to [mailClient.send]. *)
Definition newProviderMsg (req : Request) (adminEmails : list string) : Msg :=
  let body := js_or (req_body req) (JObj []) in
  mkMsg (ToMany adminEmails) sender "Nueva solicitud de registro de proveedor" None
    (NewProvider.htmlBody (get "providerId" body) (get "providerEmail" body)
       (get "providerData" body))
    (Some (NewProvider.zipAttachments (get "zipBase64" body) (get "zipName" body))).

Definition credentialsMsg (req : Request) : Msg :=
  let body := js_or (req_body req) (JObj []) in
  mkMsg (ToOne (normalizeEmail (get "to" body))) sender
    "Credenciales de acceso - Control de Transportes BMM" None
    (AccessCredentials.htmlBody (text_field (get "usuario" body))
       (text_field (get "contrasena" body))
       (AccessCredentials.rolFinal_of (get "rol" body)))
    None.

Definition preRegMsg (req : Request) (recipients : list string) (notasHtml : string)
    : Msg :=
  let body := js_or (req_body req) (JObj []) in
  mkMsg (ToMany recipients) sender
    "Pre-registro de cita de acceso - Control de Transportes BMM" None
    (AppointmentNotification.htmlBody (get "providerLinea" body)
       (get "providerRazon" body) (get "providerFrontera" body)
       (normalizeEmail (get "providerEmail" body)) (get "citaId" body)
       (get "cita" body) notasHtml)
    None.

Definition confirmacionMsg (req : Request) (w : World) (notasHtml : string) : Msg :=
  let body := js_or (req_body req) (JObj []) in
  mkMsg (ToOne (normalizeEmail (get "to" body))) sender
    (CitaConfirmacion.subject_of (get "folio" body))
    (Some (CitaConfirmacion.textBody (get "folio" body) (get "datosCita" body)))
    (CitaConfirmacion.htmlBody (get "folio" body) (get "datosCita" body) notasHtml)
    (match pdfAttachments w with
     | [] => None
     | _ :: _ => Some (pdfAttachments w)
     end).

(** The answer and the trace [after] leaves, behind the events [before]. *)
Definition behind (before : list Event) (after : Response * list Event)
    : Response * list Event :=
  (fst after, (before ++ snd after)%list).

(** The four functions from the point where the request is a POST, the key is
    configured and the required fields are there. *)
Definition newProvider_main (req : Request) (w : World) : Response * list Event :=
  let body := js_or (req_body req) (JObj []) in
  let fail := caught NewProvider.tag "Ocurrió un error al enviar el correo." in
  match run (NewProvider.resolveAdmins (get "adminEmails" body)) w with
  | (Throw e, t) => behind t (fail e)
  | (Ok [], t) =>
      (sendError 500 "Los administradores no tienen correo configurado.",
       (t ++ [EvLog LogError
                "[sendNewProviderEmail] No hay correos de administradores configurados."])%list)
  | (Ok (a :: l), t) =>
      if all_stringifiable
           (NewProvider.interpolated (get "providerId" body) (get "providerEmail" body)
              (get "providerData" body))
      then
        behind t
          (deliver w NewProvider.tag " Correo (nuevo proveedor) enviado. Status:"
             " Error SendGrid (nuevo proveedor):"
             "Ocurrió un error al enviar el correo."
             "Correo enviado correctamente a los administradores."
             (newProviderMsg req (a :: l)))
      else behind t (fail TypeError_cannot_convert)
  end.

Definition credentials_main (req : Request) (w : World) : Response * list Event :=
  let body := js_or (req_body req) (JObj []) in
  let to := get "to" body in
  let usuario := get "usuario" body in
  let contrasena := get "contrasena" body in
  let rol := get "rol" body in
  let fail := caught AccessCredentials.tag "Ocurrió un error al enviar el correo." in
  if negb (stringifiable to) then fail TypeError_cannot_convert
  else if negb (stringifiable usuario) then
    fail (toString_error ("(usuario || " ++ dq ++ dq ++ ").toString") usuario)
  else if negb (stringifiable contrasena) then
    fail (toString_error ("(contrasena || " ++ dq ++ dq ++ ").toString") contrasena)
  else if negb (stringifiable rol) then
    fail (toString_error ("(rol || " ++ dq ++ dq ++ ").toString") rol)
  else if (normalizeEmail to =? "")%string then
    (sendError 400 "Falta el correo del usuario.",
     [EvLog LogError "[sendAccessCredentials] Falta 'to' (correoDestino)."])
  else if (text_field usuario =? "")%string || (text_field contrasena =? "")%string then
    (sendError 400 "Faltan usuario o contraseña.",
     [EvLog LogError "[sendAccessCredentials] Falta usuario o contraseña."])
  else
    deliver w AccessCredentials.tag " Credenciales enviadas. Status:" " Error SendGrid:"
      "Ocurrió un error al enviar el correo."
      "Correo de credenciales enviado correctamente."
      (credentialsMsg req).

Definition preReg_main (req : Request) (w : World) : Response * list Event :=
  let body := js_or (req_body req) (JObj []) in
  let cita := get "cita" body in
  let fail :=
    caught AppointmentNotification.tag
      "Ocurrió un error al enviar la notificación de cita." in
  if negb (stringifiable (get "providerEmail" body)) then fail TypeError_cannot_convert
  else
    behind (EvFirestoreGet admins_query :: directory_log w)
      match preRegRecipients w (get "providerEmail" body) with
      | [] =>
          (sendError 500 "No se encontraron correos configurados para notificar la cita.",
           [EvLog LogError "[sendAppointmentNotification] No hay destinatarios para la cita."])
      | a :: l =>
          if all_stringifiable
               (AppointmentNotification.interpolated (get "providerLinea" body)
                  (get "providerRazon" body) (get "providerFrontera" body)
                  (get "citaId" body) cita)
          then
            match fst (run (AppointmentNotification.comentarios (get "notas" cita)) w) with
            | Ok notasHtml =>
                deliver w AppointmentNotification.tag " Correo de cita enviado. Status:"
                  " Error SendGrid:"
                  "Ocurrió un error al enviar la notificación de cita."
                  "Notificación de cita enviada correctamente."
                  (preRegMsg req (a :: l) notasHtml)
            | Throw e => fail e
            end
          else fail TypeError_cannot_convert
      end.

(** The values the confirmation converts before the notes: the address, the
    folio of the subject, the fields of the two bodies. *)
Definition confirmacion_converted (req : Request) : list JsVal :=
  let body := js_or (req_body req) (JObj []) in
  (get "to" body :: get "folio" body
   :: CitaConfirmacion.interpolated_text (get "folio" body) (get "datosCita" body)
   ++ CitaConfirmacion.interpolated_html (get "folio" body) (get "datosCita" body))%list.

Definition confirmacion_main (req : Request) (w : World) : Response * list Event :=
  let body := js_or (req_body req) (JObj []) in
  let fail :=
    caught CitaConfirmacion.tag "Ocurrió un error al enviar la confirmación de cita." in
  if all_stringifiable (confirmacion_converted req) then
    match fst (run (CitaConfirmacion.comentarios (get "notas" (get "datosCita" body))) w)
    with
    | Ok notasHtml =>
        behind (EvReadFile CitaConfirmacion.pdfPath :: pdf_log w)
          (deliver w CitaConfirmacion.tag " Correo de confirmación enviado. Status:"
             " Error SendGrid:"
             "Ocurrió un error al enviar la confirmación de cita."
             "Correo de confirmación de cita enviado correctamente."
             (confirmacionMsg req w notasHtml))
    | Throw e => fail e
    end
  else fail TypeError_cannot_convert.

(** The answers before the main part: the method, the key, the required
    fields. *)
Definition preflight (o : Outcome Response * list Event) : Prop :=
  o = (Ok (respond 204 (SendText "")), []) \/
  o = (Ok (sendError 405 "Method Not Allowed"), []) \/
  o = (Ok (sendError 500 "SendGrid no está configurado en el servidor."),
       [EvLog LogError "[functions] Falta SENDGRID_API_KEY en las variables de entorno."]) \/
  exists k message, o = (Ok (sendError 400 message), [EvSetApiKey k]).

(** What the main part of a function comes to: it ends without a message,
    on a refusal or in the outer [catch]; or it hands one message to SendGrid
    and answers by what SendGrid said. *)
Definition delivery_shape (w : World) (fail_message ok_message : string)
    (o : Response * list Event) : Prop :=
  (sent (snd o) = [] /\
   exists message,
     fst o = sendError 400 message \/ fst o = sendError 500 message \/
     fst o = respond 500 (Json false fail_message (Some message))) \/
  (exists msg,
     sent (snd o) = [msg] /\
     fst o =
       match sgMail_send w msg with
       | Ok _ => respond 200 (Json true ok_message None)
       | Throw e => respond 500 (Json false fail_message (Some (error_detail e)))
       end).

(** ** Worlds and requests of the examples *)

(** Worlds for the examples: a configured key, the given Firestore and file
    answers, SendGrid accepting every message with status 202. *)
Definition example_world (directory : Outcome (list JsVal))
    (pdf : Outcome (list Byte.byte)) : World :=
  mkWorld (Some "SG.key") (fun _ => directory) (fun _ => pdf) (fun _ => Ok 202).

Definition ENOENT : Exn := mkExn "Error" "ENOENT: no such file or directory" None.

Definition UNAVAILABLE : Exn := mkExn "Error" "14 UNAVAILABLE" None.

Definition admin_doc (correo : string) : JsVal := JObj [("correo", JStr correo)].

Definition notes_request (notas : string) : Request :=
  mkRequest "POST"
    (JObj [("to", JStr "chofer@fletes.mx"); ("folio", JStr "F-100");
           ("providerEmail", JStr "ventas@fletes.mx");
           ("datosCita", JObj [("notas", JStr notas)]);
           ("cita", JObj [("fecha", JStr "2025-03-02"); ("hora", JStr "10:00");
                          ("notas", JStr notas)])]).

Definition flag_request (recolectaCaja esDomingo : JsVal) : Request :=
  mkRequest "POST"
    (JObj [("providerEmail", JStr "ventas@fletes.mx");
           ("cita", JObj [("fecha", JStr "2025-03-02"); ("hora", JStr "10:00");
                          ("recolectaCaja", recolectaCaja);
                          ("esDomingo", esDomingo)])]).

(** ** The four functions together *)

(** A property that holds of each exported function. *)
Definition every_function (P : (Request -> M Response) -> Prop) : Prop :=
  P NewProvider.sendNewProviderEmail /\
  P AccessCredentials.sendAccessCredentials /\
  P AppointmentNotification.sendAppointmentNotification /\
  P CitaConfirmacion.sendCitaConfirmacion.

(** The key is missing when the variable is unset or empty. *)
Definition key_missing (w : World) : Prop :=
  SENDGRID_API_KEY w = None \/ SENDGRID_API_KEY w = Some "".

(** The shape every answer has: the CORS headers; an empty text only with
    204; otherwise the JSON body, [success] exactly with 200 and an [error]
    detail only with 500. *)
Definition well_formed_answer (r : Response) : Prop :=
  res_headers r = cors_headers /\
  match res_payload r with
  | SendText text => res_status r = 204 /\ text = ""
  | Json success _ error =>
      In (res_status r) [200; 400; 405; 500] /\
      success = (res_status r =? 200) /\
      (res_status r = 500 \/ error = None)
  end.

(** [f] answers a rejected delivery with 500, [message] and the detail of the
    SendGrid error. *)
Definition reports_delivery_failure (f : Request -> M Response) (message : string)
    : Prop :=
  forall req w msg e,
    In msg (sent (snd (run (f req) w))) ->
    sgMail_send w msg = Throw e ->
    fst (run (f req) w) =
      Ok (respond 500 (Json false message (Some (error_detail e)))).

(** [f] answers an accepted delivery with 200 and [message]. *)
Definition reports_delivery_success (f : Request -> M Response) (message : string)
    : Prop :=
  forall req w msg status,
    In msg (sent (snd (run (f req) w))) ->
    sgMail_send w msg = Ok status ->
    fst (run (f req) w) = Ok (respond 200 (Json true message None)).

(** A truthy value that is not a string: a number, [true], an array, an
    object. *)
Definition not_text (v : JsVal) : Prop :=
  truthy v = true /\ forall s, v <> JStr s.

(** A world whose SendGrid rejects every message with [e]. *)
Definition rejecting_world (e : Exn) : World :=
  mkWorld (Some "SG.key") (fun _ => Ok []) (fun _ => Throw ENOENT) (fun _ => Throw e).

(** * Properties *)

(** ** Small runs of the primitives *)

Example trim_padded : trim "  User@X.com " = "User@X.com".
Proof. reflexivity. Qed.

Example normalizeEmail_padded : normalizeEmail (JStr "  User@X.com ") = "user@x.com".
Proof. reflexivity. Qed.

Example normalizeEmail_absent : normalizeEmail JUndefined = "".
Proof. reflexivity. Qed.

Example ToString_array :
  ToString (JArr [JNum (-12); JNull; JStr "a"; JArr [JNum 0; JBool true]]) = "-12,,a,0,true".
Proof. reflexivity. Qed.

Example Set_spread_first_seen : Set_spread ["b"; "a"; "b"; "c"; "a"] = ["b"; "a"; "c"].
Proof. reflexivity. Qed.

Example stringifiable_shadowed :
  stringifiable (JArr [JStr "a"; JObj [("toString", JNull)]]) = false /\
  stringifiable (JObj [("valueOf", JNum 1)]) = true.
Proof. split; reflexivity. Qed.

Example replaceAll_lt : replaceAll "<"%char "&lt;" "a<b<" = "a&lt;b&lt;".
Proof. reflexivity. Qed.

(** ** Strings *)

Section StringFacts.













Lemma trimStart_all_space (s : string) : all_space s = true -> trimStart s = "".
Proof.
  induction s as [|c r IH]; simpl; [reflexivity|].
  intros H. apply andb_prop in H as [Hc Hr]. now rewrite Hc, (IH Hr).
Qed.

Lemma trim_all_space (s : string) : all_space s = true -> trim s = "".
Proof. intros H. unfold trim. now rewrite (trimStart_all_space s H). Qed.

Lemma append_assoc (a b c : string) : ((a ++ b) ++ c = a ++ (b ++ c))%string.
Proof. induction a as [|x a IH]; simpl; [reflexivity | now rewrite IH]. Qed.

Lemma append_nil_r (a : string) : (a ++ "")%string = a.
Proof. induction a as [|x a IH]; simpl; [reflexivity | now rewrite IH]. Qed.

Lemma prefix_append (sub post : string) : String.prefix sub (sub ++ post) = true.
Proof.
  induction sub as [|x sub IH]; simpl; [now destruct post|].
  destruct (ascii_dec x x) as [_ | N]; [exact IH | now elim N].
Qed.

Lemma includes_append (pre sub post : string) :
  includes sub (pre ++ sub ++ post) = true.
Proof.
  induction pre as [|x pre IH].
  - change ("" ++ sub ++ post)%string with (sub ++ post)%string.
    pose proof (prefix_append sub post) as H.
    destruct (sub ++ post)%string; cbn [includes]; now rewrite H.
  - change (String x pre ++ sub ++ post)%string with (String x (pre ++ sub ++ post)).
    cbn [includes]. rewrite IH. apply orb_true_r.
Qed.

Lemma unlines_line (lines : list string) (l : string) :
  In l lines -> exists pre post, unlines lines = (pre ++ l ++ LF ++ post)%string.
Proof.
  induction lines as [|x lines IH]; intros Hin; [destruct Hin|].
  destruct Hin as [-> | Hin].
  - exists "", (unlines lines). reflexivity.
  - destruct (IH Hin) as [pre [post E]].
    exists (x ++ LF ++ pre)%string, post. simpl. rewrite E.
    now rewrite !append_assoc.
Qed.

(** Every line of a template literal is part of the string it builds. *)
Lemma template_includes (lines : list string) (last l : string) :
  In l lines -> includes l (template lines last) = true.
Proof.
  intros Hin. destruct (unlines_line lines l Hin) as [pre [post E]].
  unfold template. rewrite E.
  replace (LF ++ (pre ++ l ++ LF ++ post) ++ last)%string
    with ((LF ++ pre) ++ l ++ (LF ++ post ++ last))%string
    by (now rewrite !append_assoc).
  apply includes_append.
Qed.

Lemma trimStart_append (a b : string) :
  trimStart a <> "" -> trimStart (a ++ b) = (trimStart a ++ b)%string.
Proof.
  induction a as [|c a IH]; simpl; [intros H; now elim H|].
  destruct (is_space c); [exact IH | reflexivity].
Qed.

Lemma trimEnd_append (a b : string) :
  trimEnd b <> "" -> trimEnd (a ++ b) = (a ++ trimEnd b)%string.
Proof.
  intros H. induction a as [|c a IH]; simpl; [reflexivity|].
  rewrite IH. destruct (a ++ trimEnd b)%string eqn:E; [|reflexivity].
  destruct a; simpl in E; [contradiction | discriminate].
Qed.

(** [trim] leaves alone what stands between two parts that hold text. *)
Lemma trim_inner (a m b : string) :
  trimStart a <> "" -> trimEnd b <> "" ->
  trim (a ++ m ++ b) = (trimStart a ++ m ++ trimEnd b)%string.
Proof.
  intros Ha Hb. unfold trim. rewrite (trimStart_append a (m ++ b) Ha).
  rewrite <- !append_assoc. rewrite (trimEnd_append (trimStart a ++ m) b Hb).
  reflexivity.
Qed.

Lemma unlines_app (xs ys : list string) :
  unlines (xs ++ ys) = (unlines xs ++ unlines ys)%string.
Proof.
  induction xs as [|x xs IH]; simpl; [reflexivity|].
  now rewrite IH, !append_assoc.
Qed.

(** A trimmed template literal whose first line starts with text and whose
    last line holds text keeps every line in between. *)
Lemma trimmed_template_includes (c : ascii) (first : string)
    (rest : list string) (l : string) :
  is_space c = false ->
  trimEnd (last rest "" ++ LF) <> "" ->
  In l (removelast rest) ->
  includes l (trim (template (String c first :: rest) "")) = true.
Proof.
  intros Hc Hlast Hin.
  assert (rest <> []) as Hne by (destruct rest; [destruct Hin | discriminate]).
  rewrite (app_removelast_last "" Hne).
  destruct (unlines_line (removelast rest) l Hin) as [pre [post E]].
  unfold template. cbn [unlines]. rewrite unlines_app, E. cbn [unlines].
  replace (LF ++ (String c first ++ LF ++ (pre ++ l ++ LF ++ post)
                    ++ last rest "" ++ LF ++ "") ++ "")%string
    with ((LF ++ String c first ++ LF ++ pre) ++ l ++
          ((LF ++ post) ++ (last rest "" ++ LF)))%string
    by (now rewrite !append_assoc, !append_nil_r).
  rewrite trim_inner.
  - apply includes_append.
  - simpl. rewrite Hc. discriminate.
  - rewrite (trimEnd_append _ _ Hlast).
    intros H. destruct post; discriminate H.
Qed.

Lemma includes_char_cons (c b : ascii) (s : string) :
  includes (String c "") (String b s) =
    (if ascii_dec c b then true else false) || includes (String c "") s.
Proof.
  cbn [includes String.prefix].
  destruct (ascii_dec c b); [destruct s|]; reflexivity.
Qed.

Lemma includes_char_append (c : ascii) (p t : string) :
  includes (String c "") (p ++ t) =
    includes (String c "") p || includes (String c "") t.
Proof.
  induction p as [|b p IH]; [reflexivity|].
  change (String b p ++ t)%string with (String b (p ++ t)).
  now rewrite !includes_char_cons, IH, orb_assoc.
Qed.

(** Replacing every [c] by a text without [c] leaves no [c]. *)
Lemma replaceAll_removes (c : ascii) (by_ s : string) :
  includes (String c "") by_ = false ->
  includes (String c "") (replaceAll c by_ s) = false.
Proof.
  intros Hby. induction s as [|d s IH]; [reflexivity|].
  simpl replaceAll. destruct (Ascii.eqb d c) eqn:E.
  - now rewrite includes_char_append, Hby, IH.
  - rewrite includes_char_cons, IH, orb_false_r.
    destruct (ascii_dec c d) as [-> | _]; [|reflexivity].
    now rewrite Ascii.eqb_refl in E.
Qed.









Lemma has_text_append (a b : string) :
  has_text (a ++ b) = has_text a || has_text b.
Proof.
  induction a as [|c a IH]; simpl; [reflexivity|].
  now rewrite IH, orb_assoc.
Qed.

Lemma has_text_trimEnd (s : string) : has_text s = true -> trimEnd s <> "".
Proof.
  induction s as [|c r IH]; simpl; [discriminate|].
  destruct (is_space c); simpl.
  - intros H. specialize (IH H). destruct (trimEnd r); [contradiction | discriminate].
  - intros _. destruct (trimEnd r); discriminate.
Qed.

Lemma has_text_trimStart_keeps (s : string) : has_text (trimStart s) = has_text s.
Proof.
  induction s as [|c r IH]; simpl; [reflexivity|].
  destruct (is_space c) eqn:E; simpl; [exact IH | now rewrite E].
Qed.

Lemma has_text_trim (s : string) : has_text s = true -> trim s <> "".
Proof.
  intros H. unfold trim. apply has_text_trimEnd.
  now rewrite has_text_trimStart_keeps.
Qed.

Lemma toLowerCase_nil (s : string) : toLowerCase s = "" -> s = "".
Proof. destruct s; simpl; [reflexivity | discriminate]. Qed.

End StringFacts.

(** ** [normalizeEmail] *)




(** ** [filter(Boolean)] and [new Set] *)

Lemma filter_Boolean_In (l : list string) (a : string) :
  In a (filter_Boolean l) <-> In a l /\ a <> "".
Proof.
  unfold filter_Boolean. rewrite filter_In.
  destruct (a =? "")%string eqn:E; simpl.
  - apply String.eqb_eq in E. intuition congruence.
  - apply String.eqb_neq in E. intuition.
Qed.

Lemma filter_Boolean_idem (l : list string) :
  filter_Boolean (filter_Boolean l) = filter_Boolean l.
Proof.
  unfold filter_Boolean. induction l as [|a l IH]; simpl; [reflexivity|].
  destruct (a =? "")%string eqn:E; simpl; [exact IH|].
  now rewrite E, IH.
Qed.


Lemma existsb_eqb_In (x : string) (acc : list string) :
  existsb (String.eqb x) acc = true <-> In x acc.
Proof.
  rewrite existsb_exists. split.
  - intros [y [Hy E]]. apply String.eqb_eq in E. now subst.
  - intros H. exists x. split; [exact H | apply String.eqb_refl].
Qed.

Lemma Set_add_In (acc : list string) (x a : string) :
  In a (Set_add acc x) <-> In a acc \/ a = x.
Proof.
  unfold Set_add. destruct (existsb (String.eqb x) acc) eqn:E.
  - apply existsb_eqb_In in E. split; [auto|]. intros [H | ->]; assumption.
  - rewrite in_app_iff. simpl. intuition.
Qed.

Lemma Set_add_NoDup (acc : list string) (x : string) :
  NoDup acc -> NoDup (Set_add acc x).
Proof.
  intros H. unfold Set_add. destruct (existsb (String.eqb x) acc) eqn:E; [exact H|].
  assert (~ In x acc) as Hx.
  { intros Hin. apply existsb_eqb_In in Hin. congruence. }
  clear E. induction H as [|y l Hy Hl IH]; simpl.
  - constructor; [intros [] | constructor].
  - constructor.
    + rewrite in_app_iff. simpl. intros [Hin | [-> | []]]; [auto|].
      apply Hx. now left.
    + apply IH. intros Hin. apply Hx. now right.
Qed.

Lemma fold_Set_add_In (l acc : list string) (a : string) :
  In a (fold_left Set_add l acc) <-> In a acc \/ In a l.
Proof.
  revert acc. induction l as [|x l IH]; intros acc; simpl.
  - intuition.
  - rewrite IH, Set_add_In. intuition.
Qed.

Lemma fold_Set_add_NoDup (l acc : list string) :
  NoDup acc -> NoDup (fold_left Set_add l acc).
Proof.
  revert acc. induction l as [|x l IH]; intros acc H; simpl; [exact H|].
  apply IH, Set_add_NoDup, H.
Qed.

Lemma Set_spread_In (l : list string) (a : string) :
  In a (Set_spread l) <-> In a l.
Proof. unfold Set_spread. rewrite fold_Set_add_In. simpl. intuition. Qed.

Lemma Set_spread_NoDup (l : list string) : NoDup (Set_spread l).
Proof. apply fold_Set_add_NoDup. constructor. Qed.

Lemma Set_spread_nil (l : list string) : Set_spread l = [] <-> l = [].
Proof.
  split; [|now intros ->].
  destruct l as [|x l]; [reflexivity|]. intros H.
  assert (In x (Set_spread (x :: l))) as Hin by (apply Set_spread_In; now left).
  rewrite H in Hin. destruct Hin.
Qed.

(** A list without duplicates whose members all equal [a] is [[a]] or empty. *)
Lemma NoDup_constant (l : list string) (a : string) :
  NoDup l -> (forall x, In x l -> x = a) -> l = [] \/ l = [a].
Proof.
  intros Hnd Hall. destruct l as [|x [|y r]]; [now left | right | exfalso].
  - f_equal. apply Hall. now left.
  - assert (x = a) by (apply Hall; simpl; auto).
    assert (y = a) by (apply Hall; simpl; auto).
    subst. inversion Hnd as [|? ? Hx _]. apply Hx. now left.
Qed.


Lemma fold_Set_add_prefix (l acc : list string) :
  exists rest, fold_left Set_add l acc = (acc ++ rest)%list.
Proof.
  revert acc. induction l as [|x l IH]; intros acc; simpl.
  - exists []. now rewrite app_nil_r.
  - unfold Set_add at 2. destruct (existsb (String.eqb x) acc).
    + apply IH.
    + destruct (IH (acc ++ [x])%list) as [rest E].
      exists (x :: rest). rewrite E. now rewrite <- app_assoc.
Qed.

Lemma fold_Set_add_distinct (l acc : list string) :
  NoDup (acc ++ l) -> fold_left Set_add l acc = (acc ++ l)%list.
Proof.
  revert acc. induction l as [|x l IH]; intros acc H; simpl.
  - now rewrite app_nil_r.
  - assert (~ In x acc) as Hx.
    { apply NoDup_remove_2 in H. intros Hin. apply H, in_or_app. now left. }
    unfold Set_add at 2. destruct (existsb (String.eqb x) acc) eqn:E.
    + apply existsb_eqb_In in E. contradiction.
    + rewrite IH; rewrite <- app_assoc; [reflexivity | exact H].
Qed.

(** [[...new Set(l)]] leaves a list without duplicates as it is. *)
Lemma Set_spread_distinct (l : list string) : NoDup l -> Set_spread l = l.
Proof. intros H. unfold Set_spread. now rewrite fold_Set_add_distinct. Qed.

(** [[...new Set(l)]] starts with the first element of [l]. *)
Lemma Set_spread_head (a : string) (l : list string) :
  exists rest, Set_spread (a :: l) = a :: rest.
Proof.
  unfold Set_spread. simpl. unfold Set_add at 2. simpl.
  destruct (fold_Set_add_prefix l [a]) as [rest E]. exists rest. exact E.
Qed.

(** ** Conversions that return, and those that throw *)

Lemma falsy_stringifiable (v : JsVal) : truthy v = false -> stringifiable v = true.
Proof. destruct v; simpl; try reflexivity; discriminate. Qed.

Lemma js_or_stringifiable (v : JsVal) (d : string) :
  stringifiable (js_or v (JStr d)) = stringifiable v.
Proof.
  unfold js_or. destruct (truthy v) eqn:E; [reflexivity|].
  now rewrite (falsy_stringifiable v E).
Qed.

(** Induction on a value, with the items of an array. *)
Lemma JsVal_items_ind (P : JsVal -> Prop) :
  P JUndefined -> P JNull -> (forall b, P (JBool b)) -> (forall n, P (JNum n)) ->
  (forall s, P (JStr s)) ->
  (forall items, Forall P items -> P (JArr items)) ->
  (forall props, P (JObj props)) ->
  forall v, P v.
Proof.
  intros Hu Hn Hb Hz Hs Ha Ho.
  fix IH 1.
  intros [ | | b | n | s | items | props];
    [exact Hu | exact Hn | apply Hb | apply Hz | apply Hs | | apply Ho].
  apply Ha. induction items as [|x items IHitems]; constructor; [apply IH | exact IHitems].
Qed.

Lemma ToString_JArr_one (x : JsVal) :
  ToString (JArr [x]) = item_text x.
Proof. reflexivity. Qed.

Lemma ToString_JArr_more (x y : JsVal) (items : list JsVal) :
  ToString (JArr (x :: y :: items)) =
    (item_text x ++ "," ++ ToString (JArr (y :: items)))%string.
Proof. reflexivity. Qed.

Lemma stringifiable_JArr_cons (x : JsVal) (items : list JsVal) :
  stringifiable (JArr (x :: items)) = stringifiable x && stringifiable (JArr items).
Proof. reflexivity. Qed.

(** A value that does not convert prints, in [ToString], as a text that is
    not blank: it holds the text of an object. *)
Lemma unstringifiable_has_text (v : JsVal) :
  stringifiable v = false -> has_text (ToString v) = true.
Proof.
  induction v as [ | | b | n | s | items IH | props] using JsVal_items_ind;
    try discriminate; [|reflexivity].
  induction IH as [|x items Hx _ IHitems]; [discriminate|].
  rewrite stringifiable_JArr_cons. intros H. apply andb_false_iff in H.
  assert (stringifiable x = false -> has_text (item_text x) = true) as Hx'.
  { intros E. specialize (Hx E). destruct x; try discriminate; exact Hx. }
  destruct items as [|y items].
  - rewrite ToString_JArr_one. destruct H as [H | H]; [now apply Hx' | discriminate].
  - rewrite ToString_JArr_more, !has_text_append. destruct H as [H | H].
    + now rewrite (Hx' H).
    + rewrite (IHitems H). now rewrite !orb_true_r.
Qed.

Lemma unstringifiable_normalizeEmail (v : JsVal) :
  stringifiable v = false -> normalizeEmail v <> "".
Proof.
  intros H. unfold normalizeEmail.
  destruct (truthy v) eqn:E; simpl.
  - intros E'. apply toLowerCase_nil in E'.
    now apply (has_text_trim _ (unstringifiable_has_text v H)).
  - now rewrite (falsy_stringifiable v E) in H.
Qed.

(** A list whose addresses are all blank held only values that convert. *)
Lemma blank_addresses_stringifiable (vs : list JsVal) :
  filter_Boolean (map normalizeEmail vs) = [] -> all_stringifiable vs = true.
Proof.
  unfold all_stringifiable, filter_Boolean.
  induction vs as [|v vs IH]; simpl; [reflexivity|].
  destruct (normalizeEmail v =? "")%string eqn:E; simpl; [|discriminate].
  intros H. rewrite (IH H), andb_true_r.
  destruct (stringifiable v) eqn:Ev; [reflexivity|].
  apply String.eqb_eq in E. now apply unstringifiable_normalizeEmail in Ev.
Qed.

Lemma correos_map (docs : list JsVal) :
  correos docs = filter_Boolean (map normalizeEmail (map (get "correo") docs)).
Proof. unfold correos. now rewrite map_map. Qed.

(** ** Spellings of an address *)


(** ** Traces *)

Lemma queries_app (t1 t2 : list Event) :
  queries (t1 ++ t2) = (queries t1 ++ queries t2)%list.
Proof.
  induction t1 as [|ev t1 IH]; simpl; [reflexivity|].
  destruct ev; simpl; now rewrite ?IH.
Qed.

Lemma sent_app (t1 t2 : list Event) :
  sent (t1 ++ t2) = (sent t1 ++ sent t2)%list.
Proof.
  induction t1 as [|ev t1 IH]; simpl; [reflexivity|].
  destruct ev; simpl; now rewrite ?IH.
Qed.

Lemma reads_app (t1 t2 : list Event) : reads (t1 ++ t2) = (reads t1 ++ reads t2)%list.
Proof.
  induction t1 as [|ev t1 IH]; simpl; [reflexivity|].
  destruct ev; simpl; now rewrite ?IH.
Qed.

Arguments NewProvider.htmlBody : simpl never.
Arguments AccessCredentials.htmlBody : simpl never.
Arguments AppointmentNotification.htmlBody : simpl never.
Arguments CitaConfirmacion.htmlBody : simpl never.
Arguments CitaConfirmacion.textBody : simpl never.
Arguments CitaConfirmacion.subject_of : simpl never.
Arguments NewProvider.interpolated : simpl never.
Arguments AppointmentNotification.interpolated : simpl never.
Arguments CitaConfirmacion.interpolated_text : simpl never.
Arguments CitaConfirmacion.interpolated_html : simpl never.
Arguments all_stringifiable : simpl never.
Arguments filter_Boolean : simpl never.
Arguments stringifiable : simpl never.
Arguments String.append : simpl never.
Arguments String.eqb : simpl nomatch.

(** ** The conversions, as equations *)

Lemma Call_ToString_run (v : JsVal) (w : World) :
  Call.ToString v w =
    (if stringifiable v then Ok (ToString v) else Throw TypeError_cannot_convert, []).
Proof. unfold Call.ToString. now destruct (stringifiable v). Qed.

Lemma Call_normalizeEmail_run (v : JsVal) (w : World) :
  Call.normalizeEmail v w =
    (if stringifiable v then Ok (normalizeEmail v) else Throw TypeError_cannot_convert, []).
Proof.
  unfold Call.normalizeEmail, normalizeEmail.
  destruct (truthy v) eqn:E; simpl.
  - unfold bind. rewrite Call_ToString_run. now destruct (stringifiable v).
  - now rewrite (falsy_stringifiable v E).
Qed.

Lemma mapM_normalizeEmail_run (vs : list JsVal) (w : World) :
  mapM Call.normalizeEmail vs w =
    (if all_stringifiable vs then Ok (map normalizeEmail vs)
     else Throw TypeError_cannot_convert, []).
Proof.
  unfold all_stringifiable.
  induction vs as [|v vs IH]; [reflexivity|].
  cbn [mapM forallb map]. unfold bind at 1. rewrite Call_normalizeEmail_run.
  destruct (stringifiable v); [|reflexivity].
  unfold bind. rewrite IH.
  now destruct (forallb stringifiable vs).
Qed.

Lemma mapM_correo_run (docs : list JsVal) (w : World) :
  mapM (fun data => Call.normalizeEmail (get "correo" data)) docs w =
    mapM Call.normalizeEmail (map (get "correo") docs) w.
Proof.
  induction docs as [|d docs IH]; [reflexivity|].
  cbn [mapM map]. unfold bind. now rewrite IH.
Qed.

Lemma Call_correos_run (docs : list JsVal) (w : World) :
  Call.correos docs w =
    (if all_stringifiable (map (get "correo") docs) then Ok (correos docs)
     else Throw TypeError_cannot_convert, []).
Proof.
  unfold Call.correos, bind. rewrite mapM_correo_run, mapM_normalizeEmail_run.
  rewrite correos_map.
  now destruct (all_stringifiable (map (get "correo") docs)).
Qed.

Lemma Call_interpolate_run (values : list JsVal) (w : World) :
  Call.interpolate values w =
    (if all_stringifiable values then Ok tt else Throw TypeError_cannot_convert, []).
Proof.
  unfold all_stringifiable.
  induction values as [|v vs IH]; [reflexivity|].
  cbn [Call.interpolate forallb]. unfold bind. rewrite Call_ToString_run.
  destruct (stringifiable v); [|reflexivity].
  rewrite IH. now destruct (forallb stringifiable vs).
Qed.

Lemma Call_text_field_run (callee : string) (v : JsVal) (w : World) :
  Call.text_field callee v w =
    (if stringifiable v then Ok (text_field v) else Throw (toString_error callee v), []).
Proof.
  unfold Call.text_field, Call.toString, text_field, toString_error, bind.
  rewrite <- (js_or_stringifiable v "").
  unfold js_or. destruct (truthy v) eqn:E.
  - destruct v; try discriminate E; try reflexivity.
    + rewrite Call_ToString_run. now destruct (stringifiable (JArr items)).
    + unfold stringifiable. now destruct (has_key "toString" props).
  - reflexivity.
Qed.

Arguments Call.ToString : simpl never.
Arguments Call.normalizeEmail : simpl never.
Arguments Call.text_field : simpl never.
Arguments Call.correos : simpl never.
Arguments Call.interpolate : simpl never.
Arguments mapM : simpl never.

Lemma explicitAdmins_items (v : JsVal) :
  NewProvider.explicitAdmins v =
    match array_items v with
    | Some items => filter_Boolean (map normalizeEmail items)
    | None => []
    end.
Proof. now destruct v. Qed.

(** Unfolds the monad down to the answers of the world. *)
Ltac unfold_M :=
  unfold run, send_logged, on_error, initSendGridOrFail, replace_method,
    bind, try_catch, ret, throw, console_log, console_error, setApiKey, emit,
    env_SENDGRID_API_KEY, firestore_where_in_get, fs_readFileSync,
    mailClient_send in *.

Lemma String_eqb_false (a b : string) : a <> b -> (a =? b)%string = false.
Proof. intros H. now apply String.eqb_neq. Qed.

(** Splits a run on every answer of the world and every test of the code,
    innermost first; a conversion is replaced by its equation. *)
Ltac break_match :=
  match goal with
  | |- context [match ?x with _ => _ end] =>
      lazymatch x with
      | context [match _ with _ => _ end] => fail
      | _ => destruct x eqn:?
      end
  end.

Ltac unfold_functions :=
  unfold NewProvider.sendNewProviderEmail, AccessCredentials.sendAccessCredentials,
    AppointmentNotification.sendAppointmentNotification,
    CitaConfirmacion.sendCitaConfirmacion,
    NewProvider.resolveAdmins, AppointmentNotification.resolveRecipients,
    AppointmentNotification.queryAdminEmails,
    AppointmentNotification.comentarios, CitaConfirmacion.comentarios,
    CitaConfirmacion.loadAttachments in *;
  unfold_M.

Ltac conversion_step :=
  first [ rewrite Call_normalizeEmail_run
        | rewrite Call_text_field_run
        | rewrite Call_interpolate_run
        | rewrite Call_correos_run
        | rewrite mapM_normalizeEmail_run ].

Ltac run_cases := unfold_functions; repeat (first [conversion_step | break_match]; simpl).

(** ** The delivery step and the outer [catch], as equations *)

Lemma sent_detail_log (tag : string) (e : Exn) : sent (detail_log tag e) = [].
Proof. unfold detail_log. now destruct (exn_response_body e). Qed.

Lemma queries_detail_log (tag : string) (e : Exn) : queries (detail_log tag e) = [].
Proof. unfold detail_log. now destruct (exn_response_body e). Qed.

Lemma reads_detail_log (tag : string) (e : Exn) : reads (detail_log tag e) = [].
Proof. unfold detail_log. now destruct (exn_response_body e). Qed.

Lemma sent_caught (tag m : string) (e : Exn) : sent (snd (caught tag m e)) = [].
Proof. simpl. apply sent_detail_log. Qed.

Lemma queries_caught (tag m : string) (e : Exn) : queries (snd (caught tag m e)) = [].
Proof. simpl. apply queries_detail_log. Qed.

Lemma reads_caught (tag m : string) (e : Exn) : reads (snd (caught tag m e)) = [].
Proof. simpl. apply reads_detail_log. Qed.

Lemma sent_deliver (w : World) (tag a b c d : string) (msg : Msg) :
  sent (snd (deliver w tag a b c d msg)) = [msg].
Proof.
  unfold deliver. destruct (sgMail_send w msg); simpl; [reflexivity|].
  rewrite sent_app. simpl. now rewrite !sent_detail_log.
Qed.

Lemma queries_deliver (w : World) (tag a b c d : string) (msg : Msg) :
  queries (snd (deliver w tag a b c d msg)) = [].
Proof.
  unfold deliver. destruct (sgMail_send w msg); simpl; [reflexivity|].
  rewrite queries_app. simpl. now rewrite !queries_detail_log.
Qed.

Lemma reads_deliver (w : World) (tag a b c d : string) (msg : Msg) :
  reads (snd (deliver w tag a b c d msg)) = [].
Proof.
  unfold deliver. destruct (sgMail_send w msg); simpl; [reflexivity|].
  rewrite reads_app. simpl. now rewrite !reads_detail_log.
Qed.

Lemma status_deliver (w : World) (tag a b c d : string) (msg : Msg) :
  res_status (fst (deliver w tag a b c d msg)) =
    match sgMail_send w msg with Ok _ => 200 | Throw _ => 500 end.
Proof. unfold deliver. now destruct (sgMail_send w msg). Qed.

Lemma sent_behind (t : list Event) (after : Response * list Event) :
  sent (snd (behind t after)) = (sent t ++ sent (snd after))%list.
Proof. apply sent_app. Qed.

Lemma queries_behind (t : list Event) (after : Response * list Event) :
  queries (snd (behind t after)) = (queries t ++ queries (snd after))%list.
Proof. apply queries_app. Qed.

Lemma reads_behind (t : list Event) (after : Response * list Event) :
  reads (snd (behind t after)) = (reads t ++ reads (snd after))%list.
Proof. apply reads_app. Qed.

Lemma sent_directory_log (w : World) : sent (directory_log w) = [].
Proof. unfold directory_log. now destruct (directory_read w). Qed.

Lemma queries_directory_log (w : World) : queries (directory_log w) = [].
Proof. unfold directory_log. now destruct (directory_read w). Qed.

Lemma sent_pdf_log (w : World) : sent (pdf_log w) = [].
Proof. unfold pdf_log. now destruct (readFileSync w CitaConfirmacion.pdfPath). Qed.

Lemma reads_pdf_log (w : World) : reads (pdf_log w) = [].
Proof. unfold pdf_log. now destruct (readFileSync w CitaConfirmacion.pdfPath). Qed.

(** ** Recipient resolution, as equations *)

Lemma resolveAdmins_run (v : JsVal) (w : World) :
  run (NewProvider.resolveAdmins v) w =
    match array_items v with
    | Some items =>
        if all_stringifiable items then
          match filter_Boolean (map normalizeEmail items) with
          | [] => (directoryAdmins w, [EvFirestoreGet admins_query])
          | a :: l => (Ok (Set_spread (a :: l)), [])
          end
        else (Throw TypeError_cannot_convert, [])
    | None => (directoryAdmins w, [EvFirestoreGet admins_query])
    end.
Proof.
  unfold directoryAdmins. run_cases; reflexivity.
Qed.

(** With an explicit list that gives addresses, the list is the answer. *)
Lemma resolveAdmins_explicit (v : JsVal) (w : World) (items : list JsVal) :
  array_items v = Some items -> all_stringifiable items = true ->
  filter_Boolean (map normalizeEmail items) <> [] ->
  run (NewProvider.resolveAdmins v) w =
    (Ok (Set_spread (filter_Boolean (map normalizeEmail items))), []).
Proof.
  intros Hv Hc Hne. rewrite resolveAdmins_run, Hv, Hc.
  destruct (filter_Boolean (map normalizeEmail items)); [contradiction | reflexivity].
Qed.

(** Without one, the directory is. *)
Lemma resolveAdmins_directory (v : JsVal) (w : World) :
  NewProvider.explicitAdmins v = [] ->
  run (NewProvider.resolveAdmins v) w =
    (directoryAdmins w, [EvFirestoreGet admins_query]).
Proof.
  intros Hv. rewrite resolveAdmins_run. rewrite explicitAdmins_items in Hv.
  destruct (array_items v) as [items|]; [|reflexivity].
  rewrite (blank_addresses_stringifiable items Hv). now rewrite Hv.
Qed.

Lemma queryAdminEmails_run (w : World) :
  run AppointmentNotification.queryAdminEmails w =
    (Ok (adminsOrNone w), EvFirestoreGet admins_query :: directory_log w).
Proof.
  unfold adminsOrNone, directory_log, directory_read.
  run_cases; reflexivity.
Qed.

Lemma resolveRecipients_run (providerEmail : JsVal) (w : World) :
  run (AppointmentNotification.resolveRecipients providerEmail) w =
    if stringifiable providerEmail then
      (Ok (preRegRecipients w providerEmail),
       EvFirestoreGet admins_query :: directory_log w)
    else (Throw TypeError_cannot_convert, []).
Proof.
  unfold preRegRecipients, adminsOrNone, directory_log, directory_read.
  run_cases; reflexivity.
Qed.

Lemma comentarios_prereg_trace (notas : JsVal) (w : World) :
  snd (run (AppointmentNotification.comentarios notas) w) = [].
Proof.
  unfold AppointmentNotification.comentarios. unfold_M.
  now destruct (js_or notas (JStr "")).
Qed.

Lemma comentarios_confirm_trace (notas : JsVal) (w : World) :
  snd (run (CitaConfirmacion.comentarios notas) w) = [].
Proof.
  unfold CitaConfirmacion.comentarios. unfold_M.
  destruct (truthy notas); [|reflexivity]. now destruct notas.
Qed.

(** ** The four functions on a request that passes the first checks *)

Ltac unfold_mains :=
  unfold newProvider_main, credentials_main, preReg_main, confirmacion_main,
    confirmacion_converted, behind, deliver, caught, detail_log, preRegRecipients,
    adminsOrNone, directory_log, directory_read, pdf_log, pdfAttachments,
    newProviderMsg, credentialsMsg, preRegMsg, confirmacionMsg,
    AccessCredentials.rolFinal_of in *.

Lemma all_stringifiable_cons (v : JsVal) (vs : list JsVal) :
  all_stringifiable (v :: vs) = stringifiable v && all_stringifiable vs.
Proof. reflexivity. Qed.

Lemma all_stringifiable_app (xs ys : list JsVal) :
  all_stringifiable (xs ++ ys) = all_stringifiable xs && all_stringifiable ys.
Proof. apply forallb_app. Qed.

Lemma all_stringifiable_one (v : JsVal) :
  all_stringifiable [v] = stringifiable v.
Proof. unfold all_stringifiable. simpl. apply andb_true_r. Qed.

Lemma newProvider_run (req : Request) (w : World) (k : string) :
  req_method req = "POST" ->
  SENDGRID_API_KEY w = Some k -> k <> "" ->
  truthy (get "providerData" (js_or (req_body req) (JObj []))) = true ->
  run (NewProvider.sendNewProviderEmail req) w =
    (Ok (fst (newProvider_main req w)), EvSetApiKey k :: snd (newProvider_main req w)).
Proof.
  intros Hp Hkey Hk Hdata. apply String_eqb_false in Hk.
  unfold newProvider_main. rewrite resolveAdmins_run.
  unfold NewProvider.sendNewProviderEmail. rewrite Hp. simpl.
  unfold_M. rewrite Hkey, Hk. simpl. rewrite Hdata. simpl.
  change (NewProvider.resolveAdmins ?v w) with (run (NewProvider.resolveAdmins v) w).
  rewrite resolveAdmins_run.
  unfold_mains. unfold directoryAdmins.
  repeat (first [conversion_step | break_match]; simpl);
    rewrite <- ?app_assoc; try reflexivity; try congruence.
Qed.
(** Closes a run equation once the message is in place. *)
Ltac finish_deliver :=
  unfold deliver, caught, detail_log;
  match goal with
  | |- context [sgMail_send ?w ?m] =>
      destruct (sgMail_send w m) as [st | [n msg_ [b|]]]
  end; simpl; rewrite <- ?app_assoc; reflexivity.

Lemma credentials_run (req : Request) (w : World) (k : string) :
  req_method req = "POST" ->
  SENDGRID_API_KEY w = Some k -> k <> "" ->
  run (AccessCredentials.sendAccessCredentials req) w =
    (Ok (fst (credentials_main req w)),
     EvSetApiKey k :: EvLog LogInfo "[sendAccessCredentials] Body recibido:"
       :: snd (credentials_main req w)).
Proof.
  intros Hp Hkey Hk. apply String_eqb_false in Hk.
  unfold AccessCredentials.sendAccessCredentials. rewrite Hp. simpl.
  unfold_M. rewrite Hkey, Hk. simpl.
  unfold_mains.
  repeat (first [conversion_step | break_match]; simpl);
    rewrite <- ?app_assoc; try reflexivity; try congruence.
Qed.

Lemma preReg_run (req : Request) (w : World) (k : string) :
  req_method req = "POST" ->
  SENDGRID_API_KEY w = Some k -> k <> "" ->
  let body := js_or (req_body req) (JObj []) in
  let cita := get "cita" body in
  truthy (get "providerEmail" body) = true -> truthy cita = true ->
  truthy (get "fecha" cita) = true -> truthy (get "hora" cita) = true ->
  run (AppointmentNotification.sendAppointmentNotification req) w =
    (Ok (fst (preReg_main req w)), EvSetApiKey k :: snd (preReg_main req w)).
Proof.
  intros Hp Hkey Hk body cita H1 H2 H3 H4. apply String_eqb_false in Hk.
  subst cita body.
  unfold preReg_main.
  unfold AppointmentNotification.sendAppointmentNotification. rewrite Hp. simpl.
  unfold_M. rewrite Hkey, Hk. simpl. rewrite H1, H2, H3, H4. simpl.
  rewrite Call_normalizeEmail_run.
  destruct (stringifiable (get "providerEmail" (js_or (req_body req) (JObj []))));
    cbv beta iota zeta; cbn [negb]; [|reflexivity].
  change (AppointmentNotification.queryAdminEmails w)
    with (run AppointmentNotification.queryAdminEmails w).
  rewrite queryAdminEmails_run. cbv beta iota zeta.
  change (Set_spread
            (filter_Boolean
               (normalizeEmail (get "providerEmail" (js_or (req_body req) (JObj [])))
                :: adminsOrNone w)))
    with (preRegRecipients w (get "providerEmail" (js_or (req_body req) (JObj [])))).
  destruct (preRegRecipients w (get "providerEmail" (js_or (req_body req) (JObj []))))
    as [|a l] eqn:R; simpl.
  { unfold behind. simpl. rewrite <- ?app_assoc. reflexivity. }
  rewrite Call_interpolate_run.
  match goal with |- context [all_stringifiable ?l] => destruct (all_stringifiable l) end;
    simpl.
  2:{ unfold behind, caught. simpl. rewrite <- ?app_assoc. reflexivity. }
  pose proof (comentarios_prereg_trace
                (get "notas" (get "cita" (js_or (req_body req) (JObj [])))) w) as Ht.
  unfold run in *.
  destruct (AppointmentNotification.comentarios
              (get "notas" (get "cita" (js_or (req_body req) (JObj [])))) w)
    as [[h | e] t]; simpl in Ht; subst t; simpl.
  - unfold behind, preRegMsg. finish_deliver.
  - unfold behind, caught, detail_log. destruct e as [n m [b|]]; simpl;
      rewrite <- ?app_assoc; reflexivity.
Qed.

Lemma confirmacion_run (req : Request) (w : World) (k : string) :
  req_method req = "POST" ->
  SENDGRID_API_KEY w = Some k -> k <> "" ->
  let body := js_or (req_body req) (JObj []) in
  truthy (get "to" body) = true -> truthy (get "folio" body) = true ->
  truthy (get "datosCita" body) = true ->
  run (CitaConfirmacion.sendCitaConfirmacion req) w =
    (Ok (fst (confirmacion_main req w)), EvSetApiKey k :: snd (confirmacion_main req w)).
Proof.
  intros Hp Hkey Hk body H1 H2 H3. apply String_eqb_false in Hk.
  subst body.
  unfold confirmacion_main, confirmacion_converted.
  rewrite !all_stringifiable_cons, all_stringifiable_app.
  unfold CitaConfirmacion.sendCitaConfirmacion. rewrite Hp. simpl.
  unfold_M. rewrite Hkey, Hk. simpl. rewrite H1, H2, H3. simpl.
  rewrite Call_normalizeEmail_run.
  destruct (stringifiable (get "to" (js_or (req_body req) (JObj [])))); simpl;
    [|reflexivity].
  rewrite Call_interpolate_run, all_stringifiable_one.
  destruct (stringifiable (get "folio" (js_or (req_body req) (JObj [])))); simpl;
    [|reflexivity].
  rewrite Call_interpolate_run.
  match goal with |- context [all_stringifiable ?l] => destruct (all_stringifiable l) end;
    simpl; [|reflexivity].
  rewrite Call_interpolate_run.
  match goal with |- context [all_stringifiable ?l] => destruct (all_stringifiable l) end;
    simpl; [|reflexivity].
  pose proof (comentarios_confirm_trace
                (get "notas" (get "datosCita" (js_or (req_body req) (JObj [])))) w) as Ht.
  unfold run in *.
  destruct (CitaConfirmacion.comentarios
              (get "notas" (get "datosCita" (js_or (req_body req) (JObj [])))) w)
    as [[h | e] t]; simpl in Ht; subst t; simpl.
  2:{ unfold caught, detail_log. destruct e as [n m [b|]]; reflexivity. }
  unfold CitaConfirmacion.loadAttachments. unfold_M.
  unfold behind, confirmacionMsg, pdf_log, pdfAttachments.
  destruct (readFileSync w CitaConfirmacion.pdfPath); simpl; finish_deliver.
Qed.

(** ** Requests that stop before the recipients are resolved *)

Lemma newProvider_early (req : Request) (w : World) :
  let body := js_or (req_body req) (JObj []) in
  let trace := snd (run (NewProvider.sendNewProviderEmail req) w) in
  (exists k, req_method req = "POST" /\ SENDGRID_API_KEY w = Some k /\ k <> "" /\
             truthy (get "providerData" body) = true) \/
  (sent trace = [] /\ queries trace = []).
Proof.
  intros body trace. subst trace. unfold NewProvider.sendNewProviderEmail.
  destruct (req_method req =? "OPTIONS")%string; [now right|].
  destruct (req_method req =? "POST")%string eqn:E; simpl; [|now right].
  apply String.eqb_eq in E. unfold_M.
  destruct (SENDGRID_API_KEY w) as [k|] eqn:K; [|now right].
  destruct (k =? "")%string eqn:Ek; [now right|]. apply String.eqb_neq in Ek.
  simpl. fold body.
  destruct (truthy (get "providerData" body)) eqn:D; [|now right].
  left. exists k. auto.
Qed.

Lemma preReg_early (req : Request) (w : World) :
  let body := js_or (req_body req) (JObj []) in
  let cita := get "cita" body in
  let trace := snd (run (AppointmentNotification.sendAppointmentNotification req) w) in
  (exists k, req_method req = "POST" /\ SENDGRID_API_KEY w = Some k /\ k <> "" /\
             truthy (get "providerEmail" body) = true /\ truthy cita = true /\
             truthy (get "fecha" cita) = true /\ truthy (get "hora" cita) = true) \/
  (sent trace = [] /\ queries trace = []).
Proof.
  intros body cita trace. subst trace. unfold AppointmentNotification.sendAppointmentNotification.
  destruct (req_method req =? "OPTIONS")%string; [now right|].
  destruct (req_method req =? "POST")%string eqn:E; simpl; [|now right].
  apply String.eqb_eq in E. unfold_M.
  destruct (SENDGRID_API_KEY w) as [k|] eqn:K; [|now right].
  destruct (k =? "")%string eqn:Ek; [now right|]. apply String.eqb_neq in Ek.
  simpl. fold body. fold cita.
  destruct (truthy (get "providerEmail" body)) eqn:D1; [|now right].
  destruct (truthy cita) eqn:D2; [|now right].
  destruct (truthy (get "fecha" cita)) eqn:D3; [|now right].
  destruct (truthy (get "hora" cita)) eqn:D4; [|now right].
  left. exists k. auto 10.
Qed.

Lemma confirmacion_early (req : Request) (w : World) :
  let body := js_or (req_body req) (JObj []) in
  let trace := snd (run (CitaConfirmacion.sendCitaConfirmacion req) w) in
  (exists k, req_method req = "POST" /\ SENDGRID_API_KEY w = Some k /\ k <> "" /\
             truthy (get "to" body) = true /\ truthy (get "folio" body) = true /\
             truthy (get "datosCita" body) = true) \/
  (sent trace = [] /\ reads trace = []).
Proof.
  intros body trace. subst trace. unfold CitaConfirmacion.sendCitaConfirmacion.
  destruct (req_method req =? "OPTIONS")%string; [now right|].
  destruct (req_method req =? "POST")%string eqn:E; simpl; [|now right].
  apply String.eqb_eq in E. unfold_M.
  destruct (SENDGRID_API_KEY w) as [k|] eqn:K; [|now right].
  destruct (k =? "")%string eqn:Ek; [now right|]. apply String.eqb_neq in Ek.
  simpl. fold body.
  destruct (truthy (get "to" body)) eqn:D1; [|now right].
  destruct (truthy (get "folio" body)) eqn:D2; [|now right].
  destruct (truthy (get "datosCita" body)) eqn:D3; [|now right].
  left. exists k. auto 10.
Qed.

(** ** What the main part of each function leaves in the trace *)

Create Rewrite HintDb trace.
#[export] Hint Rewrite sent_app queries_app reads_app sent_behind queries_behind reads_behind
  sent_deliver queries_deliver reads_deliver sent_caught queries_caught reads_caught
  sent_directory_log queries_directory_log sent_pdf_log reads_pdf_log
  sent_detail_log queries_detail_log reads_detail_log app_nil_r : trace.

Lemma reads_directory_log (w : World) : reads (directory_log w) = [].
Proof. unfold directory_log. now destruct (directory_read w). Qed.

Lemma queries_pdf_log (w : World) : queries (pdf_log w) = [].
Proof. unfold pdf_log. now destruct (readFileSync w CitaConfirmacion.pdfPath). Qed.

#[export] Hint Rewrite reads_directory_log queries_pdf_log : trace.

(** Computes the projections of a trace built from the steps above. *)
Ltac traces_in H :=
  repeat (progress (autorewrite with trace in H;
                    cbn [sent queries reads fst snd app In] in H)).

Ltac traces :=
  repeat (progress (autorewrite with trace; cbn [sent queries reads fst snd app In])).

(** ** Every run of each function *)

Lemma newProvider_cases (req : Request) (w : World) :
  preflight (run (NewProvider.sendNewProviderEmail req) w) \/
  exists k,
    run (NewProvider.sendNewProviderEmail req) w =
      (Ok (fst (newProvider_main req w)), EvSetApiKey k :: snd (newProvider_main req w)).
Proof.
  destruct (req_method req =? "POST")%string eqn:Ep.
  - apply String.eqb_eq in Ep.
    destruct (SENDGRID_API_KEY w) as [k|] eqn:Ek.
    + destruct (k =? "")%string eqn:Ee.
      * left. right. right. left.
        unfold NewProvider.sendNewProviderEmail. rewrite Ep. simpl. unfold_M.
        now rewrite Ek, Ee.
      * apply String.eqb_neq in Ee.
        destruct (truthy (get "providerData" (js_or (req_body req) (JObj [])))) eqn:Ed.
        -- right. exists k. now apply newProvider_run.
        -- left. right. right. right. exists k. eexists.
           apply String_eqb_false in Ee.
           unfold NewProvider.sendNewProviderEmail. rewrite Ep. simpl. unfold_M.
           rewrite Ek, Ee. simpl. rewrite Ed. reflexivity.
    + left. right. right. left.
      unfold NewProvider.sendNewProviderEmail. rewrite Ep. simpl. unfold_M.
      now rewrite Ek.
  - left. unfold NewProvider.sendNewProviderEmail. rewrite Ep.
    destruct (req_method req =? "OPTIONS")%string; [now left | right; now left].
Qed.

Lemma credentials_cases (req : Request) (w : World) :
  preflight (run (AccessCredentials.sendAccessCredentials req) w) \/
  exists k,
    run (AccessCredentials.sendAccessCredentials req) w =
      (Ok (fst (credentials_main req w)),
       EvSetApiKey k :: EvLog LogInfo "[sendAccessCredentials] Body recibido:"
         :: snd (credentials_main req w)).
Proof.
  destruct (req_method req =? "POST")%string eqn:Ep.
  - apply String.eqb_eq in Ep.
    destruct (SENDGRID_API_KEY w) as [k|] eqn:Ek.
    + destruct (k =? "")%string eqn:Ee.
      * left. right. right. left.
        unfold AccessCredentials.sendAccessCredentials. rewrite Ep. simpl. unfold_M.
        now rewrite Ek, Ee.
      * apply String.eqb_neq in Ee. right. exists k. now apply credentials_run.
    + left. right. right. left.
      unfold AccessCredentials.sendAccessCredentials. rewrite Ep. simpl. unfold_M.
      now rewrite Ek.
  - left. unfold AccessCredentials.sendAccessCredentials. rewrite Ep.
    destruct (req_method req =? "OPTIONS")%string; [now left | right; now left].
Qed.

Lemma preReg_cases (req : Request) (w : World) :
  preflight (run (AppointmentNotification.sendAppointmentNotification req) w) \/
  exists k,
    run (AppointmentNotification.sendAppointmentNotification req) w =
      (Ok (fst (preReg_main req w)), EvSetApiKey k :: snd (preReg_main req w)).
Proof.
  destruct (req_method req =? "POST")%string eqn:Ep.
  - apply String.eqb_eq in Ep.
    destruct (SENDGRID_API_KEY w) as [k|] eqn:Ek.
    + destruct (k =? "")%string eqn:Ee.
      * left. right. right. left.
        unfold AppointmentNotification.sendAppointmentNotification.
        rewrite Ep. simpl. unfold_M. now rewrite Ek, Ee.
      * apply String.eqb_neq in Ee.
        destruct (truthy (get "providerEmail" (js_or (req_body req) (JObj [])))
                  && truthy (get "cita" (js_or (req_body req) (JObj [])))
                  && truthy (get "fecha" (get "cita" (js_or (req_body req) (JObj []))))
                  && truthy (get "hora" (get "cita" (js_or (req_body req) (JObj [])))))
          eqn:Ed.
        -- apply andb_prop in Ed as [Ed H4]. apply andb_prop in Ed as [Ed H3].
           apply andb_prop in Ed as [H1 H2].
           right. exists k. now apply preReg_run.
        -- left. right. right. right. exists k. eexists.
           apply String_eqb_false in Ee.
           unfold AppointmentNotification.sendAppointmentNotification.
           rewrite Ep. simpl. unfold_M. rewrite Ek, Ee. simpl.
           destruct (truthy (get "providerEmail" _)); [|reflexivity].
           destruct (truthy (get "cita" _)); [|reflexivity].
           destruct (truthy (get "fecha" _)); [|reflexivity].
           simpl in Ed. rewrite Ed. reflexivity.
    + left. right. right. left.
      unfold AppointmentNotification.sendAppointmentNotification.
      rewrite Ep. simpl. unfold_M. now rewrite Ek.
  - left. unfold AppointmentNotification.sendAppointmentNotification. rewrite Ep.
    destruct (req_method req =? "OPTIONS")%string; [now left | right; now left].
Qed.

Lemma confirmacion_cases (req : Request) (w : World) :
  preflight (run (CitaConfirmacion.sendCitaConfirmacion req) w) \/
  exists k,
    run (CitaConfirmacion.sendCitaConfirmacion req) w =
      (Ok (fst (confirmacion_main req w)), EvSetApiKey k :: snd (confirmacion_main req w)).
Proof.
  destruct (req_method req =? "POST")%string eqn:Ep.
  - apply String.eqb_eq in Ep.
    destruct (SENDGRID_API_KEY w) as [k|] eqn:Ek.
    + destruct (k =? "")%string eqn:Ee.
      * left. right. right. left.
        unfold CitaConfirmacion.sendCitaConfirmacion.
        rewrite Ep. simpl. unfold_M. now rewrite Ek, Ee.
      * apply String.eqb_neq in Ee.
        destruct (truthy (get "to" (js_or (req_body req) (JObj [])))
                  && truthy (get "folio" (js_or (req_body req) (JObj [])))
                  && truthy (get "datosCita" (js_or (req_body req) (JObj []))))
          eqn:Ed.
        -- apply andb_prop in Ed as [Ed H3]. apply andb_prop in Ed as [H1 H2].
           right. exists k. now apply confirmacion_run.
        -- left. right. right. right. exists k. eexists.
           apply String_eqb_false in Ee.
           unfold CitaConfirmacion.sendCitaConfirmacion.
           rewrite Ep. simpl. unfold_M. rewrite Ek, Ee. simpl.
           destruct (truthy (get "to" _)); [|reflexivity].
           destruct (truthy (get "folio" _)); [|reflexivity].
           simpl in Ed. rewrite Ed. reflexivity.
    + left. right. right. left.
      unfold CitaConfirmacion.sendCitaConfirmacion.
      rewrite Ep. simpl. unfold_M. now rewrite Ek.
  - left. unfold CitaConfirmacion.sendCitaConfirmacion. rewrite Ep.
    destruct (req_method req =? "OPTIONS")%string; [now left | right; now left].
Qed.
(** ** The main part of each function *)

Lemma resolveAdmins_trace (v : JsVal) (w : World) :
  snd (run (NewProvider.resolveAdmins v) w) = [] \/
  snd (run (NewProvider.resolveAdmins v) w) = [EvFirestoreGet admins_query].
Proof.
  rewrite resolveAdmins_run.
  destruct (array_items v) as [items|]; [|now right].
  destruct (all_stringifiable items); [|now left].
  destruct (filter_Boolean (map normalizeEmail items)); [now right | now left].
Qed.

Lemma resolveAdmins_sends_nothing (v : JsVal) (w : World) :
  sent (snd (run (NewProvider.resolveAdmins v) w)) = [] /\
  reads (snd (run (NewProvider.resolveAdmins v) w)) = [].
Proof. destruct (resolveAdmins_trace v w) as [-> | ->]; now split. Qed.

(** A message of the new-provider function goes to the list the resolution
    gave. *)
Lemma newProvider_sent_to (req : Request) (w : World) (m : Msg) :
  In m (sent (snd (run (NewProvider.sendNewProviderEmail req) w))) ->
  exists a l,
    fst (run (NewProvider.resolveAdmins
                (get "adminEmails" (js_or (req_body req) (JObj [])))) w) = Ok (a :: l) /\
    m = newProviderMsg req (a :: l).
Proof.
  intros Hm.
  destruct (newProvider_early req w) as [[k [Hpost [Hkey [Hk Hdata]]]] | [Hs _]];
    [|rewrite Hs in Hm; destruct Hm].
  rewrite (newProvider_run req w k Hpost Hkey Hk Hdata) in Hm.
  unfold newProvider_main in Hm.
  pose proof (resolveAdmins_sends_nothing
                (get "adminEmails" (js_or (req_body req) (JObj []))) w) as [St _].
  destruct (run (NewProvider.resolveAdmins
                   (get "adminEmails" (js_or (req_body req) (JObj [])))) w)
    as [[[|a l] | e] t]; simpl in St;
    [|destruct (all_stringifiable _) in Hm|];
    traces_in Hm; rewrite St in Hm; simpl in Hm; try contradiction.
  destruct Hm as [<- | []]. exists a, l. auto.
Qed.

Lemma comentarios_prereg_text (notas : JsVal) (w : World) :
  truthy notas = false \/ (exists s, notas = JStr s) ->
  exists h, fst (run (AppointmentNotification.comentarios notas) w) = Ok h.
Proof.
  unfold AppointmentNotification.comentarios, js_or. unfold_M.
  intros [H | [s ->]].
  - rewrite H. eexists. reflexivity.
  - destruct (truthy (JStr s)); eexists; reflexivity.
Qed.

Lemma preRegRecipients_In (w : World) (p : JsVal) (a : string) :
  In a (preRegRecipients w p) <->
  a <> "" /\ (a = normalizeEmail p \/ In a (adminsOrNone w)).
Proof.
  unfold preRegRecipients. rewrite Set_spread_In, filter_Boolean_In. simpl.
  intuition.
Qed.

(** What the main part of the pre-registration sends and answers, by the
    recipients it resolved. *)
Lemma preReg_main_queries (req : Request) (w : World) :
  stringifiable (get "providerEmail" (js_or (req_body req) (JObj []))) = true ->
  queries (snd (preReg_main req w)) = [admins_query].
Proof.
  intros Hc. unfold preReg_main. rewrite Hc. cbn [negb].
  destruct (preRegRecipients w _) as [|a l];
    [|destruct (all_stringifiable _);
      [destruct (fst (run (AppointmentNotification.comentarios _) w))|]];
    traces; reflexivity.
Qed.

Lemma preReg_main_sent (req : Request) (w : World) (m : Msg) :
  In m (sent (snd (preReg_main req w))) ->
  msg_to m =
    ToMany (preRegRecipients w (get "providerEmail" (js_or (req_body req) (JObj [])))).
Proof.
  unfold preReg_main.
  destruct (stringifiable _); cbn [negb]; [|traces; contradiction].
  destruct (preRegRecipients w _) as [|a l];
    [|destruct (all_stringifiable _);
      [destruct (fst (run (AppointmentNotification.comentarios _) w))|]];
    traces; try contradiction.
  now intros [<- | []].
Qed.

Lemma preReg_main_delivers (req : Request) (w : World) :
  let body := js_or (req_body req) (JObj []) in
  let cita := get "cita" body in
  stringifiable (get "providerEmail" body) = true ->
  preRegRecipients w (get "providerEmail" body) <> [] ->
  all_stringifiable
    (AppointmentNotification.interpolated (get "providerLinea" body)
       (get "providerRazon" body) (get "providerFrontera" body)
       (get "citaId" body) cita) = true ->
  truthy (get "notas" cita) = false \/ (exists s, get "notas" cita = JStr s) ->
  exists m,
    sent (snd (preReg_main req w)) = [m] /\
    msg_to m = ToMany (preRegRecipients w (get "providerEmail" body)) /\
    forall status,
      sgMail_send w m = Ok status ->
      fst (preReg_main req w) =
        respond 200 (Json true "Notificación de cita enviada correctamente." None).
Proof.
  intros body cita Hc Hne Hr Hn. unfold preReg_main. fold body. fold cita.
  rewrite Hc, Hr. cbn [negb].
  destruct (comentarios_prereg_text _ w Hn) as [h ->].
  destruct (preRegRecipients w (get "providerEmail" body)) as [|a l] eqn:R;
    [contradiction|].
  exists (preRegMsg req (a :: l) h). traces.
  split; [reflexivity|]. split; [reflexivity|].
  intros status Hs. unfold deliver. now rewrite Hs.
Qed.

Lemma preReg_main_no_recipients (req : Request) (w : World) :
  let body := js_or (req_body req) (JObj []) in
  stringifiable (get "providerEmail" body) = true ->
  preRegRecipients w (get "providerEmail" body) = [] ->
  fst (preReg_main req w) =
    sendError 500 "No se encontraron correos configurados para notificar la cita." /\
  sent (snd (preReg_main req w)) = [].
Proof.
  intros body Hc Hl. unfold preReg_main. fold body. rewrite Hc, Hl. cbn [negb].
  traces. split; reflexivity.
Qed.

(** A message of the pre-registration goes to the provider and the
    administrators gathered. *)
Lemma preReg_sent_to (req : Request) (w : World) (m : Msg) :
  In m (sent (snd (run (AppointmentNotification.sendAppointmentNotification req) w))) ->
  stringifiable (get "providerEmail" (js_or (req_body req) (JObj []))) = true /\
  exists notasHtml,
    m = preRegMsg req
          (preRegRecipients w (get "providerEmail" (js_or (req_body req) (JObj []))))
          notasHtml.
Proof.
  intros Hm.
  destruct (preReg_early req w)
    as [[k [Hpost [Hkey [Hk [H1 [H2 [H3 H4]]]]]]] | [Hs _]];
    [|rewrite Hs in Hm; destruct Hm].
  rewrite (preReg_run req w k Hpost Hkey Hk H1 H2 H3 H4) in Hm.
  unfold preReg_main in Hm.
  destruct (stringifiable (get "providerEmail" (js_or (req_body req) (JObj []))));
    cbn [negb] in Hm; [|traces_in Hm; contradiction].
  split; [reflexivity|].
  destruct (preRegRecipients w _) as [|a l];
    [|destruct (all_stringifiable _) in Hm;
      [destruct (fst (run (AppointmentNotification.comentarios _) w)) as [h | e] in Hm|]];
    traces_in Hm; try contradiction.
  destruct Hm as [<- | []]. now exists h.
Qed.

(** What the trace of the new-provider function holds, by the outcome of the
    resolution. *)
Lemma newProvider_main_queries (req : Request) (w : World) :
  queries (snd (newProvider_main req w)) =
    queries (snd (run (NewProvider.resolveAdmins
                         (get "adminEmails" (js_or (req_body req) (JObj [])))) w)).
Proof.
  unfold newProvider_main.
  destruct (run (NewProvider.resolveAdmins _) w) as [[[|a l] | e] t];
    [|destruct (all_stringifiable _)|]; traces; reflexivity.
Qed.

Lemma newProvider_main_sent (req : Request) (w : World) :
  sent (snd (newProvider_main req w)) =
    match fst (run (NewProvider.resolveAdmins
                      (get "adminEmails" (js_or (req_body req) (JObj [])))) w) with
    | Ok (a :: l) =>
        if all_stringifiable
             (NewProvider.interpolated (get "providerId" (js_or (req_body req) (JObj [])))
                (get "providerEmail" (js_or (req_body req) (JObj [])))
                (get "providerData" (js_or (req_body req) (JObj []))))
        then [newProviderMsg req (a :: l)] else []
    | _ => []
    end.
Proof.
  unfold newProvider_main.
  pose proof (resolveAdmins_sends_nothing
                (get "adminEmails" (js_or (req_body req) (JObj []))) w) as [St _].
  destruct (run (NewProvider.resolveAdmins _) w) as [[[|a l] | e] t]; simpl in St;
    [|destruct (all_stringifiable _)|]; traces; rewrite St; reflexivity.
Qed.

(** The main part of the confirmation either hands a message to SendGrid
    after the read of the PDF, or ends in the outer [catch]. *)
Lemma confirmacion_main_cases (req : Request) (w : World) :
  let notas := get "notas" (get "datosCita" (js_or (req_body req) (JObj []))) in
  (exists notasHtml,
      all_stringifiable (confirmacion_converted req) = true /\
      fst (run (CitaConfirmacion.comentarios notas) w) = Ok notasHtml /\
      confirmacion_main req w =
        behind (EvReadFile CitaConfirmacion.pdfPath :: pdf_log w)
          (deliver w CitaConfirmacion.tag " Correo de confirmación enviado. Status:"
             " Error SendGrid:"
             "Ocurrió un error al enviar la confirmación de cita."
             "Correo de confirmación de cita enviado correctamente."
             (confirmacionMsg req w notasHtml))) \/
  (exists e,
      (all_stringifiable (confirmacion_converted req) = false \/
       fst (run (CitaConfirmacion.comentarios notas) w) = Throw e) /\
      confirmacion_main req w =
        caught CitaConfirmacion.tag
          "Ocurrió un error al enviar la confirmación de cita." e).
Proof.
  intros notas. unfold confirmacion_main. fold notas.
  destruct (all_stringifiable (confirmacion_converted req)).
  - destruct (fst (run (CitaConfirmacion.comentarios notas) w)) as [h | e].
    + left. exists h. auto.
    + right. exists e. auto.
  - right. exists TypeError_cannot_convert. auto.
Qed.

Lemma comentarios_confirm_text (notas : JsVal) (w : World) :
  truthy notas = false \/ (exists text, notas = JStr text) ->
  exists notasHtml, fst (run (CitaConfirmacion.comentarios notas) w) = Ok notasHtml.
Proof.
  unfold CitaConfirmacion.comentarios. intros [H | [text ->]].
  - rewrite H. now exists "-".
  - destruct (truthy (JStr text)); eexists; reflexivity.
Qed.

Lemma comentarios_confirm_throws (notas : JsVal) (w : World) :
  not_text notas ->
  exists e, fst (run (CitaConfirmacion.comentarios notas) w) = Throw e.
Proof.
  intros [Ht Hs]. unfold CitaConfirmacion.comentarios. rewrite Ht.
  destruct notas; try (eexists; reflexivity). now elim (Hs s).
Qed.

Lemma comentarios_prereg_throws (notas : JsVal) (w : World) :
  not_text notas ->
  exists e, fst (run (AppointmentNotification.comentarios notas) w) = Throw e.
Proof.
  intros [Ht Hs]. unfold AppointmentNotification.comentarios, js_or. rewrite Ht.
  destruct notas; try (eexists; reflexivity). now elim (Hs s).
Qed.

(** The credentials function on fields that convert and are not blank. *)
Lemma credentials_main_delivers (req : Request) (w : World) :
  let body := js_or (req_body req) (JObj []) in
  stringifiable (get "to" body) = true -> normalizeEmail (get "to" body) <> "" ->
  stringifiable (get "usuario" body) = true -> text_field (get "usuario" body) <> "" ->
  stringifiable (get "contrasena" body) = true ->
  text_field (get "contrasena" body) <> "" ->
  stringifiable (get "rol" body) = true ->
  credentials_main req w =
    deliver w AccessCredentials.tag " Credenciales enviadas. Status:" " Error SendGrid:"
      "Ocurrió un error al enviar el correo."
      "Correo de credenciales enviado correctamente."
      (credentialsMsg req).
Proof.
  intros body Hto Hton Hu Hun Hp Hpn Hr. unfold credentials_main. fold body.
  rewrite Hto, Hu, Hp, Hr. cbn [negb].
  now rewrite (String_eqb_false _ _ Hton), (String_eqb_false _ _ Hun),
    (String_eqb_false _ _ Hpn).
Qed.

Lemma correos_In (docs : list JsVal) (a : string) :
  In a (correos docs) <->
  a <> "" /\ exists d, In d docs /\ a = normalizeEmail (get "correo" d).
Proof.
  unfold correos. rewrite filter_Boolean_In, in_map_iff. split.
  - intros [[d [E Hd]] Hne]. split; [exact Hne|]. exists d. auto.
  - intros [Hne [d [Hd E]]]. split; [|exact Hne]. exists d. auto.
Qed.

(** ** The shape of the main part of each function *)

Lemma shape_caught (w : World) (tag fail ok : string) (e : Exn) (t : list Event) :
  sent t = [] ->
  delivery_shape w fail ok (behind t (caught tag fail e)).
Proof.
  intros St. left. traces. rewrite St. split; [reflexivity|].
  exists (error_detail e). right. right. reflexivity.
Qed.

Lemma shape_deliver (w : World) (tag a b fail ok : string) (msg : Msg) (t : list Event) :
  sent t = [] ->
  delivery_shape w fail ok (behind t (deliver w tag a b fail ok msg)).
Proof.
  intros St. right. exists msg. traces. rewrite St. split; [reflexivity|].
  unfold behind, deliver. now destruct (sgMail_send w msg).
Qed.

Lemma behind_nil (o : Response * list Event) : behind [] o = o.
Proof. now destruct o. Qed.

Lemma newProvider_shape (req : Request) (w : World) :
  delivery_shape w "Ocurrió un error al enviar el correo."
    "Correo enviado correctamente a los administradores." (newProvider_main req w).
Proof.
  unfold newProvider_main.
  pose proof (resolveAdmins_sends_nothing
                (get "adminEmails" (js_or (req_body req) (JObj []))) w) as [St _].
  destruct (run (NewProvider.resolveAdmins _) w) as [[[|a l] | e] t]; simpl in St.
  - left. traces. rewrite St. split; [reflexivity|]. eexists. right. left. reflexivity.
  - destruct (all_stringifiable _); [now apply shape_deliver | now apply shape_caught].
  - now apply shape_caught.
Qed.

Lemma credentials_shape (req : Request) (w : World) :
  delivery_shape w "Ocurrió un error al enviar el correo."
    "Correo de credenciales enviado correctamente." (credentials_main req w).
Proof.
  unfold credentials_main.
  repeat match goal with
         | |- context [if ?c then _ else _] =>
             destruct c;
             [first [ rewrite <- (behind_nil (caught _ _ _)); now apply shape_caught
                    | left; split; [reflexivity|]; eexists; left; reflexivity ]|]
         end.
  rewrite <- (behind_nil (deliver _ _ _ _ _ _ _)). now apply shape_deliver.
Qed.

Lemma preReg_shape (req : Request) (w : World) :
  delivery_shape w "Ocurrió un error al enviar la notificación de cita."
    "Notificación de cita enviada correctamente." (preReg_main req w).
Proof.
  unfold preReg_main.
  assert (sent (EvFirestoreGet admins_query :: directory_log w) = []) as St
    by (cbn [sent]; apply sent_directory_log).
  destruct (stringifiable _); cbn [negb];
    [|rewrite <- (behind_nil (caught _ _ _)); now apply shape_caught].
  destruct (preRegRecipients w _) as [|a l].
  - left. traces. split; [reflexivity|]. eexists. right. left. reflexivity.
  - destruct (all_stringifiable _); [|now apply shape_caught].
    destruct (fst (run (AppointmentNotification.comentarios _) w));
      [now apply shape_deliver | now apply shape_caught].
Qed.

Lemma confirmacion_shape (req : Request) (w : World) :
  delivery_shape w "Ocurrió un error al enviar la confirmación de cita."
    "Correo de confirmación de cita enviado correctamente." (confirmacion_main req w).
Proof.
  destruct (confirmacion_main_cases req w) as [[h [_ [_ ->]]] | [e [_ ->]]].
  - apply shape_deliver. cbn [sent]. apply sent_pdf_log.
  - rewrite <- (behind_nil (caught _ _ _)). now apply shape_caught.
Qed.

(** What follows from the shape. *)
Lemma shape_well_formed (w : World) (fail ok : string) (o : Response * list Event) :
  delivery_shape w fail ok o -> well_formed_answer (fst o).
Proof.
  unfold well_formed_answer.
  intros [[_ [m [-> | [-> | ->]]]] | [msg [_ ->]]];
    try destruct (sgMail_send w msg); simpl; repeat split; tauto.
Qed.

Lemma shape_at_most_one (w : World) (fail ok : string) (o : Response * list Event) :
  delivery_shape w fail ok o -> (List.length (sent (snd o)) <= 1)%nat.
Proof. intros [[-> _] | [msg [-> _]]]; simpl; lia. Qed.

Lemma shape_ok_iff (w : World) (fail ok : string) (o : Response * list Event) :
  delivery_shape w fail ok o ->
  res_status (fst o) = 200 <->
  exists msg status, sent (snd o) = [msg] /\ sgMail_send w msg = Ok status.
Proof.
  intros [[Hs [m [-> | [-> | ->]]]] | [msg [Hs ->]]]; rewrite Hs.
  1-3: split; [discriminate | intros [? [? [[=] _]]]].
  destruct (sgMail_send w msg) as [st | e] eqn:E; simpl.
  - split; [intros _; exists msg, st; auto | reflexivity].
  - split; [discriminate | intros [? [? [[= <-] H]]]; congruence].
Qed.

Lemma shape_failure (w : World) (fail ok : string) (o : Response * list Event)
    (msg : Msg) (e : Exn) :
  delivery_shape w fail ok o ->
  In msg (sent (snd o)) -> sgMail_send w msg = Throw e ->
  fst o = respond 500 (Json false fail (Some (error_detail e))).
Proof.
  intros [[Hs _] | [m [Hs ->]]]; rewrite Hs; [intros H; contradiction|].
  intros [<- | []] E. now rewrite E.
Qed.

Lemma shape_success (w : World) (fail ok : string) (o : Response * list Event)
    (msg : Msg) (status : Z) :
  delivery_shape w fail ok o ->
  In msg (sent (snd o)) -> sgMail_send w msg = Ok status ->
  fst o = respond 200 (Json true ok None).
Proof.
  intros [[Hs _] | [m [Hs ->]]]; rewrite Hs; [intros H; contradiction|].
  intros [<- | []] E. now rewrite E.
Qed.

Lemma preflight_well_formed (o : Outcome Response * list Event) :
  preflight o -> exists r, fst o = Ok r /\ well_formed_answer r /\ res_status r <> 200.
Proof.
  unfold well_formed_answer.
  intros [-> | [-> | [-> | [k [m ->]]]]]; eexists; (split; [reflexivity|]);
    simpl; repeat split; try tauto; try lia; discriminate.
Qed.

Lemma preflight_trace (o : Outcome Response * list Event) :
  preflight o -> sent (snd o) = [] /\ queries (snd o) = [] /\ reads (snd o) = [].
Proof. intros [-> | [-> | [-> | [k [m ->]]]]]; repeat split. Qed.

Lemma newProvider_main_effects (req : Request) (w : World) :
  (queries (snd (newProvider_main req w)) = [] \/
   queries (snd (newProvider_main req w)) = [admins_query]) /\
  reads (snd (newProvider_main req w)) = [].
Proof.
  unfold newProvider_main.
  pose proof (resolveAdmins_trace
                (get "adminEmails" (js_or (req_body req) (JObj []))) w) as Ht.
  destruct (run (NewProvider.resolveAdmins _) w) as [[[|a l] | e] t]; simpl in Ht;
    [|destruct (all_stringifiable _)|];
    destruct Ht as [-> | ->]; traces; auto.
Qed.

Lemma credentials_main_effects (req : Request) (w : World) :
  queries (snd (credentials_main req w)) = [] /\
  reads (snd (credentials_main req w)) = [].
Proof.
  unfold credentials_main.
  repeat match goal with
         | |- context [if ?c then _ else _] => destruct c; [traces; auto|]
         end.
  traces. auto.
Qed.

Lemma preReg_main_effects (req : Request) (w : World) :
  (queries (snd (preReg_main req w)) = [] \/
   queries (snd (preReg_main req w)) = [admins_query]) /\
  reads (snd (preReg_main req w)) = [].
Proof.
  unfold preReg_main.
  destruct (stringifiable _); cbn [negb]; [|traces; auto].
  destruct (preRegRecipients w _) as [|a l];
    [|destruct (all_stringifiable _);
      [destruct (fst (run (AppointmentNotification.comentarios _) w))|]];
    traces; auto.
Qed.

Lemma confirmacion_main_effects (req : Request) (w : World) :
  queries (snd (confirmacion_main req w)) = [] /\
  (reads (snd (confirmacion_main req w)) = [] \/
   reads (snd (confirmacion_main req w)) = [CitaConfirmacion.pdfPath]).
Proof.
  destruct (confirmacion_main_cases req w) as [[h [_ [_ ->]]] | [e [_ ->]]];
    traces; auto.
Qed.

(** The message each function sends, when it sends one. *)
Lemma credentials_sent_to (req : Request) (w : World) (m : Msg) :
  In m (sent (snd (run (AccessCredentials.sendAccessCredentials req) w))) ->
  m = credentialsMsg req.
Proof.
  intros Hm.
  destruct (credentials_cases req w) as [Hpre | [k E]].
  - apply preflight_trace in Hpre as [Hs _]. rewrite Hs in Hm. contradiction.
  - rewrite E in Hm. cbn [snd sent] in Hm. unfold credentials_main in Hm.
    repeat match type of Hm with
           | context [if ?c then _ else _] =>
               destruct c; [traces_in Hm; contradiction|]
           end.
    traces_in Hm. now destruct Hm as [<- | []].
Qed.

Lemma confirmacion_sent_to (req : Request) (w : World) (m : Msg) :
  In m (sent (snd (run (CitaConfirmacion.sendCitaConfirmacion req) w))) ->
  all_stringifiable (confirmacion_converted req) = true /\
  reads (snd (run (CitaConfirmacion.sendCitaConfirmacion req) w)) =
    [CitaConfirmacion.pdfPath] /\
  exists notasHtml,
    fst (run (CitaConfirmacion.comentarios
                (get "notas" (get "datosCita" (js_or (req_body req) (JObj []))))) w) =
      Ok notasHtml /\
    m = confirmacionMsg req w notasHtml.
Proof.
  intros Hm.
  destruct (confirmacion_cases req w) as [Hpre | [k E]].
  - apply preflight_trace in Hpre as [Hs _]. rewrite Hs in Hm. contradiction.
  - rewrite E in *. cbn [snd sent reads] in *.
    destruct (confirmacion_main_cases req w) as [[h [Hc [Hh E']]] | [e [_ E']]];
      rewrite E' in *; traces_in Hm; [|contradiction].
    destruct Hm as [<- | []]. traces. split; [exact Hc|]. split; [reflexivity|].
    exists h. auto.
Qed.

(** ** Claims on [normalizeEmail] and on the resolved recipients *)









(** ** Claims on the new-provider function *)


(** C1. The recipients of the new-provider notification.  With an explicit
    list that is not empty once normalized and freed of blanks, no Firestore
    query is made, and when its items convert the resolution gives that
    list without duplicates: the same addresses, each once; every message
    sent goes to it, and one is sent when the body can be rendered.  With an
    empty or absent list exactly one query is made, [UsuarioAdmin] where [id]
    is in [1; 2], and the resolution gives the normalized addresses of the
    documents, blanks dropped, each once. *)
Theorem newProvider_recipient_policy (req : Request) (w : World) (k : string) :
  req_method req = "POST" ->
  SENDGRID_API_KEY w = Some k -> k <> "" ->
  let body := js_or (req_body req) (JObj []) in
  truthy (get "providerData" body) = true ->
  let items := match get "adminEmails" body with JArr items => items | _ => [] end in
  let explicit := filter_Boolean (map normalizeEmail items) in
  let resolved := fst (run (NewProvider.resolveAdmins (get "adminEmails" body)) w) in
  let trace := snd (run (NewProvider.sendNewProviderEmail req) w) in
  let rendered :=
    all_stringifiable
      (NewProvider.interpolated (get "providerId" body) (get "providerEmail" body)
         (get "providerData" body)) in
  (explicit <> [] ->
   queries trace = [] /\
   (all_stringifiable items = true ->
    exists l,
      resolved = Ok l /\ NoDup l /\ (forall a, In a l <-> In a explicit) /\
      (forall m, In m (sent trace) -> msg_to m = ToMany l) /\
      (rendered = true -> map msg_to (sent trace) = [ToMany l]))) /\
  (explicit = [] ->
   queries trace = [admins_query] /\
   q_collection admins_query = "UsuarioAdmin" /\
   q_field admins_query = "id" /\ q_in admins_query = [1; 2] /\
   forall docs,
     firestore_get w admins_query = Ok docs ->
     all_stringifiable (map (get "correo") docs) = true ->
     exists l,
       resolved = Ok l /\ NoDup l /\
       (forall a, In a l <->
                  a <> "" /\ exists d, In d docs /\ a = normalizeEmail (get "correo" d)) /\
       (forall m, In m (sent trace) -> msg_to m = ToMany l) /\
       (rendered = true -> l <> [] -> map msg_to (sent trace) = [ToMany l])).
Proof.
  intros Hp Hkey Hk body Hdata items explicit resolved trace rendered.
  assert (Hex : NewProvider.explicitAdmins (get "adminEmails" body) = explicit).
  { subst explicit items. now destruct (get "adminEmails" body). }
  assert (Htrace : trace = EvSetApiKey k :: snd (newProvider_main req w)).
  { subst trace. now rewrite (newProvider_run req w k Hp Hkey Hk Hdata). }
  assert (Hsent : sent trace =
                  match resolved with
                  | Ok (a :: l) => if rendered then [newProviderMsg req (a :: l)] else []
                  | _ => []
                  end).
  { rewrite Htrace. cbn [sent]. apply newProvider_main_sent. }
  assert (Hq : queries trace =
               queries (snd (run (NewProvider.resolveAdmins (get "adminEmails" body)) w))).
  { rewrite Htrace. cbn [queries]. apply newProvider_main_queries. }
  assert (Hto : forall l, resolved = Ok l ->
                (forall m, In m (sent trace) -> msg_to m = ToMany l) /\
                (rendered = true -> l <> [] -> map msg_to (sent trace) = [ToMany l])).
  { intros l Hl. rewrite Hsent, Hl. destruct l as [|a l].
    - split; [intros m H; contradiction | intros _ H; now elim H].
    - destruct rendered; split; try discriminate.
      + now intros m [<- | []].
      + reflexivity.
      + intros m H; contradiction. }
  split.
  - intros Hne. split.
    + rewrite Hq, resolveAdmins_run.
      destruct (array_items (get "adminEmails" body)) as [its|] eqn:Ea.
      * assert (its = items) as ->.
        { subst items. destruct (get "adminEmails" body); try discriminate Ea.
          now injection Ea as ->. }
        destruct (all_stringifiable items); [|reflexivity].
        fold explicit. destruct explicit; [contradiction | reflexivity].
      * exfalso. apply Hne. subst explicit items.
        now destruct (get "adminEmails" body).
    + intros Hconv. exists (Set_spread explicit).
      assert (resolved = Ok (Set_spread explicit)) as Hres.
      { subst resolved.
        rewrite (resolveAdmins_explicit (get "adminEmails" body) w items);
          [reflexivity | | exact Hconv | exact Hne].
        subst items explicit. destruct (get "adminEmails" body); try reflexivity;
          now elim Hne. }
      split; [exact Hres|]. split; [apply Set_spread_NoDup|].
      split; [intros a; apply Set_spread_In|].
      destruct (Hto _ Hres) as [H1 H2]. split; [exact H1|].
      intros Hr. apply H2; [exact Hr|].
      intros E. apply (proj1 (Set_spread_nil _)) in E. contradiction.
  - intros He. rewrite <- Hex in He.
    split; [|repeat split].
    + rewrite Hq, (resolveAdmins_directory _ w He). reflexivity.
    + intros docs Hd Hconv. exists (Set_spread (correos docs)).
      assert (resolved = Ok (Set_spread (correos docs))) as Hres.
      { subst resolved. rewrite (resolveAdmins_directory _ w He).
        unfold directoryAdmins. now rewrite Hd, Hconv. }
      split; [exact Hres|]. split; [apply Set_spread_NoDup|].
      split; [intros a; rewrite Set_spread_In; apply correos_In|].
      exact (Hto _ Hres).
Qed.

Lemma newProvider_recipient_policy_witness :
  let w := example_world (Ok [admin_doc "a@x.com"; admin_doc "A@X.com"]) (Throw ENOENT) in
  let with_list :=
    mkRequest "POST"
      (JObj [("providerData", JObj [("linea", JStr "Fletes del Norte")]);
             ("adminEmails", JArr [JStr " Admin@X.com"; JStr "admin@x.com"; JStr " "])]) in
  let without_list :=
    mkRequest "POST"
      (JObj [("providerData", JObj [("linea", JStr "Fletes del Norte")])]) in
  (queries (snd (run (NewProvider.sendNewProviderEmail with_list) w)) = [] /\
   map msg_to (sent (snd (run (NewProvider.sendNewProviderEmail with_list) w))) =
     [ToMany ["admin@x.com"]]) /\
  (queries (snd (run (NewProvider.sendNewProviderEmail without_list) w)) = [admins_query] /\
   map msg_to (sent (snd (run (NewProvider.sendNewProviderEmail without_list) w))) =
     [ToMany ["a@x.com"]]).
Proof.
  intros w with_list without_list. split.
  - destruct (newProvider_recipient_policy with_list w "SG.key" eq_refl eq_refl
                ltac:(discriminate) eq_refl) as [H _].
    destruct (H ltac:(discriminate)) as [Hq Hl].
    split; [exact Hq|].
    destruct (Hl eq_refl) as [l [Hres [_ [_ [_ Hsent]]]]].
    injection Hres as <-. exact (Hsent eq_refl).
  - destruct (newProvider_recipient_policy without_list w "SG.key" eq_refl eq_refl
                ltac:(discriminate) eq_refl) as [_ H].
    destruct (H eq_refl) as [Hq [_ [_ [_ Hl]]]].
    split; [exact Hq|].
    destruct (Hl [admin_doc "a@x.com"; admin_doc "A@X.com"] eq_refl eq_refl)
      as [l [Hres [_ [_ [_ Hsent]]]]].
    injection Hres as <-. exact (Hsent eq_refl ltac:(discriminate)).
Defined.
(** ** Claims on the pre-registration function *)


(** A valid pre-registration whose [providerEmail] no conversion accepts is
    answered 500 before Firestore is asked. *)
Lemma unconvertible_provider_is_not_queried :
  let req :=
    mkRequest "POST"
      (JObj [("providerEmail", unprintable);
             ("cita", JObj [("fecha", JStr "2025-03-02"); ("hora", JStr "10:00")])]) in
  let w := example_world (Ok [admin_doc "a@x.com"]) (Throw ENOENT) in
  let body := js_or (req_body req) (JObj []) in
  (truthy (get "providerEmail" body) = true /\ truthy (get "cita" body) = true /\
   truthy (get "fecha" (get "cita" body)) = true /\
   truthy (get "hora" (get "cita" body)) = true) /\
  queries (snd (run (AppointmentNotification.sendAppointmentNotification req) w)) = [] /\
  fst (run (AppointmentNotification.sendAppointmentNotification req) w) =
    Ok (respond 500
          (Json false "Ocurrió un error al enviar la notificación de cita."
             (Some "Cannot convert object to primitive value"))).
Proof. repeat split. Qed.

(** C2, amended.  For every valid pre-registration whose [providerEmail]
    converts to a string: exactly one Firestore query is made,
    [UsuarioAdmin] where [id] is in [1; 2]; the resolution gives a list
    without duplicates whose members are the provider address and the
    addresses of the documents, normalized, blanks dropped; when the query
    throws, or an address of a document does not convert, the members are the
    provider address alone and the request goes on; every message sent goes
    to that list, one is sent when the list is not empty and the body can be
    rendered (fields that convert, notes absent or a string), answered 200
    when SendGrid accepts it; an empty list is answered with the 500 of the
    missing recipients and nothing is sent. *)
Theorem preRegistration_recipients (req : Request) (w : World) (k : string) :
  req_method req = "POST" ->
  SENDGRID_API_KEY w = Some k -> k <> "" ->
  let body := js_or (req_body req) (JObj []) in
  let cita := get "cita" body in
  let providerEmail := get "providerEmail" body in
  truthy providerEmail = true -> truthy cita = true ->
  truthy (get "fecha" cita) = true -> truthy (get "hora" cita) = true ->
  stringifiable providerEmail = true ->
  let provider := normalizeEmail providerEmail in
  let resolved := fst (run (AppointmentNotification.resolveRecipients providerEmail) w) in
  let answer := fst (run (AppointmentNotification.sendAppointmentNotification req) w) in
  let trace := snd (run (AppointmentNotification.sendAppointmentNotification req) w) in
  let rendered :=
    all_stringifiable
      (AppointmentNotification.interpolated (get "providerLinea" body)
         (get "providerRazon" body) (get "providerFrontera" body)
         (get "citaId" body) cita) = true /\
    (truthy (get "notas" cita) = false \/ exists s, get "notas" cita = JStr s) in
  (queries trace = [admins_query] /\
   q_collection admins_query = "UsuarioAdmin" /\
   q_field admins_query = "id" /\ q_in admins_query = [1; 2]) /\
  exists l,
    resolved = Ok l /\ NoDup l /\
    (forall docs,
        firestore_get w admins_query = Ok docs ->
        all_stringifiable (map (get "correo") docs) = true ->
        forall a, In a l <->
                  a <> "" /\
                  (a = provider \/
                   exists d, In d docs /\ a = normalizeEmail (get "correo" d))) /\
    ((exists e, firestore_get w admins_query = Throw e) \/
     (exists docs, firestore_get w admins_query = Ok docs /\
                   all_stringifiable (map (get "correo") docs) = false) ->
     (forall a, In a l <-> a <> "" /\ a = provider) /\
     (provider <> "" -> rendered ->
      exists m,
        sent trace = [m] /\ msg_to m = ToMany [provider] /\
        forall status,
          sgMail_send w m = Ok status ->
          answer =
            Ok (respond 200
                  (Json true "Notificación de cita enviada correctamente." None)))) /\
    (forall m, In m (sent trace) -> msg_to m = ToMany l) /\
    (l <> [] -> rendered ->
     exists m,
       sent trace = [m] /\ msg_to m = ToMany l /\
       forall status,
         sgMail_send w m = Ok status ->
         answer =
           Ok (respond 200
                 (Json true "Notificación de cita enviada correctamente." None))) /\
    (l = [] ->
     answer =
       Ok (sendError 500
             "No se encontraron correos configurados para notificar la cita.") /\
     sent trace = []).
Proof.
  intros Hp Hkey Hk body cita providerEmail H1 H2 H3 H4 Hc
    provider resolved answer trace rendered.
  assert (Hrun := preReg_run req w k Hp Hkey Hk H1 H2 H3 H4).
  assert (Hanswer : answer = Ok (fst (preReg_main req w))).
  { subst answer. now rewrite Hrun. }
  assert (Htrace : trace = EvSetApiKey k :: snd (preReg_main req w)).
  { subst trace. now rewrite Hrun. }
  assert (Hres : resolved = Ok (preRegRecipients w providerEmail)).
  { subst resolved. rewrite resolveRecipients_run. now rewrite Hc. }
  assert (Hdeliver : preRegRecipients w providerEmail <> [] -> rendered ->
            exists m,
              sent trace = [m] /\ msg_to m = ToMany (preRegRecipients w providerEmail) /\
              forall status,
                sgMail_send w m = Ok status ->
                answer =
                  Ok (respond 200
                        (Json true "Notificación de cita enviada correctamente." None))).
  { intros Hne [Hr Hn].
    destruct (preReg_main_delivers req w Hc Hne Hr Hn) as [m [Hs [Hto Hok]]].
    exists m. rewrite Htrace, Hanswer. cbn [sent].
    split; [exact Hs|]. split; [exact Hto|].
    intros status Hst. now rewrite (Hok status Hst). }
  split.
  { split; [|repeat split]. rewrite Htrace. cbn [queries].
    now apply preReg_main_queries. }
  exists (preRegRecipients w providerEmail).
  split; [exact Hres|].
  split; [apply Set_spread_NoDup|].
  split; [|split; [|split; [|split]]].
  - intros docs Hd Hconv a. rewrite preRegRecipients_In.
    unfold adminsOrNone, directory_read. rewrite Hd, Hconv, correos_In.
    fold provider. intuition.
  - intros Hfail.
    assert (adminsOrNone w = []) as Hnone.
    { unfold adminsOrNone, directory_read.
      destruct Hfail as [[e ->] | [docs [-> ->]]]; reflexivity. }
    assert (forall a, In a (preRegRecipients w providerEmail) <->
                      a <> "" /\ a = provider) as Hmem.
    { intros a. rewrite preRegRecipients_In, Hnone. fold provider. simpl. intuition. }
    split; [exact Hmem|].
    intros Hprov Hr.
    assert (preRegRecipients w providerEmail = [provider]) as Hl.
    { destruct (NoDup_constant (preRegRecipients w providerEmail) provider) as [E | E].
      - apply Set_spread_NoDup.
      - intros x Hx. now apply Hmem in Hx.
      - exfalso. assert (In provider (preRegRecipients w providerEmail)) as Hin
          by (apply Hmem; auto).
        rewrite E in Hin. contradiction.
      - exact E. }
    rewrite <- Hl. apply Hdeliver; [|exact Hr]. rewrite Hl. discriminate.
  - intros m Hm. rewrite Htrace in Hm. cbn [sent] in Hm.
    now apply preReg_main_sent.
  - exact Hdeliver.
  - intros Hl. rewrite Hanswer, Htrace. cbn [sent].
    destruct (preReg_main_no_recipients req w Hc Hl) as [-> ->]. auto.
Qed.

Lemma preRegistration_recipients_witness :
  let req :=
    mkRequest "POST"
      (JObj [("providerEmail", JStr " Ventas@Fletes.mx ");
             ("cita", JObj [("fecha", JStr "2025-03-02"); ("hora", JStr "10:00")])]) in
  let w := example_world (Throw UNAVAILABLE) (Throw ENOENT) in
  queries (snd (run (AppointmentNotification.sendAppointmentNotification req) w)) =
    [admins_query] /\
  exists m,
    sent (snd (run (AppointmentNotification.sendAppointmentNotification req) w)) = [m] /\
    msg_to m = ToMany ["ventas@fletes.mx"] /\
    fst (run (AppointmentNotification.sendAppointmentNotification req) w) =
      Ok (respond 200 (Json true "Notificación de cita enviada correctamente." None)).
Proof.
  intros req w.
  destruct (preRegistration_recipients req w "SG.key" eq_refl eq_refl
              ltac:(discriminate) eq_refl eq_refl eq_refl eq_refl eq_refl)
    as [[Hq _] [l [_ [_ [_ [Hfail _]]]]]].
  split; [exact Hq|].
  destruct (Hfail (or_introl (ex_intro _ UNAVAILABLE eq_refl))) as [_ Hsend].
  destruct (Hsend ltac:(discriminate) (conj eq_refl (or_introl eq_refl)))
    as [m [Hs [Hto Hok]]].
  exists m. split; [exact Hs|]. split; [exact Hto|].
  apply (Hok 202). reflexivity.
Defined.
(** ** Requests that end without recipients *)

(** C6. When the deduplicated recipients are empty, the new-provider and the
    pre-registration functions answer 500 (not 400) with their no-recipients
    message, log it, and send nothing. *)
Theorem no_recipients_is_a_server_error (req : Request) (w : World) (k : string) :
  req_method req = "POST" ->
  SENDGRID_API_KEY w = Some k -> k <> "" ->
  let body := js_or (req_body req) (JObj []) in
  let cita := get "cita" body in
  (truthy (get "providerData" body) = true ->
   fst (run (NewProvider.resolveAdmins (get "adminEmails" body)) w) = Ok [] ->
   exists r,
     fst (run (NewProvider.sendNewProviderEmail req) w) = Ok r /\
     res_status r = 500 /\ res_status r <> 400 /\
     res_payload r =
       Json false "Los administradores no tienen correo configurado." None /\
     sent (snd (run (NewProvider.sendNewProviderEmail req) w)) = []) /\
  (truthy (get "providerEmail" body) = true -> truthy cita = true ->
   truthy (get "fecha" cita) = true -> truthy (get "hora" cita) = true ->
   fst (run (AppointmentNotification.resolveRecipients (get "providerEmail" body)) w)
     = Ok [] ->
   exists r,
     fst (run (AppointmentNotification.sendAppointmentNotification req) w) = Ok r /\
     res_status r = 500 /\ res_status r <> 400 /\
     res_payload r =
       Json false "No se encontraron correos configurados para notificar la cita." None /\
     sent (snd (run (AppointmentNotification.sendAppointmentNotification req) w)) = []).
Proof.
  intros Hpost Hkey Hk body cita. split.
  - intros Hdata R.
    rewrite (newProvider_run req w k Hpost Hkey Hk Hdata).
    unfold newProvider_main. fold body.
    pose proof (resolveAdmins_sends_nothing (get "adminEmails" body) w) as [St _].
    destruct (run (NewProvider.resolveAdmins (get "adminEmails" body)) w) as [o t].
    simpl in R, St. subst o.
    eexists. split; [reflexivity|]. cbn [fst snd sent].
    split; [reflexivity|]. split; [simpl; lia|]. split; [reflexivity|].
    now rewrite sent_app, St.
  - intros Hemail Hcita Hfecha Hhora R.
    rewrite resolveRecipients_run in R.
    destruct (stringifiable (get "providerEmail" body)) eqn:Hc; [|discriminate].
    injection R as R.
    rewrite (preReg_run req w k Hpost Hkey Hk Hemail Hcita Hfecha Hhora).
    destruct (preReg_main_no_recipients req w Hc R) as [Ha Hs].
    eexists. split; [reflexivity|]. cbn [fst snd sent]. rewrite Ha, Hs.
    split; [reflexivity|]. split; [simpl; lia|]. split; reflexivity.
Qed.

Lemma no_recipients_is_a_server_error_witness :
  let req :=
    mkRequest "POST"
      (JObj [("providerData", JObj [("linea", JStr "Fletes del Norte")]);
             ("adminEmails", JArr [JStr "   "])]) in
  let w := example_world (Ok [JObj [("correo", JNull)]; JObj []]) (Throw ENOENT) in
  exists r,
    fst (run (NewProvider.sendNewProviderEmail req) w) = Ok r /\
    res_status r = 500 /\ res_status r <> 400 /\
    res_payload r =
      Json false "Los administradores no tienen correo configurado." None /\
    sent (snd (run (NewProvider.sendNewProviderEmail req) w)) = [].
Proof.
  intros req w.
  exact (proj1 (no_recipients_is_a_server_error req w "SG.key" eq_refl eq_refl
                  ltac:(discriminate))
           eq_refl eq_refl).
Defined.
(** ** Claims on the confirmation function *)


(** C5. When the read of the PDF is attempted and fails, the confirmation
    function logs the failure and still hands SendGrid one message, without
    an [attachments] key; the answer is 200 when SendGrid accepts it, and
    otherwise carries the delivery error, never the read error. *)
Theorem pdf_failure_degrades (req : Request) (w : World) (e : Exn) :
  let answer := fst (run (CitaConfirmacion.sendCitaConfirmacion req) w) in
  let trace := snd (run (CitaConfirmacion.sendCitaConfirmacion req) w) in
  readFileSync w CitaConfirmacion.pdfPath = Throw e ->
  In CitaConfirmacion.pdfPath (reads trace) ->
  exists msg,
    sent trace = [msg] /\
    msg_attachments msg = None /\
    In (EvLog LogError "[sendCitaConfirmacion] No se pudo leer el PDF de indicaciones:")
       trace /\
    (forall status, sgMail_send w msg = Ok status ->
       answer =
         Ok (respond 200
               (Json true "Correo de confirmación de cita enviado correctamente." None))) /\
    (forall sgError, sgMail_send w msg = Throw sgError ->
       answer =
         Ok (respond 500
               (Json false "Ocurrió un error al enviar la confirmación de cita."
                  (Some (error_detail sgError))))).
Proof.
  intros answer trace Hpdf Hread. subst answer trace.
  destruct (confirmacion_early req w)
    as [[k [Hpost [Hkey [Hk [H1 [H2 H3]]]]]] | [_ Hr]];
    [|rewrite Hr in Hread; destruct Hread].
  rewrite (confirmacion_run req w k Hpost Hkey Hk H1 H2 H3) in *.
  destruct (confirmacion_main_cases req w) as [[h [_ [_ E]]] | [x [_ E]]];
    rewrite E in *; clear E.
  - exists (confirmacionMsg req w h).
    assert (msg_attachments (confirmacionMsg req w h) = None) as Hatt.
    { unfold confirmacionMsg, pdfAttachments. simpl. now rewrite Hpdf. }
    traces. split; [reflexivity|]. split; [exact Hatt|].
    split.
    { unfold behind, pdf_log. rewrite Hpdf. simpl. auto. }
    unfold behind, deliver. cbn [fst].
    destruct (sgMail_send w (confirmacionMsg req w h)) as [st | se] eqn:S.
    + split; [reflexivity | intros ? [=]].
    + split; [intros ? [=] | intros ? [= <-]; reflexivity].
  - exfalso. traces_in Hread. contradiction.
Qed.

Lemma pdf_failure_degrades_witness :
  let req :=
    mkRequest "POST"
      (JObj [("to", JStr "Chofer@Fletes.mx"); ("folio", JStr "F-100");
             ("datosCita", JObj [("fecha", JStr "2025-03-02")])]) in
  let w := example_world (Throw UNAVAILABLE) (Throw ENOENT) in
  exists msg,
    sent (snd (run (CitaConfirmacion.sendCitaConfirmacion req) w)) = [msg] /\
    msg_attachments msg = None /\
    fst (run (CitaConfirmacion.sendCitaConfirmacion req) w) =
      Ok (respond 200
            (Json true "Correo de confirmación de cita enviado correctamente." None)).
Proof.
  intros req w.
  destruct (pdf_failure_degrades req w ENOENT eq_refl) as [msg [Hs [Ha [_ [Hok _]]]]].
  - vm_compute. now left.
  - exists msg. split; [exact Hs|]. split; [exact Ha|]. exact (Hok 202 eq_refl).
Defined.

Lemma blank_address (s : string) :
  s <> "" -> all_space s = true ->
  truthy (JStr s) = true /\ normalizeEmail (JStr s) = "".
Proof.
  intros Hne Hws. unfold normalizeEmail. simpl.
  rewrite (String_eqb_false _ _ Hne). simpl.
  now rewrite (trim_all_space s Hws).
Qed.

(** A [to] of white space with notes that are a number: the validation
    passes, [notas.replace] throws, and no delivery is attempted. *)
Lemma whitespace_to_without_delivery :
  let req :=
    mkRequest "POST"
      (JObj [("to", JStr "   "); ("folio", JStr "F-100");
             ("datosCita", JObj [("fecha", JStr "2025-03-02"); ("notas", JNum 5)])]) in
  let w := example_world (Ok []) (Throw ENOENT) in
  let body := js_or (req_body req) (JObj []) in
  (all_space "   " = true /\ truthy (get "folio" body) = true /\
   truthy (get "datosCita" body) = true) /\
  sent (snd (run (CitaConfirmacion.sendCitaConfirmacion req) w)) = [] /\
  fst (run (CitaConfirmacion.sendCitaConfirmacion req) w) =
    Ok (respond 500
          (Json false "Ocurrió un error al enviar la confirmación de cita."
             (Some "notas.replace is not a function"))).
Proof. repeat split. Qed.

(** C10, amended.  A [to] made of white space only passes the validation of
    the confirmation function, which tests the raw value: the answer is
    never the 400 rejection and any message sent is addressed to the empty
    string.  The delivery is attempted exactly when the message can be
    composed: the folio and the fields of the bodies convert to strings and
    the notes are absent, falsy or a string; otherwise the answer is 500 and
    nothing is sent.  The credentials function, which tests the normalized
    value, answers the same input with 400 "Falta el correo del usuario."
    and sends nothing, provided [usuario], [contrasena] and [rol] convert. *)
Theorem confirmacion_validates_raw_to (req : Request) (w : World) (k s : string) :
  req_method req = "POST" ->
  SENDGRID_API_KEY w = Some k -> k <> "" ->
  let body := js_or (req_body req) (JObj []) in
  let notas := get "notas" (get "datosCita" body) in
  get "to" body = JStr s -> s <> "" -> all_space s = true ->
  truthy (get "folio" body) = true -> truthy (get "datosCita" body) = true ->
  let confirmacion := run (CitaConfirmacion.sendCitaConfirmacion req) w in
  let credenciales := run (AccessCredentials.sendAccessCredentials req) w in
  normalizeEmail (JStr s) = "" /\
  (exists r, fst confirmacion = Ok r /\ res_status r <> 400) /\
  (forall m, In m (sent (snd confirmacion)) -> msg_to m = ToOne "") /\
  (all_stringifiable (confirmacion_converted req) = true ->
   truthy notas = false \/ (exists text, notas = JStr text) ->
   exists m, sent (snd confirmacion) = [m] /\ msg_to m = ToOne "") /\
  (all_stringifiable (confirmacion_converted req) = false \/ not_text notas ->
   sent (snd confirmacion) = [] /\
   exists r, fst confirmacion = Ok r /\ res_status r = 500) /\
  (stringifiable (get "usuario" body) = true ->
   stringifiable (get "contrasena" body) = true ->
   stringifiable (get "rol" body) = true ->
   fst credenciales = Ok (sendError 400 "Falta el correo del usuario.") /\
   sent (snd credenciales) = []).
Proof.
  intros Hpost Hkey Hk body notas Hs Hne Hws Hfolio Hdatos confirmacion credenciales.
  destruct (blank_address s Hne Hws) as [Hto Hnorm].
  rewrite <- Hs in Hto.
  assert (forall h, msg_to (confirmacionMsg req w h) = ToOne "") as Hmsg.
  { intros h. unfold confirmacionMsg. simpl. fold body. now rewrite Hs, Hnorm. }
  split; [exact Hnorm|].
  subst confirmacion credenciales.
  rewrite (confirmacion_run req w k Hpost Hkey Hk Hto Hfolio Hdatos).
  rewrite (credentials_run req w k Hpost Hkey Hk).
  cbn [fst snd sent].
  destruct (confirmacion_main_cases req w) as [[h [Hc [Hh ->]]] | [e [Hfail ->]]];
    fold body in Hh || fold body in Hfail; traces.
  - split; [eexists; split; [reflexivity|]|].
    { unfold behind. cbn [fst]. rewrite status_deliver.
      destruct (sgMail_send w _); lia. }
    split; [intros m [<- | []]; exact (Hmsg h)|].
    split; [intros _ _; eexists; split; [reflexivity | exact (Hmsg h)]|].
    split.
    + intros [Hc' | Hn]; [congruence|].
      destruct (comentarios_confirm_throws notas w Hn) as [e He].
      fold notas in Hh. congruence.
    + intros Hu Hp Hr. unfold credentials_main. fold body.
      rewrite Hs, Hu, Hp, Hr, Hnorm. simpl. auto.
  - split; [eexists; split; [reflexivity | simpl; lia]|].
    split; [intros m H; contradiction|].
    split.
    + intros Hc Hn. exfalso.
      destruct (comentarios_confirm_text notas w Hn) as [h Hh].
      fold notas in Hfail. destruct Hfail as [Hfail | Hfail]; congruence.
    + split; [intros _; split; [reflexivity | eexists; split; reflexivity]|].
      intros Hu Hp Hr. unfold credentials_main. fold body.
      rewrite Hs, Hu, Hp, Hr, Hnorm. simpl. auto.
Qed.

Lemma confirmacion_validates_raw_to_witness :
  let req :=
    mkRequest "POST"
      (JObj [("to", JStr "   "); ("folio", JStr "F-100");
             ("datosCita", JObj [("fecha", JStr "2025-03-02")]);
             ("usuario", JStr "jdoe"); ("contrasena", JStr "p@ss1")]) in
  let w := example_world (Ok []) (Throw ENOENT) in
  (exists m, sent (snd (run (CitaConfirmacion.sendCitaConfirmacion req) w)) = [m] /\
             msg_to m = ToOne "") /\
  fst (run (AccessCredentials.sendAccessCredentials req) w) =
    Ok (sendError 400 "Falta el correo del usuario.").
Proof.
  intros req w.
  destruct (confirmacion_validates_raw_to req w "SG.key" "   " eq_refl eq_refl
              ltac:(discriminate) eq_refl ltac:(discriminate) eq_refl eq_refl eq_refl)
    as [_ [_ [_ [Hsend [_ Hcred]]]]].
  split; [apply Hsend; [reflexivity | now left]|].
  exact (proj1 (Hcred eq_refl eq_refl eq_refl)).
Defined.
(** ** Claims on the credentials function *)

Lemma rolFinal_fallback (rol : JsVal) :
  truthy rol = false \/ (exists r, rol = JStr r /\ trim r = "") ->
  stringifiable rol = true /\ AccessCredentials.rolFinal_of rol = "Usuario".
Proof.
  unfold AccessCredentials.rolFinal_of, text_field, js_or.
  intros [H | [r [-> Hr]]].
  - rewrite H. split; [now apply falsy_stringifiable | reflexivity].
  - split; [reflexivity|].
    simpl. destruct (r =? "")%string; simpl; [reflexivity | now rewrite Hr].
Qed.

Lemma credentials_html_rol (usuarioFinal passFinal rolFinal : string) :
  includes ("        <li><strong>Rol:</strong> " ++ rolFinal ++ "</li>")
    (AccessCredentials.htmlBody usuarioFinal passFinal rolFinal) = true.
Proof.
  unfold AccessCredentials.htmlBody. apply template_includes.
  simpl. auto 10.
Qed.

(** C7. Credentials: with [to], [usuario] and [contrasena] values that
    convert to strings and are not blank, and the role absent, falsy or blank
    once trimmed, one message goes to the normalized address, its body shows
    the role [Usuario], and the answer on acceptance is 200 with the success
    message; so it is for the scenario [to = "  User@X.com "],
    [usuario = "jdoe"], [contrasena = "p@ss1"], [rol = ""], whose recipient
    is [user@x.com]. *)
Theorem credentials_role_fallback (req : Request) (w : World) (k : string) :
  req_method req = "POST" ->
  SENDGRID_API_KEY w = Some k -> k <> "" ->
  let body := js_or (req_body req) (JObj []) in
  let to := get "to" body in
  let usuario := get "usuario" body in
  let contrasena := get "contrasena" body in
  let rol := get "rol" body in
  stringifiable to = true -> normalizeEmail to <> "" ->
  stringifiable usuario = true -> text_field usuario <> "" ->
  stringifiable contrasena = true -> text_field contrasena <> "" ->
  truthy rol = false \/ (exists r, rol = JStr r /\ trim r = "") ->
  (normalizeEmail (JStr "  User@X.com ") = "user@x.com" /\
   text_field (JStr "jdoe") = "jdoe" /\ text_field (JStr "p@ss1") = "p@ss1" /\
   AccessCredentials.rolFinal_of (JStr "") = "Usuario") /\
  exists msg,
    sent (snd (run (AccessCredentials.sendAccessCredentials req) w)) = [msg] /\
    msg_to msg = ToOne (normalizeEmail to) /\
    msg_html msg =
      AccessCredentials.htmlBody (text_field usuario) (text_field contrasena) "Usuario" /\
    includes "        <li><strong>Rol:</strong> Usuario</li>" (msg_html msg) = true /\
    (forall status, sgMail_send w msg = Ok status ->
       fst (run (AccessCredentials.sendAccessCredentials req) w) =
         Ok (respond 200
               (Json true "Correo de credenciales enviado correctamente." None))).
Proof.
  intros Hpost Hkey Hk body to usuario contrasena rol Hto Hton Hu Hun Hp Hpn Hrol.
  split; [repeat split|].
  destruct (rolFinal_fallback rol Hrol) as [Hr Hfinal].
  rewrite (credentials_run req w k Hpost Hkey Hk).
  rewrite (credentials_main_delivers req w Hto Hton Hu Hun Hp Hpn Hr).
  assert (msg_html (credentialsMsg req) =
          AccessCredentials.htmlBody (text_field usuario) (text_field contrasena) "Usuario")
    as Hhtml.
  { unfold credentialsMsg. simpl. fold body. fold rol. now rewrite Hfinal. }
  exists (credentialsMsg req). traces.
  split; [reflexivity|]. split; [reflexivity|]. split; [exact Hhtml|].
  split.
  - rewrite Hhtml.
    apply (credentials_html_rol (text_field usuario) (text_field contrasena) "Usuario").
  - intros status Hs. unfold deliver. now rewrite Hs.
Qed.

Lemma credentials_role_fallback_witness :
  let req :=
    mkRequest "POST"
      (JObj [("to", JStr "  User@X.com "); ("usuario", JStr "jdoe");
             ("contrasena", JStr "p@ss1"); ("rol", JStr "")]) in
  let w := example_world (Ok []) (Throw ENOENT) in
  exists msg,
    sent (snd (run (AccessCredentials.sendAccessCredentials req) w)) = [msg] /\
    msg_to msg = ToOne "user@x.com" /\
    msg_html msg = AccessCredentials.htmlBody "jdoe" "p@ss1" "Usuario" /\
    fst (run (AccessCredentials.sendAccessCredentials req) w) =
      Ok (respond 200 (Json true "Correo de credenciales enviado correctamente." None)).
Proof.
  intros req w.
  destruct (credentials_role_fallback req w "SG.key" eq_refl eq_refl
              ltac:(discriminate) eq_refl ltac:(discriminate) eq_refl
              ltac:(discriminate) eq_refl ltac:(discriminate)
              (or_introl eq_refl))
    as [_ [msg [Hs [Hto [Hhtml [_ Hok]]]]]].
  exists msg. split; [exact Hs|]. split; [exact Hto|]. split; [exact Hhtml|].
  apply (Hok 202).
  injection Hs as <-. reflexivity.
Defined.
(** ** Claims on the rendered bodies *)

Lemma preReg_html_line (providerLinea providerRazon providerFrontera : JsVal)
    (provEmailNorm : string) (citaId cita : JsVal) (notasHtml : string) :
  let html :=
    AppointmentNotification.htmlBody providerLinea providerRazon providerFrontera
      provEmailNorm citaId cita notasHtml in
  includes ("        <li><strong>¿Recolecta caja?:</strong> " ++
            ToString (js_or (get "recolectaCaja" cita) (JStr "No")) ++ "</li>") html = true /\
  includes ("        <li><strong>Es domingo:</strong> " ++
            (if truthy (get "esDomingo" cita)
             then "Sí, requiere aprobación especial" else "No") ++ "</li>") html = true /\
  includes ("      <p>" ++ notasHtml ++ "</p>") html = true.
Proof.
  unfold AppointmentNotification.htmlBody.
  repeat split; apply template_includes; simpl; auto 40.
Qed.

Lemma confirmacion_html_line (folio datosCita : JsVal) (notasHtml : string) :
  let html := CitaConfirmacion.htmlBody folio datosCita notasHtml in
  includes ("        <li><strong>¿Recolecta caja?:</strong> " ++
            or_dash (get "recolectaCaja" datosCita) ++ "</li>") html = true /\
  includes ("        <li><strong>Comentarios / notas:</strong> " ++ notasHtml ++ "</li>")
    html = true.
Proof.
  unfold CitaConfirmacion.htmlBody.
  repeat split; apply template_includes; simpl; auto 40.
Qed.

Lemma confirmacion_text_line (folio datosCita : JsVal) :
  let text := CitaConfirmacion.textBody folio datosCita in
  includes ("- ¿Recolecta caja?: " ++ or_dash (get "recolectaCaja" datosCita)) text = true /\
  includes ("- Comentarios / notas: " ++ or_dash (get "notas" datosCita)) text = true.
Proof.
  unfold CitaConfirmacion.textBody.
  repeat split; apply trimmed_template_includes;
    try reflexivity; try (simpl; auto 40); try (vm_compute; discriminate).
Qed.

(** What the two functions do to the notes: the pre-registration replaces
    every [<], the confirmation every line break. *)
Lemma preReg_notes_escaped (s : string) (w : World) :
  run (AppointmentNotification.comentarios (JStr s)) w =
    (Ok (str_or (replaceAll "<"%char "&lt;" s) "-"), []) /\
  includes "<" (str_or (replaceAll "<"%char "&lt;" s) "-") = false.
Proof.
  split.
  - unfold AppointmentNotification.comentarios, js_or. simpl.
    destruct (s =? "")%string eqn:E; [|reflexivity].
    apply String.eqb_eq in E. now subst.
  - unfold str_or. destruct (replaceAll "<"%char "&lt;" s =? "")%string eqn:E;
      [reflexivity|].
    now apply replaceAll_removes.
Qed.

Lemma confirmacion_notes_broken (s : string) (w : World) :
  s <> "" ->
  run (CitaConfirmacion.comentarios (JStr s)) w =
    (Ok (str_or (replaceAll (ascii_of_N 10) "<br>" s) "-"), []) /\
  includes LF (str_or (replaceAll (ascii_of_N 10) "<br>" s) "-") = false.
Proof.
  intros Hs. split.
  - unfold CitaConfirmacion.comentarios. simpl.
    now rewrite (String_eqb_false _ _ Hs).
  - unfold str_or.
    destruct (replaceAll (ascii_of_N 10) "<br>" s =? "")%string eqn:E; [reflexivity|].
    now apply replaceAll_removes.
Qed.

(** C4, at the inputs where the code departs from it.  The confirmation
    function sends the notes [<script>alert(1)</script>] with their [<] as
    they are; the pre-registration function sends the two lines [uno], [dos]
    with the line break as it is, no [<br>]. *)
Theorem notes_rendering_gaps :
  let w := example_world (Ok []) (Throw ENOENT) in
  map (fun m =>
         (includes "<li><strong>Comentarios / notas:</strong> <script>alert(1)</script></li>"
            (msg_html m),
          includes "&lt;" (msg_html m)))
      (sent (snd (run (CitaConfirmacion.sendCitaConfirmacion
                         (notes_request "<script>alert(1)</script>")) w)))
    = [(true, false)] /\
  map (fun m =>
         (includes ("<p>uno" ++ LF ++ "dos</p>") (msg_html m),
          includes "<br>" (msg_html m)))
      (sent (snd (run (AppointmentNotification.sendAppointmentNotification
                         (notes_request ("uno" ++ LF ++ "dos"))) w)))
    = [(true, false)].
Proof. split; vm_compute; reflexivity. Qed.

(** C8 as stated fails: the boolean [true] sent as [recolectaCaja] is rendered
    as the text [true]. *)
Lemma raw_true_is_rendered :
  map (fun m => includes "<li><strong>¿Recolecta caja?:</strong> true</li>" (msg_html m))
      (sent (snd (run (AppointmentNotification.sendAppointmentNotification
                         (flag_request (JBool true) (JBool false)))
                    (example_world (Ok []) (Throw ENOENT)))))
    = [true].
Proof. vm_compute. reflexivity. Qed.

(** C8, amended. [esDomingo] is rendered as [Sí, requiere aprobación especial]
    or [No]; [recolectaCaja] is rendered as [No] (pre-registration) or [-]
    (confirmation, both bodies) when falsy, and as the text of the value the
    caller sent when truthy: a text unchanged, the boolean [true] as [true]. *)
Theorem flags_rendering (providerLinea providerRazon providerFrontera : JsVal)
    (provEmailNorm : string) (citaId cita folio datosCita : JsVal)
    (notasPre notasConf : string) :
  let preHtml :=
    AppointmentNotification.htmlBody providerLinea providerRazon providerFrontera
      provEmailNorm citaId cita notasPre in
  let confHtml := CitaConfirmacion.htmlBody folio datosCita notasConf in
  let confText := CitaConfirmacion.textBody folio datosCita in
  let shown (v : JsVal) (placeholder : string) :=
    if truthy v then ToString v else placeholder in
  includes ("        <li><strong>Es domingo:</strong> " ++
            (if truthy (get "esDomingo" cita)
             then "Sí, requiere aprobación especial" else "No") ++ "</li>")
    preHtml = true /\
  includes ("        <li><strong>¿Recolecta caja?:</strong> " ++
            shown (get "recolectaCaja" cita) "No" ++ "</li>") preHtml = true /\
  includes ("        <li><strong>¿Recolecta caja?:</strong> " ++
            shown (get "recolectaCaja" datosCita) "-" ++ "</li>") confHtml = true /\
  includes ("- ¿Recolecta caja?: " ++ shown (get "recolectaCaja" datosCita) "-")
    confText = true /\
  (forall text placeholder, text <> "" -> shown (JStr text) placeholder = text) /\
  (forall placeholder, shown (JBool true) placeholder = "true" /\
                       shown (JBool false) placeholder = placeholder /\
                       shown JUndefined placeholder = placeholder).
Proof.
  intros preHtml confHtml confText shown.
  assert (forall v p, shown v p = ToString (js_or v (JStr p))) as Hshown.
  { intros v p. unfold shown, js_or. now destruct (truthy v). }
  destruct (preReg_html_line providerLinea providerRazon providerFrontera
              provEmailNorm citaId cita notasPre) as [H1 [H2 _]].
  destruct (confirmacion_html_line folio datosCita notasConf) as [H3 _].
  destruct (confirmacion_text_line folio datosCita) as [H4 _].
  rewrite !Hshown.
  split; [exact H2|]. split; [exact H1|]. split; [exact H3|]. split; [exact H4|].
  split.
  - intros text p Ht. unfold shown, truthy. now rewrite (String_eqb_false _ _ Ht).
  - intros p. repeat split.
Qed.

Lemma flags_rendering_witness :
  (if truthy (JStr "Sí") then ToString (JStr "Sí") else "No") = "Sí".
Proof.
  destruct (flags_rendering JUndefined JUndefined JUndefined "" JUndefined
              (JObj [("recolectaCaja", JStr "Sí")]) (JStr "F-100") JUndefined "-" "-")
    as [_ [_ [_ [_ [Htext _]]]]].
  apply (Htext "Sí" "No"). discriminate.
Defined.

(** * Further properties of the four functions *)

(** ** Method, configuration and validation *)

(** X1. A request that is not a POST never reaches the mail code: OPTIONS is
    answered 204 with an empty text, any other method 405, and nothing is
    read, queried, logged or sent. *)
Theorem non_post_requests :
  every_function (fun f =>
    forall req w,
      req_method req <> "POST" ->
      run (f req) w =
        (Ok (if (req_method req =? "OPTIONS")%string
             then respond 204 (SendText "")
             else sendError 405 "Method Not Allowed"),
         [])).
Proof.
  unfold every_function. repeat split; intros req w H;
    apply String.eqb_neq in H; unfold_functions; rewrite H;
    destruct (req_method req =? "OPTIONS")%string; reflexivity.
Qed.

Lemma non_post_requests_witness :
  run (CitaConfirmacion.sendCitaConfirmacion (mkRequest "GET" JNull))
      (example_world (Ok []) (Throw ENOENT)) =
    (Ok (sendError 405 "Method Not Allowed"), []).
Proof.
  destruct non_post_requests as [_ [_ [_ H]]].
  apply (H (mkRequest "GET" JNull)). discriminate.
Defined.

(** X2. With [SENDGRID_API_KEY] unset or empty every POST is answered 500
    "SendGrid no está configurado en el servidor.", whatever the body: one
    error is logged, nothing is queried, read or sent. *)
Theorem missing_key_is_500 :
  every_function (fun f =>
    forall req w,
      req_method req = "POST" -> key_missing w ->
      run (f req) w =
        (Ok (sendError 500 "SendGrid no está configurado en el servidor."),
         [EvLog LogError
            "[functions] Falta SENDGRID_API_KEY en las variables de entorno."])).
Proof.
  unfold every_function. repeat split; intros req w Hp [Hk | Hk];
    unfold_functions; rewrite Hp; simpl; rewrite Hk; reflexivity.
Qed.

Lemma missing_key_is_500_witness :
  run (AccessCredentials.sendAccessCredentials
         (mkRequest "POST" (JObj [("to", JStr "user@x.com"); ("usuario", JStr "jdoe");
                                  ("contrasena", JStr "p@ss1")])))
      (mkWorld None (fun _ => Ok []) (fun _ => Throw ENOENT) (fun _ => Ok 202)) =
    (Ok (sendError 500 "SendGrid no está configurado en el servidor."),
     [EvLog LogError
        "[functions] Falta SENDGRID_API_KEY en las variables de entorno."]).
Proof.
  destruct missing_key_is_500 as [_ [H _]].
  apply H; [reflexivity | now left].
Defined.

(** X3. A POST without its required fields is answered 400 before Firestore,
    the file system or SendGrid is touched: [providerData] for the new
    provider; [providerEmail], [cita], [cita.fecha], [cita.hora] for the
    pre-registration; [to], [folio], [datosCita] for the confirmation. *)
Theorem missing_fields_are_400 (req : Request) (w : World) (k : string) :
  req_method req = "POST" ->
  SENDGRID_API_KEY w = Some k -> k <> "" ->
  let body := js_or (req_body req) (JObj []) in
  let cita := get "cita" body in
  (truthy (get "providerData" body) = false ->
   run (NewProvider.sendNewProviderEmail req) w =
     (Ok (sendError 400 "Faltan los datos del proveedor."), [EvSetApiKey k])) /\
  (truthy (get "providerEmail" body) && truthy cita &&
   truthy (get "fecha" cita) && truthy (get "hora" cita) = false ->
   run (AppointmentNotification.sendAppointmentNotification req) w =
     (Ok (sendError 400 "Faltan datos para enviar la confirmación de cita."),
      [EvSetApiKey k])) /\
  (truthy (get "to" body) && truthy (get "folio" body) &&
   truthy (get "datosCita" body) = false ->
   run (CitaConfirmacion.sendCitaConfirmacion req) w =
     (Ok (sendError 400 "Faltan parámetros obligatorios (to, folio, datosCita)."),
      [EvSetApiKey k])).
Proof.
  intros Hp Hkey Hk body cita. apply String_eqb_false in Hk.
  repeat split; intros H; unfold_functions; rewrite Hp; simpl;
    rewrite Hkey, Hk; simpl; fold body; try fold cita.
  - now rewrite H.
  - destruct (truthy (get "providerEmail" body)); [|reflexivity].
    destruct (truthy cita); [|reflexivity].
    destruct (truthy (get "fecha" cita)); [|reflexivity].
    simpl in H. now rewrite H.
  - destruct (truthy (get "to" body)); [|reflexivity].
    destruct (truthy (get "folio" body)); [|reflexivity].
    simpl in H. now rewrite H.
Qed.

Lemma missing_fields_are_400_witness :
  let req :=
    mkRequest "POST"
      (JObj [("providerEmail", JStr "ventas@fletes.mx");
             ("cita", JObj [("fecha", JStr "2025-03-02")])]) in
  let w := example_world (Ok [admin_doc "a@x.com"]) (Throw ENOENT) in
  run (AppointmentNotification.sendAppointmentNotification req) w =
    (Ok (sendError 400 "Faltan datos para enviar la confirmación de cita."),
     [EvSetApiKey "SG.key"]).
Proof.
  intros req w.
  exact (proj1 (proj2 (missing_fields_are_400 req w "SG.key" eq_refl eq_refl
                         ltac:(discriminate)))
           eq_refl).
Defined.

(** X4. Credentials are validated after trimming: with an address present
    and fields that convert to strings, a [usuario] or [contrasena] that is
    absent or blank once trimmed is answered 400
    "Faltan usuario o contraseña." and nothing is sent. *)
Theorem blank_credentials_are_400 (req : Request) (w : World) (k : string) :
  req_method req = "POST" ->
  SENDGRID_API_KEY w = Some k -> k <> "" ->
  let body := js_or (req_body req) (JObj []) in
  stringifiable (get "to" body) = true -> normalizeEmail (get "to" body) <> "" ->
  stringifiable (get "usuario" body) = true ->
  stringifiable (get "contrasena" body) = true ->
  stringifiable (get "rol" body) = true ->
  text_field (get "usuario" body) = "" \/ text_field (get "contrasena" body) = "" ->
  run (AccessCredentials.sendAccessCredentials req) w =
    (Ok (sendError 400 "Faltan usuario o contraseña."),
     [EvSetApiKey k; EvLog LogInfo "[sendAccessCredentials] Body recibido:";
      EvLog LogError "[sendAccessCredentials] Falta usuario o contraseña."]).
Proof.
  intros Hp Hkey Hk body Hto Hton Hu Hpw Hr H.
  rewrite (credentials_run req w k Hp Hkey Hk).
  unfold credentials_main. fold body.
  rewrite Hto, Hu, Hpw, Hr, (String_eqb_false _ _ Hton). cbn [negb].
  destruct H as [H | H]; rewrite H; simpl; [reflexivity|].
  now rewrite orb_true_r.
Qed.

Lemma blank_credentials_are_400_witness :
  let req :=
    mkRequest "POST" (JObj [("to", JStr "user@x.com"); ("usuario", JStr "   ");
                            ("contrasena", JStr "p@ss1")]) in
  let w := example_world (Ok []) (Throw ENOENT) in
  run (AccessCredentials.sendAccessCredentials req) w =
    (Ok (sendError 400 "Faltan usuario o contraseña."),
     [EvSetApiKey "SG.key"; EvLog LogInfo "[sendAccessCredentials] Body recibido:";
      EvLog LogError "[sendAccessCredentials] Falta usuario o contraseña."]).
Proof.
  intros req w.
  apply (blank_credentials_are_400 req w "SG.key" eq_refl eq_refl);
    [discriminate | reflexivity | discriminate | reflexivity | reflexivity
     | reflexivity | now left].
Defined.

(** ** Answers and effects, for every request and every world *)

(** X5. When Firestore, the file system and SendGrid fail by throwing an
    [Error] object, and whatever the request holds (values that do not
    convert to a string included), no exception escapes: each function
    answers, with the CORS headers and one of the statuses 200, 204, 400,
    405, 500; [success] is true exactly with 200 and an error detail comes
    only with 500. *)
Theorem every_request_is_answered :
  every_function (fun f =>
    forall req w, exists r,
      fst (run (f req) w) = Ok r /\ well_formed_answer r).
Proof.
  unfold every_function.
  split; [|split; [|split]]; intros req w.
  - destruct (newProvider_cases req w) as [Hpre | [k ->]].
    + destruct (preflight_well_formed _ Hpre) as [r [H1 [H2 _]]]. eauto.
    + eexists. split; [reflexivity|].
      eapply shape_well_formed. apply newProvider_shape.
  - destruct (credentials_cases req w) as [Hpre | [k ->]].
    + destruct (preflight_well_formed _ Hpre) as [r [H1 [H2 _]]]. eauto.
    + eexists. split; [reflexivity|].
      eapply shape_well_formed. apply credentials_shape.
  - destruct (preReg_cases req w) as [Hpre | [k ->]].
    + destruct (preflight_well_formed _ Hpre) as [r [H1 [H2 _]]]. eauto.
    + eexists. split; [reflexivity|].
      eapply shape_well_formed. apply preReg_shape.
  - destruct (confirmacion_cases req w) as [Hpre | [k ->]].
    + destruct (preflight_well_formed _ Hpre) as [r [H1 [H2 _]]]. eauto.
    + eexists. split; [reflexivity|].
      eapply shape_well_formed. apply confirmacion_shape.
Qed.


(** X6. No retry and no fan-out: a request makes at most one call to
    [mailClient.send], at most one Firestore query (the administrators with
    id 1 or 2) and at most one file read (the PDF of indications). *)
Theorem at_most_one_call_each :
  every_function (fun f =>
    forall req w,
      let trace := snd (run (f req) w) in
      (List.length (sent trace) <= 1)%nat /\
      (queries trace = [] \/ queries trace = [admins_query]) /\
      (reads trace = [] \/ reads trace = [CitaConfirmacion.pdfPath])).
Proof.
  unfold every_function.
  split; [|split; [|split]]; intros req w; cbv zeta.
  - destruct (newProvider_cases req w) as [Hpre | [k ->]].
    + apply preflight_trace in Hpre as [-> [-> ->]]. simpl. auto.
    + cbn [snd sent queries reads].
      destruct (newProvider_main_effects req w) as [Hq ->].
      split; [eapply shape_at_most_one; apply newProvider_shape | auto].
  - destruct (credentials_cases req w) as [Hpre | [k ->]].
    + apply preflight_trace in Hpre as [-> [-> ->]]. simpl. auto.
    + cbn [snd sent queries reads].
      destruct (credentials_main_effects req w) as [-> ->].
      split; [eapply shape_at_most_one; apply credentials_shape | auto].
  - destruct (preReg_cases req w) as [Hpre | [k ->]].
    + apply preflight_trace in Hpre as [-> [-> ->]]. simpl. auto.
    + cbn [snd sent queries reads].
      destruct (preReg_main_effects req w) as [Hq ->].
      split; [eapply shape_at_most_one; apply preReg_shape | auto].
  - destruct (confirmacion_cases req w) as [Hpre | [k ->]].
    + apply preflight_trace in Hpre as [-> [-> ->]]. simpl. auto.
    + cbn [snd sent queries reads].
      destruct (confirmacion_main_effects req w) as [-> Hr].
      split; [eapply shape_at_most_one; apply confirmacion_shape | auto].
Qed.


(** X7. The credentials function never queries Firestore nor reads a file;
    the confirmation never queries Firestore; the new-provider and the
    pre-registration functions never read a file. *)
Theorem effects_each_function_never_has :
  forall req w,
    (queries (snd (run (AccessCredentials.sendAccessCredentials req) w)) = [] /\
     reads (snd (run (AccessCredentials.sendAccessCredentials req) w)) = []) /\
    queries (snd (run (CitaConfirmacion.sendCitaConfirmacion req) w)) = [] /\
    reads (snd (run (NewProvider.sendNewProviderEmail req) w)) = [] /\
    reads (snd (run (AppointmentNotification.sendAppointmentNotification req) w)) = [].
Proof.
  intros req w.
  split; [|split; [|split]].
  - destruct (credentials_cases req w) as [Hpre | [k ->]].
    + apply preflight_trace in Hpre as [_ [-> ->]]. auto.
    + cbn [snd queries reads]. apply credentials_main_effects.
  - destruct (confirmacion_cases req w) as [Hpre | [k ->]].
    + now apply preflight_trace in Hpre as [_ [-> _]].
    + cbn [snd queries]. apply confirmacion_main_effects.
  - destruct (newProvider_cases req w) as [Hpre | [k ->]].
    + now apply preflight_trace in Hpre as [_ [_ ->]].
    + cbn [snd reads]. apply newProvider_main_effects.
  - destruct (preReg_cases req w) as [Hpre | [k ->]].
    + now apply preflight_trace in Hpre as [_ [_ ->]].
    + cbn [snd reads]. apply preReg_main_effects.
Qed.


(** X8. Success is reported only for an accepted message: the answer is 200
    exactly when one message was handed to SendGrid and SendGrid accepted it. *)
Theorem ok_iff_accepted :
  every_function (fun f =>
    forall req w,
      (exists r, fst (run (f req) w) = Ok r /\ res_status r = 200) <->
      (exists msg status,
          sent (snd (run (f req) w)) = [msg] /\ sgMail_send w msg = Ok status)).
Proof.
  unfold every_function.
  assert (pre : forall (o : Outcome Response * list Event) (w : World),
             preflight o ->
             (exists r, fst o = Ok r /\ res_status r = 200) <->
             (exists msg status, sent (snd o) = [msg] /\ sgMail_send w msg = Ok status)).
  { intros o w H. split.
    - intros [r [E1 E2]]. exfalso.
      destruct H as [-> | [-> | [-> | [k [m ->]]]]]; injection E1 as <-; discriminate.
    - intros [msg [st [E _]]]. apply preflight_trace in H as [Hs _].
      rewrite Hs in E. discriminate. }
  assert (main : forall (w : World) fail ok (o : Response * list Event) ev,
             delivery_shape w fail ok o -> sent ev = [] ->
             (exists r, fst (Ok (fst o), (ev ++ snd o)%list) = Ok r /\ res_status r = 200) <->
             (exists msg status,
                 sent (snd (Ok (fst o), (ev ++ snd o)%list)) = [msg] /\
                 sgMail_send w msg = Ok status)).
  { intros w fail ok o ev Hshape Hev. cbn [fst snd]. rewrite sent_app, Hev.
    rewrite <- (shape_ok_iff w fail ok o Hshape). cbn [app]. split.
    - now intros [r [[= <-] H]].
    - intros H. eexists. split; [reflexivity | exact H]. }
  split; [|split; [|split]]; intros req w.
  - destruct (newProvider_cases req w) as [Hpre | [k ->]]; [now apply pre|].
    apply (main w _ _ _ [EvSetApiKey k] (newProvider_shape req w)). reflexivity.
  - destruct (credentials_cases req w) as [Hpre | [k ->]]; [now apply pre|].
    apply (main w _ _ _
             [EvSetApiKey k; EvLog LogInfo "[sendAccessCredentials] Body recibido:"]
             (credentials_shape req w)). reflexivity.
  - destruct (preReg_cases req w) as [Hpre | [k ->]]; [now apply pre|].
    apply (main w _ _ _ [EvSetApiKey k] (preReg_shape req w)). reflexivity.
  - destruct (confirmacion_cases req w) as [Hpre | [k ->]]; [now apply pre|].
    apply (main w _ _ _ [EvSetApiKey k] (confirmacion_shape req w)). reflexivity.
Qed.

Lemma ok_iff_accepted_witness :
  let req :=
    mkRequest "POST" (JObj [("to", JStr "user@x.com"); ("usuario", JStr "jdoe");
                            ("contrasena", JStr "p@ss1")]) in
  let w := example_world (Ok []) (Throw ENOENT) in
  exists msg status,
    sent (snd (run (AccessCredentials.sendAccessCredentials req) w)) = [msg] /\
    sgMail_send w msg = Ok status.
Proof.
  intros req w.
  destruct ok_iff_accepted as [_ [H _]].
  apply (proj1 (H req w)).
  eexists. split; reflexivity.
Defined.
(** X9. A message SendGrid rejects is answered 500 with the message of the
    function and the detail [error.message || String(error)] of the SendGrid
    error. *)
Theorem delivery_failure_is_500 :
  reports_delivery_failure NewProvider.sendNewProviderEmail
    "Ocurrió un error al enviar el correo." /\
  reports_delivery_failure AccessCredentials.sendAccessCredentials
    "Ocurrió un error al enviar el correo." /\
  reports_delivery_failure AppointmentNotification.sendAppointmentNotification
    "Ocurrió un error al enviar la notificación de cita." /\
  reports_delivery_failure CitaConfirmacion.sendCitaConfirmacion
    "Ocurrió un error al enviar la confirmación de cita.".
Proof.
  unfold reports_delivery_failure.
  assert (pre : forall (o : Outcome Response * list Event) (m : Msg),
             preflight o -> In m (sent (snd o)) -> False).
  { intros o m H Hm. apply preflight_trace in H as [Hs _]. now rewrite Hs in Hm. }
  split; [|split; [|split]]; intros req w msg e.
  - destruct (newProvider_cases req w) as [Hpre | [k ->]];
      [intros H; now elim (pre _ _ Hpre H)|].
    cbn [fst snd sent]. intros Hm He.
    now rewrite (shape_failure w _ _ _ msg e (newProvider_shape req w) Hm He).
  - destruct (credentials_cases req w) as [Hpre | [k ->]];
      [intros H; now elim (pre _ _ Hpre H)|].
    cbn [fst snd sent]. intros Hm He.
    now rewrite (shape_failure w _ _ _ msg e (credentials_shape req w) Hm He).
  - destruct (preReg_cases req w) as [Hpre | [k ->]];
      [intros H; now elim (pre _ _ Hpre H)|].
    cbn [fst snd sent]. intros Hm He.
    now rewrite (shape_failure w _ _ _ msg e (preReg_shape req w) Hm He).
  - destruct (confirmacion_cases req w) as [Hpre | [k ->]];
      [intros H; now elim (pre _ _ Hpre H)|].
    cbn [fst snd sent]. intros Hm He.
    now rewrite (shape_failure w _ _ _ msg e (confirmacion_shape req w) Hm He).
Qed.

Lemma delivery_failure_is_500_witness :
  let req :=
    mkRequest "POST" (JObj [("to", JStr "user@x.com"); ("usuario", JStr "jdoe");
                            ("contrasena", JStr "p@ss1")]) in
  let e := mkExn "ResponseError" "Unauthorized" (Some "{errors:[...]}") in
  fst (run (AccessCredentials.sendAccessCredentials req) (rejecting_world e)) =
    Ok (respond 500 (Json false "Ocurrió un error al enviar el correo."
                       (Some "Unauthorized"))).
Proof.
  intros req e.
  destruct delivery_failure_is_500 as [_ [H _]].
  apply (H req (rejecting_world e) (credentialsMsg req) e); [now left | reflexivity].
Defined.

(** X10. Every message any function sends comes from the fixed sender
    [logisticabmm@gmail.com], "Control de Transportes BMM"; the subject is
    fixed but for the confirmation, whose subject ends with the folio, and
    only the confirmation carries a plain-text body. *)
Theorem sender_and_subject :
  forall req w m,
    let body := js_or (req_body req) (JObj []) in
    (In m (sent (snd (run (NewProvider.sendNewProviderEmail req) w))) ->
     msg_from m = mkSender "logisticabmm@gmail.com" "Control de Transportes BMM" /\
     msg_subject m = "Nueva solicitud de registro de proveedor" /\
     msg_text m = None) /\
    (In m (sent (snd (run (AccessCredentials.sendAccessCredentials req) w))) ->
     msg_from m = mkSender "logisticabmm@gmail.com" "Control de Transportes BMM" /\
     msg_subject m = "Credenciales de acceso - Control de Transportes BMM" /\
     msg_text m = None) /\
    (In m (sent (snd (run (AppointmentNotification.sendAppointmentNotification req) w))) ->
     msg_from m = mkSender "logisticabmm@gmail.com" "Control de Transportes BMM" /\
     msg_subject m = "Pre-registro de cita de acceso - Control de Transportes BMM" /\
     msg_text m = None) /\
    (In m (sent (snd (run (CitaConfirmacion.sendCitaConfirmacion req) w))) ->
     msg_from m = mkSender "logisticabmm@gmail.com" "Control de Transportes BMM" /\
     msg_subject m =
       "Confirmación de cita de transporte - Folio " ++ ToString (get "folio" body) /\
     msg_text m =
       Some (CitaConfirmacion.textBody (get "folio" body) (get "datosCita" body))).
Proof.
  intros req w m body.
  split; [|split; [|split]]; intros Hm.
  - destruct (newProvider_sent_to req w m Hm) as [a [l [_ ->]]]. repeat split.
  - rewrite (credentials_sent_to req w m Hm). repeat split.
  - destruct (preReg_sent_to req w m Hm) as [_ [h ->]]. repeat split.
  - destruct (confirmacion_sent_to req w m Hm) as [_ [_ [h [_ ->]]]]. repeat split.
Qed.

Lemma sender_and_subject_witness :
  let req :=
    mkRequest "POST"
      (JObj [("to", JStr "chofer@fletes.mx"); ("folio", JStr "F-100");
             ("datosCita", JObj [("fecha", JStr "2025-03-02")])]) in
  let w := example_world (Ok []) (Throw ENOENT) in
  msg_subject (confirmacionMsg req w "-") =
    "Confirmación de cita de transporte - Folio F-100".
Proof.
  intros req w.
  destruct (sender_and_subject req w (confirmacionMsg req w "-")) as [_ [_ [_ H]]].
  destruct H as [_ [H _]]; [now left | exact H].
Defined.

(** X11. The success bodies: an accepted message is answered 200 with
    [success: true], the message of the function and no error detail. *)
Theorem delivery_success_is_200 :
  reports_delivery_success NewProvider.sendNewProviderEmail
    "Correo enviado correctamente a los administradores." /\
  reports_delivery_success AccessCredentials.sendAccessCredentials
    "Correo de credenciales enviado correctamente." /\
  reports_delivery_success AppointmentNotification.sendAppointmentNotification
    "Notificación de cita enviada correctamente." /\
  reports_delivery_success CitaConfirmacion.sendCitaConfirmacion
    "Correo de confirmación de cita enviado correctamente.".
Proof.
  unfold reports_delivery_success.
  assert (pre : forall (o : Outcome Response * list Event) (m : Msg),
             preflight o -> In m (sent (snd o)) -> False).
  { intros o m H Hm. apply preflight_trace in H as [Hs _]. now rewrite Hs in Hm. }
  split; [|split; [|split]]; intros req w msg status.
  - destruct (newProvider_cases req w) as [Hpre | [k ->]];
      [intros H; now elim (pre _ _ Hpre H)|].
    cbn [fst snd sent]. intros Hm He.
    now rewrite (shape_success w _ _ _ msg status (newProvider_shape req w) Hm He).
  - destruct (credentials_cases req w) as [Hpre | [k ->]];
      [intros H; now elim (pre _ _ Hpre H)|].
    cbn [fst snd sent]. intros Hm He.
    now rewrite (shape_success w _ _ _ msg status (credentials_shape req w) Hm He).
  - destruct (preReg_cases req w) as [Hpre | [k ->]];
      [intros H; now elim (pre _ _ Hpre H)|].
    cbn [fst snd sent]. intros Hm He.
    now rewrite (shape_success w _ _ _ msg status (preReg_shape req w) Hm He).
  - destruct (confirmacion_cases req w) as [Hpre | [k ->]];
      [intros H; now elim (pre _ _ Hpre H)|].
    cbn [fst snd sent]. intros Hm He.
    now rewrite (shape_success w _ _ _ msg status (confirmacion_shape req w) Hm He).
Qed.

Lemma delivery_success_is_200_witness :
  let req :=
    mkRequest "POST"
      (JObj [("providerData", JObj [("linea", JStr "Fletes del Norte")])]) in
  let w := example_world (Ok [admin_doc "a@x.com"]) (Throw ENOENT) in
  fst (run (NewProvider.sendNewProviderEmail req) w) =
    Ok (respond 200
          (Json true "Correo enviado correctamente a los administradores." None)).
Proof.
  intros req w.
  destruct delivery_success_is_200 as [H _].
  apply (H req w (newProviderMsg req ["a@x.com"]) 202); [now left | reflexivity].
Defined.

(** ** The new-provider function *)

(** X12. Unlike the pre-registration, the new-provider function does not
    survive a failed Firestore query: with no explicit recipients, a query
    that throws is answered 500 with the detail of the Firestore error, and
    nothing is sent. *)
Theorem newProvider_directory_failure (req : Request) (w : World) (k : string)
    (e : Exn) :
  req_method req = "POST" ->
  SENDGRID_API_KEY w = Some k -> k <> "" ->
  let body := js_or (req_body req) (JObj []) in
  truthy (get "providerData" body) = true ->
  NewProvider.explicitAdmins (get "adminEmails" body) = [] ->
  firestore_get w admins_query = Throw e ->
  fst (run (NewProvider.sendNewProviderEmail req) w) =
    Ok (respond 500
          (Json false "Ocurrió un error al enviar el correo." (Some (error_detail e)))) /\
  sent (snd (run (NewProvider.sendNewProviderEmail req) w)) = [] /\
  queries (snd (run (NewProvider.sendNewProviderEmail req) w)) = [admins_query].
Proof.
  intros Hp Hkey Hk body Hdata Hex He.
  rewrite (newProvider_run req w k Hp Hkey Hk Hdata).
  unfold newProvider_main. fold body.
  rewrite (resolveAdmins_directory _ w Hex). unfold directoryAdmins. rewrite He.
  traces. auto.
Qed.

Lemma newProvider_directory_failure_witness :
  let req :=
    mkRequest "POST"
      (JObj [("providerData", JObj [("linea", JStr "Fletes del Norte")])]) in
  let w := example_world (Throw UNAVAILABLE) (Throw ENOENT) in
  fst (run (NewProvider.sendNewProviderEmail req) w) =
    Ok (respond 500
          (Json false "Ocurrió un error al enviar el correo." (Some "14 UNAVAILABLE"))).
Proof.
  intros req w.
  exact (proj1 (newProvider_directory_failure req w "SG.key" UNAVAILABLE eq_refl eq_refl
                  ltac:(discriminate) eq_refl eq_refl eq_refl)).
Defined.

(** X13. The ZIP is attached exactly when both [zipBase64] and [zipName] are
    truthy, as received, with type [application/zip]; otherwise the message
    carries an empty [attachments] list. *)
Theorem zip_attachment_rule (req : Request) (w : World) (m : Msg) :
  let body := js_or (req_body req) (JObj []) in
  let zipBase64 := get "zipBase64" body in
  let zipName := get "zipName" body in
  In m (sent (snd (run (NewProvider.sendNewProviderEmail req) w))) ->
  msg_attachments m =
    Some (if truthy zipBase64 && truthy zipName
          then [mkAttachment (ClientBase64 zipBase64) zipName
                  "application/zip" "attachment"]
          else []).
Proof.
  intros body zipBase64 zipName Hm.
  destruct (newProvider_sent_to req w m Hm) as [a [l [_ ->]]]. reflexivity.
Qed.

Lemma zip_attachment_rule_witness :
  let req :=
    mkRequest "POST"
      (JObj [("providerData", JObj [("linea", JStr "Fletes del Norte")]);
             ("adminEmails", JArr [JStr "admin@x.com"]);
             ("zipBase64", JStr "UEsDBA==")]) in
  let w := example_world (Ok []) (Throw ENOENT) in
  msg_attachments (newProviderMsg req ["admin@x.com"]) = Some [].
Proof.
  intros req w.
  apply (zip_attachment_rule req w). now left.
Defined.

(** X14. An explicit list whose normalized addresses are all different is
    used in the order the caller gave: every message sent is addressed to
    the list as it stands. *)
Theorem explicit_order_is_kept (req : Request) (w : World) (m : Msg) :
  let body := js_or (req_body req) (JObj []) in
  let explicit := NewProvider.explicitAdmins (get "adminEmails" body) in
  explicit <> [] -> NoDup explicit ->
  In m (sent (snd (run (NewProvider.sendNewProviderEmail req) w))) ->
  msg_to m = ToMany explicit.
Proof.
  intros body explicit Hne Hnd Hm.
  destruct (newProvider_sent_to req w m Hm) as [a [l [R ->]]].
  fold body in R. rewrite resolveAdmins_run in R.
  subst explicit. rewrite explicitAdmins_items in *.
  destruct (array_items (get "adminEmails" body)) as [items|]; [|now elim Hne].
  destruct (all_stringifiable items); [|discriminate R].
  destruct (filter_Boolean (map normalizeEmail items)) as [|x r]; [now elim Hne|].
  cbn [fst] in R. injection R as R.
  unfold newProviderMsg. cbn [msg_to]. rewrite <- R.
  now rewrite (Set_spread_distinct _ Hnd).
Qed.

Lemma explicit_order_is_kept_witness :
  let req :=
    mkRequest "POST"
      (JObj [("providerData", JObj [("linea", JStr "Fletes del Norte")]);
             ("adminEmails", JArr [JStr "Zoe@x.com"; JStr " ana@x.com"])]) in
  let w := example_world (Ok []) (Throw ENOENT) in
  msg_to (newProviderMsg req ["zoe@x.com"; "ana@x.com"]) =
    ToMany ["zoe@x.com"; "ana@x.com"].
Proof.
  intros req w.
  apply (explicit_order_is_kept req w); [discriminate | | now left].
  repeat constructor; simpl; intuition discriminate.
Defined.


(** X15. Every field of the new-provider body is shown as sent, or as "-"
    when it is absent or falsy. *)
Theorem newProvider_placeholders (req : Request) (w : World) (m : Msg) :
  let body := js_or (req_body req) (JObj []) in
  let data := get "providerData" body in
  let shown (v : JsVal) := if truthy v then ToString v else "-" in
  let line (label : string) (v : JsVal) :=
    includes ("        <li><strong>" ++ label ++ ":</strong> " ++ shown v ++ " </li>")
      (msg_html m) in
  In m (sent (snd (run (NewProvider.sendNewProviderEmail req) w))) ->
  line "ID Proveedor" (get "providerId" body) = true /\
  line "Línea transportista / Nombre comercial" (get "linea" data) = true /\
  line "Razón social" (get "razon" data) = true /\
  line "Dirección fiscal" (get "direccionFiscal" data) = true /\
  line "Dirección de patios de maniobra" (get "direccionPatios" data) = true /\
  line "Frontera por donde cruza" (get "frontera" data) = true /\
  line "Contacto (teléfono)" (get "telefonoContacto" data) = true /\
  line "Contacto (correo electrónico)" (get "providerEmail" body) = true.
Proof.
  intros body data shown line Hm.
  assert (msg_html m =
          NewProvider.htmlBody (get "providerId" body) (get "providerEmail" body) data)
    as Hhtml.
  { destruct (newProvider_sent_to req w m Hm) as [a [l [_ ->]]]. reflexivity. }
  assert (forall v, shown v = or_dash v) as Hs.
  { intros v. unfold shown, or_dash, js_or. now destruct (truthy v). }
  unfold line. rewrite Hhtml, !Hs. unfold NewProvider.htmlBody.
  repeat split; apply template_includes; simpl; auto 20.
Qed.

Lemma newProvider_placeholders_witness :
  let req :=
    mkRequest "POST"
      (JObj [("providerData", JObj [("linea", JStr "Fletes del Norte")]);
             ("adminEmails", JArr [JStr "admin@x.com"])]) in
  let w := example_world (Ok []) (Throw ENOENT) in
  includes "        <li><strong>Razón social:</strong> - </li>"
    (msg_html (newProviderMsg req ["admin@x.com"])) = true.
Proof.
  intros req w.
  destruct (newProvider_placeholders req w (newProviderMsg req ["admin@x.com"]))
    as [_ [_ [H _]]]; [now left | exact H].
Defined.
(** ** The confirmation function *)

(** X16. When the PDF is read, the message carries it as its single
    attachment: the content of the file, named "Indicaciones de ingreso a
    transportistas.pdf", with type [application/pdf]; the file read is
    [docs/Indicaciones de ingreso a transportistas.pdf], once. *)
Theorem pdf_is_attached (req : Request) (w : World) (pdfBuffer : list Byte.byte)
    (m : Msg) :
  let trace := snd (run (CitaConfirmacion.sendCitaConfirmacion req) w) in
  readFileSync w CitaConfirmacion.pdfPath = Ok pdfBuffer ->
  In m (sent trace) ->
  msg_attachments m =
    Some [mkAttachment (BufferBase64 pdfBuffer)
            (JStr "Indicaciones de ingreso a transportistas.pdf")
            "application/pdf" "attachment"] /\
  reads trace = ["docs/Indicaciones de ingreso a transportistas.pdf"].
Proof.
  intros trace Hpdf Hm. subst trace.
  destruct (confirmacion_sent_to req w m Hm) as [_ [Hr [h [_ ->]]]].
  split; [|exact Hr].
  unfold confirmacionMsg, pdfAttachments. cbn [msg_attachments]. now rewrite Hpdf.
Qed.

Lemma pdf_is_attached_witness :
  let req :=
    mkRequest "POST"
      (JObj [("to", JStr "chofer@fletes.mx"); ("folio", JStr "F-100");
             ("datosCita", JObj [("fecha", JStr "2025-03-02")])]) in
  let w := example_world (Ok []) (Ok [Byte.x25; Byte.x50; Byte.x44; Byte.x46]) in
  msg_attachments (confirmacionMsg req w "-") =
    Some [mkAttachment (BufferBase64 [Byte.x25; Byte.x50; Byte.x44; Byte.x46])
            (JStr "Indicaciones de ingreso a transportistas.pdf")
            "application/pdf" "attachment"].
Proof.
  intros req w.
  apply (pdf_is_attached req w [Byte.x25; Byte.x50; Byte.x44; Byte.x46]);
    [reflexivity | now left].
Defined.

(** X17. Notes that are truthy but not a string (a number, an array, ...)
    make [notas.replace] throw: the confirmation answers 500 before the PDF is
    read or anything is sent. *)
Theorem confirmacion_notes_must_be_text (req : Request) (w : World) (k : string) :
  req_method req = "POST" ->
  SENDGRID_API_KEY w = Some k -> k <> "" ->
  let body := js_or (req_body req) (JObj []) in
  let datosCita := get "datosCita" body in
  truthy (get "to" body) = true -> truthy (get "folio" body) = true ->
  truthy datosCita = true ->
  not_text (get "notas" datosCita) ->
  let answer := fst (run (CitaConfirmacion.sendCitaConfirmacion req) w) in
  let trace := snd (run (CitaConfirmacion.sendCitaConfirmacion req) w) in
  (exists detail,
     answer =
       Ok (respond 500
             (Json false "Ocurrió un error al enviar la confirmación de cita."
                (Some detail)))) /\
  sent trace = [] /\ reads trace = [].
Proof.
  intros Hp Hkey Hk body datosCita Hto Hfolio Hdatos Hn answer trace.
  subst answer trace.
  rewrite (confirmacion_run req w k Hp Hkey Hk Hto Hfolio Hdatos).
  destruct (comentarios_confirm_throws _ w Hn) as [e C].
  destruct (confirmacion_main_cases req w) as [[h [_ [Hh _]]] | [x [_ ->]]].
  - fold body in Hh. fold datosCita in Hh. congruence.
  - traces. split; [eexists; reflexivity | auto].
Qed.

Lemma confirmacion_notes_must_be_text_witness :
  let req :=
    mkRequest "POST"
      (JObj [("to", JStr "chofer@fletes.mx"); ("folio", JStr "F-100");
             ("datosCita", JObj [("notas", JNum 5)])]) in
  let w := example_world (Ok []) (Throw ENOENT) in
  sent (snd (run (CitaConfirmacion.sendCitaConfirmacion req) w)) = [] /\
  reads (snd (run (CitaConfirmacion.sendCitaConfirmacion req) w)) = [].
Proof.
  intros req w.
  refine (proj2 (confirmacion_notes_must_be_text req w "SG.key" eq_refl eq_refl
                   ltac:(discriminate) eq_refl eq_refl eq_refl _)).
  split; [reflexivity | discriminate].
Defined.

(** ** The pre-registration function *)

(** X18. The same notes in a pre-registration whose provider address
    converts to a string are found only after the administrators were
    queried: the answer is 500, the query was made, nothing is sent. *)
Theorem preRegistration_notes_must_be_text (req : Request) (w : World) (k : string) :
  req_method req = "POST" ->
  SENDGRID_API_KEY w = Some k -> k <> "" ->
  let body := js_or (req_body req) (JObj []) in
  let cita := get "cita" body in
  truthy (get "providerEmail" body) = true -> truthy cita = true ->
  truthy (get "fecha" cita) = true -> truthy (get "hora" cita) = true ->
  stringifiable (get "providerEmail" body) = true ->
  not_text (get "notas" cita) ->
  let answer := fst (run (AppointmentNotification.sendAppointmentNotification req) w) in
  let trace := snd (run (AppointmentNotification.sendAppointmentNotification req) w) in
  (exists r, answer = Ok r /\ res_status r = 500) /\
  sent trace = [] /\ queries trace = [admins_query].
Proof.
  intros Hp Hkey Hk body cita H1 H2 H3 H4 Hc Hn answer trace.
  subst answer trace.
  rewrite (preReg_run req w k Hp Hkey Hk H1 H2 H3 H4).
  cbn [fst snd sent queries].
  rewrite (preReg_main_queries req w Hc).
  destruct (comentarios_prereg_throws _ w Hn) as [e C].
  unfold preReg_main. fold body. fold cita. rewrite Hc, C. cbn [negb].
  destruct (preRegRecipients w (get "providerEmail" body)) as [|a l];
    [|destruct (all_stringifiable _)]; traces;
    (split; [eexists; split; reflexivity | auto]).
Qed.

Lemma preRegistration_notes_must_be_text_witness :
  let req :=
    mkRequest "POST"
      (JObj [("providerEmail", JStr "ventas@fletes.mx");
             ("cita", JObj [("fecha", JStr "2025-03-02"); ("hora", JStr "10:00");
                            ("notas", JArr [JStr "llega tarde"])])]) in
  let w := example_world (Ok [admin_doc "a@x.com"]) (Throw ENOENT) in
  sent (snd (run (AppointmentNotification.sendAppointmentNotification req) w)) = [] /\
  queries (snd (run (AppointmentNotification.sendAppointmentNotification req) w)) =
    [admins_query].
Proof.
  intros req w.
  refine (proj2 (preRegistration_notes_must_be_text req w "SG.key" eq_refl eq_refl
                   ltac:(discriminate) eq_refl eq_refl eq_refl eq_refl eq_refl _)).
  split; [reflexivity | discriminate].
Defined.

Lemma correos_filter (docs : list JsVal) : filter_Boolean (correos docs) = correos docs.
Proof. unfold correos. apply filter_Boolean_idem. Qed.


(** X19. The pre-registration tests the raw [providerEmail]: an address made
    of white space passes the validation, is then dropped, and the mail goes
    to the administrators alone, its contact line showing "-"; with no
    administrator address the answer is the 500 of the missing recipients. *)
Theorem blank_provider_address (req : Request) (w : World) (k s : string)
    (docs : list JsVal) :
  req_method req = "POST" ->
  SENDGRID_API_KEY w = Some k -> k <> "" ->
  let body := js_or (req_body req) (JObj []) in
  let cita := get "cita" body in
  get "providerEmail" body = JStr s -> s <> "" -> all_space s = true ->
  truthy cita = true ->
  truthy (get "fecha" cita) = true -> truthy (get "hora" cita) = true ->
  firestore_get w admins_query = Ok docs ->
  let answer := fst (run (AppointmentNotification.sendAppointmentNotification req) w) in
  let trace := snd (run (AppointmentNotification.sendAppointmentNotification req) w) in
  (forall m, In m (sent trace) ->
     msg_to m = ToMany (Set_spread (correos docs)) /\
     includes "        <li><strong>Correo de contacto:</strong> -</li>" (msg_html m) = true) /\
  (correos docs = [] ->
   answer =
     Ok (sendError 500 "No se encontraron correos configurados para notificar la cita.")).
Proof.
  intros Hp Hkey Hk body cita Hs Hne Hws H2 H3 H4 Hd answer trace.
  destruct (blank_address s Hne Hws) as [H1 Hnorm]. rewrite <- Hs in H1, Hnorm.
  assert (stringifiable (get "providerEmail" body) = true) as Hc by now rewrite Hs.
  assert (preRegRecipients w (get "providerEmail" body) = [] \/
          preRegRecipients w (get "providerEmail" body) = Set_spread (correos docs))
    as Hrec.
  { unfold preRegRecipients, adminsOrNone, directory_read. rewrite Hd, Hnorm.
    destruct (all_stringifiable (map (get "correo") docs)); [right | now left].
    change (filter_Boolean ("" :: correos docs)) with (filter_Boolean (correos docs)).
    now rewrite correos_filter. }
  split.
  - intros m Hm. subst trace.
    destruct (preReg_sent_to req w m Hm) as [_ [h ->]].
    assert (preRegRecipients w (get "providerEmail" body) = Set_spread (correos docs))
      as Hto.
    { destruct Hrec as [E | E]; [|exact E]. exfalso.
      rewrite (preReg_run req w k Hp Hkey Hk H1 H2 H3 H4) in Hm.
      cbn [snd sent] in Hm.
      destruct (preReg_main_no_recipients req w Hc E) as [_ Hnone].
      rewrite Hnone in Hm. contradiction. }
    unfold preRegMsg. cbn [msg_to msg_html]. fold body. rewrite Hto, Hnorm.
    split; [reflexivity|].
    unfold AppointmentNotification.htmlBody. apply template_includes.
    simpl. auto 40.
  - intros Hnone. subst answer.
    rewrite (preReg_run req w k Hp Hkey Hk H1 H2 H3 H4).
    assert (preRegRecipients w (get "providerEmail" body) = []) as E.
    { destruct Hrec as [E | E]; [exact E|]. now rewrite E, Hnone. }
    now destruct (preReg_main_no_recipients req w Hc E) as [-> _].
Qed.

Lemma blank_provider_address_witness :
  let req :=
    mkRequest "POST"
      (JObj [("providerEmail", JStr "   ");
             ("cita", JObj [("fecha", JStr "2025-03-02"); ("hora", JStr "10:00")])]) in
  let w := example_world (Ok [JObj []]) (Throw ENOENT) in
  fst (run (AppointmentNotification.sendAppointmentNotification req) w) =
    Ok (sendError 500 "No se encontraron correos configurados para notificar la cita.").
Proof.
  intros req w.
  refine (proj2 (blank_provider_address req w "SG.key" "   " [JObj []] eq_refl eq_refl
                   ltac:(discriminate) eq_refl ltac:(discriminate) eq_refl
                   eq_refl eq_refl eq_refl eq_refl) eq_refl).
Defined.

(** X20. A provider address that is not blank is always the first recipient
    of the pre-registration, so the answer is never the 500 of the missing
    recipients. *)
Theorem provider_is_first_recipient (req : Request) (w : World) (k : string) :
  req_method req = "POST" ->
  SENDGRID_API_KEY w = Some k -> k <> "" ->
  let body := js_or (req_body req) (JObj []) in
  let cita := get "cita" body in
  let provider := normalizeEmail (get "providerEmail" body) in
  provider <> "" -> truthy cita = true ->
  truthy (get "fecha" cita) = true -> truthy (get "hora" cita) = true ->
  let answer := fst (run (AppointmentNotification.sendAppointmentNotification req) w) in
  let trace := snd (run (AppointmentNotification.sendAppointmentNotification req) w) in
  (forall m, In m (sent trace) -> exists others, msg_to m = ToMany (provider :: others)) /\
  answer <>
    Ok (sendError 500 "No se encontraron correos configurados para notificar la cita.").
Proof.
  intros Hp Hkey Hk body cita provider Hprov H2 H3 H4 answer trace.
  assert (truthy (get "providerEmail" body) = true) as H1.
  { destruct (truthy (get "providerEmail" body)) eqn:E; [reflexivity|].
    exfalso. apply Hprov. unfold provider, normalizeEmail. now rewrite E. }
  assert (exists others,
             preRegRecipients w (get "providerEmail" body) = provider :: others)
    as [others Hrec].
  { unfold preRegRecipients. fold provider.
    unfold filter_Boolean. simpl. rewrite (String_eqb_false _ _ Hprov). simpl.
    apply Set_spread_head. }
  split.
  - intros m Hm. exists others. rewrite <- Hrec.
    destruct (preReg_sent_to req w m Hm) as [_ [h ->]]. reflexivity.
  - subst answer.
    rewrite (preReg_run req w k Hp Hkey Hk H1 H2 H3 H4). cbn [fst].
    unfold preReg_main. fold body. rewrite Hrec. fold cita.
    destruct (stringifiable (get "providerEmail" body)); cbn [negb];
      [|intros [=]].
    destruct (all_stringifiable _); [|intros [=]].
    destruct (fst (run (AppointmentNotification.comentarios (get "notas" cita)) w)).
    + unfold behind, deliver. destruct (sgMail_send w _); simpl; intros [=].
    + simpl. intros [=].
Qed.

Lemma provider_is_first_recipient_witness :
  let req :=
    mkRequest "POST"
      (JObj [("providerEmail", JStr " Ventas@Fletes.mx ");
             ("cita", JObj [("fecha", JStr "2025-03-02"); ("hora", JStr "10:00")])]) in
  let w := example_world (Ok [admin_doc "a@x.com"]) (Throw ENOENT) in
  exists others,
    msg_to (preRegMsg req ["ventas@fletes.mx"; "a@x.com"] "-") =
      ToMany ("ventas@fletes.mx" :: others).
Proof.
  intros req w.
  apply (proj1 (provider_is_first_recipient req w "SG.key" eq_refl eq_refl
                  ltac:(discriminate) ltac:(discriminate) eq_refl eq_refl eq_refl)).
  now left.
Defined.

(** ** The notes and the credentials in the bodies *)

(** X21. In a pre-registration with text notes, the comments paragraph of
    every message sent holds the notes with every [<] replaced by [&lt;]: no
    [<] of the notes reaches the paragraph; and the message is sent when the
    provider address converts and is not blank and the fields of the body
    convert. *)
Theorem preRegistration_notes_are_escaped (req : Request) (w : World) (s : string) :
  let body := js_or (req_body req) (JObj []) in
  let cita := get "cita" body in
  let trace := snd (run (AppointmentNotification.sendAppointmentNotification req) w) in
  get "notas" cita = JStr s ->
  let escaped := str_or (replaceAll "<"%char "&lt;" s) "-" in
  includes "<" escaped = false /\
  (forall m, In m (sent trace) ->
     includes ("      <p>" ++ escaped ++ "</p>") (msg_html m) = true) /\
  (forall k,
      req_method req = "POST" -> SENDGRID_API_KEY w = Some k -> k <> "" ->
      truthy cita = true ->
      truthy (get "fecha" cita) = true -> truthy (get "hora" cita) = true ->
      stringifiable (get "providerEmail" body) = true ->
      normalizeEmail (get "providerEmail" body) <> "" ->
      all_stringifiable
        (AppointmentNotification.interpolated (get "providerLinea" body)
           (get "providerRazon" body) (get "providerFrontera" body)
           (get "citaId" body) cita) = true ->
      exists m, sent trace = [m]).
Proof.
  intros body cita trace Hn escaped.
  destruct (preReg_notes_escaped s w) as [C Hesc]. split; [exact Hesc|].
  split.
  - intros m Hm. subst trace.
    assert (exists h,
               fst (run (AppointmentNotification.comentarios (get "notas" cita)) w) = Ok h /\
               m = preRegMsg req (preRegRecipients w (get "providerEmail" body)) h)
      as [h [Hh ->]].
    { destruct (preReg_cases req w) as [Hpre | [k E]].
      - apply preflight_trace in Hpre as [Hs _]. rewrite Hs in Hm. contradiction.
      - rewrite E in Hm. cbn [snd sent] in Hm. unfold preReg_main in Hm.
        fold body in Hm. fold cita in Hm.
        destruct (stringifiable (get "providerEmail" body)); cbn [negb] in Hm;
          [|traces_in Hm; contradiction].
        destruct (preRegRecipients w (get "providerEmail" body)) as [|a l];
          [|destruct (all_stringifiable _) in Hm;
            [destruct (fst (run (AppointmentNotification.comentarios _) w)) as [h | e]|]];
          traces_in Hm; try contradiction.
        destruct Hm as [<- | []]. exists h. auto. }
    rewrite Hn, C in Hh. injection Hh as <-.
    unfold preRegMsg. cbv zeta. cbn [msg_html].
    apply (proj2 (proj2 (preReg_html_line _ _ _ _ _ _ _))).
  - intros k Hp Hkey Hk H2 H3 H4 Hc Hprov Hr.
    assert (truthy (get "providerEmail" body) = true) as H1.
    { destruct (truthy (get "providerEmail" body)) eqn:E; [reflexivity|].
      exfalso. apply Hprov. unfold normalizeEmail. now rewrite E. }
    assert (preRegRecipients w (get "providerEmail" body) <> []) as Hne.
    { unfold preRegRecipients, filter_Boolean. simpl.
      rewrite (String_eqb_false _ _ Hprov). simpl.
      destruct (Set_spread_head (normalizeEmail (get "providerEmail" body))
                  (filter (fun s0 => negb (s0 =? "")%string) (adminsOrNone w)))
        as [rest ->].
      discriminate. }
    destruct (preReg_main_delivers req w Hc Hne Hr
                (or_intror (ex_intro _ s Hn))) as [m [Hs _]].
    exists m. subst trace.
    rewrite (preReg_run req w k Hp Hkey Hk H1 H2 H3 H4). exact Hs.
Qed.

Lemma preRegistration_notes_are_escaped_witness :
  let req := notes_request "<b>urgente</b>" in
  let w := example_world (Ok []) (Throw ENOENT) in
  exists m,
    sent (snd (run (AppointmentNotification.sendAppointmentNotification req) w)) = [m] /\
    includes "      <p>&lt;b>urgente&lt;/b></p>" (msg_html m) = true.
Proof.
  intros req w.
  destruct (preRegistration_notes_are_escaped req w "<b>urgente</b>" eq_refl)
    as [_ [Hhtml Hsent]].
  destruct (Hsent "SG.key" eq_refl eq_refl ltac:(discriminate) eq_refl eq_refl eq_refl
              eq_refl ltac:(discriminate) eq_refl) as [m Hm].
  exists m. split; [exact Hm|].
  apply Hhtml. rewrite Hm. now left.
Defined.

Lemma replaceAll_nonempty (c : ascii) (by_ s : string) :
  by_ <> "" -> s <> "" -> replaceAll c by_ s <> "".
Proof.
  intros Hb Hs. destruct s as [|d s]; [contradiction|].
  cbn [replaceAll]. destruct (Ascii.eqb d c); [|discriminate].
  destruct by_ as [|b by_]; [contradiction|].
  change (String b by_ ++ replaceAll c (String b by_) s)%string
    with (String b (by_ ++ replaceAll c (String b by_) s)).
  discriminate.
Qed.

(** X22. In a confirmation with text notes, every message sent holds in its
    HTML notes item the notes with every line break replaced by [<br>], and
    in its plain-text body the notes as they were written; and the message
    is sent when the values the bodies show convert to strings. *)
Theorem confirmacion_notes_in_both_bodies (req : Request) (w : World) (s : string) :
  let body := js_or (req_body req) (JObj []) in
  let datosCita := get "datosCita" body in
  let trace := snd (run (CitaConfirmacion.sendCitaConfirmacion req) w) in
  get "notas" datosCita = JStr s -> s <> "" ->
  let broken := replaceAll (ascii_of_N 10) "<br>" s in
  includes LF broken = false /\
  (forall m, In m (sent trace) ->
     includes ("        <li><strong>Comentarios / notas:</strong> " ++ broken ++ "</li>")
       (msg_html m) = true /\
     exists text,
       msg_text m = Some text /\
       includes ("- Comentarios / notas: " ++ s) text = true) /\
  (forall k,
      req_method req = "POST" -> SENDGRID_API_KEY w = Some k -> k <> "" ->
      truthy (get "to" body) = true -> truthy (get "folio" body) = true ->
      truthy datosCita = true ->
      all_stringifiable (confirmacion_converted req) = true ->
      exists m, sent trace = [m]).
Proof.
  intros body datosCita trace Hn Hs broken.
  assert (str_or broken "-" = broken) as Hnonempty.
  { unfold str_or. destruct (broken =? "")%string eqn:E; [|reflexivity].
    apply String.eqb_eq in E. exfalso.
    apply (replaceAll_nonempty (ascii_of_N 10) "<br>" s); [discriminate | exact Hs | exact E]. }
  subst broken.
  destruct (confirmacion_notes_broken s w Hs) as [C Hlf].
  rewrite Hnonempty in C, Hlf. split; [exact Hlf|].
  split.
  - intros m Hm. subst trace.
    destruct (confirmacion_sent_to req w m Hm) as [_ [_ [h [Hh ->]]]].
    fold body in Hh. fold datosCita in Hh. rewrite Hn, C in Hh. injection Hh as <-.
    unfold confirmacionMsg. cbv zeta. cbn [msg_html msg_text].
    split; [apply (proj2 (confirmacion_html_line _ _ _))|].
    eexists. split; [reflexivity|].
    pose proof (proj2 (confirmacion_text_line (get "folio" body) datosCita)) as Ht.
    rewrite Hn in Ht. unfold or_dash, js_or in Ht. simpl in Ht.
    rewrite (String_eqb_false _ _ Hs) in Ht. exact Ht.
  - intros k Hp Hkey Hk Hto Hfolio Hdatos Hc. subst trace.
    rewrite (confirmacion_run req w k Hp Hkey Hk Hto Hfolio Hdatos).
    destruct (confirmacion_main_cases req w) as [[h [_ [_ ->]]] | [e [Hfail _]]].
    + eexists. traces. reflexivity.
    + exfalso. destruct Hfail as [Hfail | Hfail]; [congruence|].
      fold body in Hfail. fold datosCita in Hfail. rewrite Hn, C in Hfail.
      discriminate.
Qed.

Lemma confirmacion_notes_in_both_bodies_witness :
  let req := notes_request ("uno" ++ LF ++ "dos") in
  let w := example_world (Ok []) (Throw ENOENT) in
  exists m text,
    sent (snd (run (CitaConfirmacion.sendCitaConfirmacion req) w)) = [m] /\
    includes "        <li><strong>Comentarios / notas:</strong> uno<br>dos</li>"
      (msg_html m) = true /\
    msg_text m = Some text /\
    includes ("- Comentarios / notas: uno" ++ LF ++ "dos") text = true.
Proof.
  intros req w.
  destruct (confirmacion_notes_in_both_bodies req w ("uno" ++ LF ++ "dos") eq_refl
              ltac:(discriminate)) as [_ [Hbodies Hsent]].
  destruct (Hsent "SG.key" eq_refl eq_refl ltac:(discriminate) eq_refl eq_refl eq_refl
              eq_refl) as [m Hm].
  destruct (Hbodies m) as [Hhtml [text [Ht Hinc]]]; [rewrite Hm; now left|].
  exists m, text. auto.
Defined.


(** X23. The credentials are mailed trimmed: the body shows [usuario] and
    [contrasena] without the white space around them, and the role as sent
    once trimmed, or "Usuario". *)
Theorem credentials_are_trimmed (req : Request) (w : World) (m : Msg) :
  let body := js_or (req_body req) (JObj []) in
  In m (sent (snd (run (AccessCredentials.sendAccessCredentials req) w))) ->
  msg_to m = ToOne (normalizeEmail (get "to" body)) /\
  includes ("        <li><strong>Usuario:</strong> " ++
            trim (ToString (get "usuario" body)) ++ "</li>") (msg_html m) = true /\
  includes ("        <li><strong>Contraseña:</strong> " ++
            trim (ToString (get "contrasena" body)) ++ "</li>") (msg_html m) = true /\
  includes ("        <li><strong>Rol:</strong> " ++
            str_or (trim (ToString (js_or (get "rol" body) (JStr "")))) "Usuario" ++
            "</li>") (msg_html m) = true.
Proof.
  intros body Hm.
  assert (forall v, text_field v <> "" -> text_field v = trim (ToString v)) as Htf.
  { intros v. unfold text_field, js_or. destruct (truthy v); [reflexivity|].
    intros H. now elim H. }
  assert (text_field (get "usuario" body) <> "" /\
          text_field (get "contrasena" body) <> "") as [Hu Hpw].
  { destruct (credentials_cases req w) as [Hpre | [k E]].
    - apply preflight_trace in Hpre as [Hs _]. rewrite Hs in Hm. contradiction.
    - rewrite E in Hm. cbn [snd sent] in Hm. unfold credentials_main in Hm.
      fold body in Hm.
      repeat match type of Hm with
             | context [if negb ?c then _ else _] =>
                 destruct c; cbn [negb] in Hm; [|traces_in Hm; contradiction]
             end.
      destruct (normalizeEmail (get "to" body) =? "")%string;
        [traces_in Hm; contradiction|].
      destruct (text_field (get "usuario" body) =? "")%string eqn:Eu;
        [traces_in Hm; contradiction|].
      destruct (text_field (get "contrasena" body) =? "")%string eqn:Ep;
        [traces_in Hm; contradiction|].
      apply String.eqb_neq in Eu, Ep. auto. }
  rewrite (credentials_sent_to req w m Hm).
  unfold credentialsMsg. cbn [msg_to msg_html]. fold body.
  split; [reflexivity|]. rewrite <- (Htf _ Hu), <- (Htf _ Hpw).
  change (str_or (trim (ToString (js_or (get "rol" body) (JStr "")))) "Usuario")
    with (AccessCredentials.rolFinal_of (get "rol" body)).
  unfold AccessCredentials.htmlBody.
  split; [|split]; apply template_includes; simpl; auto 20.
Qed.

Lemma credentials_are_trimmed_witness :
  let req :=
    mkRequest "POST" (JObj [("to", JStr "user@x.com"); ("usuario", JStr " jdoe ");
                            ("contrasena", JStr " p@ss 1 ")]) in
  let w := example_world (Ok []) (Throw ENOENT) in
  includes "        <li><strong>Contraseña:</strong> p@ss 1</li>"
    (msg_html (credentialsMsg req)) = true.
Proof.
  intros req w.
  destruct (credentials_are_trimmed req w (credentialsMsg req)) as [_ [_ [H _]]];
    [now left | exact H].
Defined.

(** X24. A confirmation goes to one recipient, the normalized [to], and both
    bodies and the subject carry the folio as sent. *)
Theorem confirmacion_recipient_and_folio (req : Request) (w : World) (m : Msg) :
  let body := js_or (req_body req) (JObj []) in
  let folio := ToString (get "folio" body) in
  In m (sent (snd (run (CitaConfirmacion.sendCitaConfirmacion req) w))) ->
  msg_to m = ToOne (normalizeEmail (get "to" body)) /\
  msg_subject m = "Confirmación de cita de transporte - Folio " ++ folio /\
  includes ("        <li><strong>Folio:</strong> " ++ folio ++ "</li>") (msg_html m) = true /\
  exists text, msg_text m = Some text /\ includes ("- Folio: " ++ folio) text = true.
Proof.
  intros body folio Hm.
  destruct (confirmacion_sent_to req w m Hm) as [_ [_ [h [_ ->]]]].
  unfold confirmacionMsg. cbn [msg_to msg_subject msg_html msg_text]. fold body.
  split; [reflexivity|]. split; [reflexivity|]. split.
  - unfold CitaConfirmacion.htmlBody. apply template_includes. simpl. auto 20.
  - eexists. split; [reflexivity|].
    unfold CitaConfirmacion.textBody. apply trimmed_template_includes;
      [reflexivity | vm_compute; discriminate | simpl; auto 20].
Qed.

Lemma confirmacion_recipient_and_folio_witness :
  let req :=
    mkRequest "POST"
      (JObj [("to", JStr " Chofer@Fletes.mx"); ("folio", JNum 1042);
             ("datosCita", JObj [("fecha", JStr "2025-03-02")])]) in
  let w := example_world (Ok []) (Throw ENOENT) in
  msg_to (confirmacionMsg req w "-") = ToOne "chofer@fletes.mx" /\
  msg_subject (confirmacionMsg req w "-") =
    "Confirmación de cita de transporte - Folio 1042".
Proof.
  intros req w.
  destruct (confirmacion_recipient_and_folio req w (confirmacionMsg req w "-"))
    as [H1 [H2 _]]; [now left | split; [exact H1 | exact H2]].
Defined.
(** ** Values that do not convert to a string *)

(** X25. A value no conversion to a string accepts (an object with an own
    [toString] property, or an array that holds one) ends the request in the
    outer [catch], 500 with the detail of the TypeError: in the confirmation
    when it is [to], the folio or a field of the bodies, before the PDF is
    read; in the pre-registration when it is [providerEmail], before
    Firestore is asked; in the credentials when it is [to], before any
    check; in the new-provider function when it is a field of the body,
    after the recipients were resolved.  Nothing is sent. *)
Theorem unconvertible_values_are_500 (req : Request) (w : World) (k : string) :
  req_method req = "POST" ->
  SENDGRID_API_KEY w = Some k -> k <> "" ->
  let body := js_or (req_body req) (JObj []) in
  let cita := get "cita" body in
  let failure (message : string) : Outcome Response :=
    Ok (respond 500
          (Json false message (Some "Cannot convert object to primitive value"))) in
  (truthy (get "to" body) = true -> truthy (get "folio" body) = true ->
   truthy (get "datosCita" body) = true ->
   all_stringifiable (confirmacion_converted req) = false ->
   run (CitaConfirmacion.sendCitaConfirmacion req) w =
     (failure "Ocurrió un error al enviar la confirmación de cita.",
      [EvSetApiKey k; EvLog LogError "[sendCitaConfirmacion] Error general:"])) /\
  (truthy (get "providerEmail" body) = true -> truthy cita = true ->
   truthy (get "fecha" cita) = true -> truthy (get "hora" cita) = true ->
   stringifiable (get "providerEmail" body) = false ->
   run (AppointmentNotification.sendAppointmentNotification req) w =
     (failure "Ocurrió un error al enviar la notificación de cita.",
      [EvSetApiKey k; EvLog LogError "[sendAppointmentNotification] Error general:"])) /\
  (stringifiable (get "to" body) = false ->
   run (AccessCredentials.sendAccessCredentials req) w =
     (failure "Ocurrió un error al enviar el correo.",
      [EvSetApiKey k; EvLog LogInfo "[sendAccessCredentials] Body recibido:";
       EvLog LogError "[sendAccessCredentials] Error general:"])) /\
  (truthy (get "providerData" body) = true ->
   all_stringifiable
     (NewProvider.interpolated (get "providerId" body) (get "providerEmail" body)
        (get "providerData" body)) = false ->
   sent (snd (run (NewProvider.sendNewProviderEmail req) w)) = [] /\
   forall a l,
     fst (run (NewProvider.resolveAdmins (get "adminEmails" body)) w) = Ok (a :: l) ->
     fst (run (NewProvider.sendNewProviderEmail req) w) =
       failure "Ocurrió un error al enviar el correo.").
Proof.
  intros Hp Hkey Hk body cita failure.
  split; [|split; [|split]].
  - intros H1 H2 H3 Hc.
    rewrite (confirmacion_run req w k Hp Hkey Hk H1 H2 H3).
    unfold confirmacion_main. now rewrite Hc.
  - intros H1 H2 H3 H4 Hc.
    rewrite (preReg_run req w k Hp Hkey Hk H1 H2 H3 H4).
    unfold preReg_main. fold body. now rewrite Hc.
  - intros Hc. rewrite (credentials_run req w k Hp Hkey Hk).
    unfold credentials_main. fold body. now rewrite Hc.
  - intros Hdata Hc.
    rewrite (newProvider_run req w k Hp Hkey Hk Hdata).
    cbn [fst snd sent]. rewrite newProvider_main_sent. fold body. rewrite Hc.
    split.
    + destruct (fst (run (NewProvider.resolveAdmins (get "adminEmails" body)) w))
        as [[|a l] | e]; reflexivity.
    + intros a l R. unfold newProvider_main. fold body.
      destruct (run (NewProvider.resolveAdmins (get "adminEmails" body)) w) as [o t].
      cbn [fst] in R. subst o. now rewrite Hc.
Qed.

Lemma unconvertible_values_are_500_witness :
  let req :=
    mkRequest "POST"
      (JObj [("to", JStr "chofer@fletes.mx"); ("folio", unprintable);
             ("datosCita", JObj [("fecha", JStr "2025-03-02")])]) in
  let w := example_world (Ok []) (Ok [Byte.x25]) in
  run (CitaConfirmacion.sendCitaConfirmacion req) w =
    (Ok (respond 500
           (Json false "Ocurrió un error al enviar la confirmación de cita."
              (Some "Cannot convert object to primitive value"))),
     [EvSetApiKey "SG.key"; EvLog LogError "[sendCitaConfirmacion] Error general:"]).
Proof.
  intros req w.
  exact (proj1 (unconvertible_values_are_500 req w "SG.key" eq_refl eq_refl
                  ltac:(discriminate))
           eq_refl eq_refl eq_refl eq_refl).
Defined.

(** X26. The credentials are converted before they are checked: a
    [usuario], [contrasena] or [rol] that is an object with an own
    [toString] property is answered 500, not 400, even when [to] is missing,
    and nothing is sent. *)
Theorem credentials_are_converted_before_the_checks (req : Request) (w : World)
    (k : string) :
  req_method req = "POST" ->
  SENDGRID_API_KEY w = Some k -> k <> "" ->
  let body := js_or (req_body req) (JObj []) in
  stringifiable (get "to" body) = true ->
  stringifiable (get "usuario" body) = false \/
  stringifiable (get "contrasena" body) = false \/
  stringifiable (get "rol" body) = false ->
  (exists detail,
      fst (run (AccessCredentials.sendAccessCredentials req) w) =
        Ok (respond 500 (Json false "Ocurrió un error al enviar el correo." (Some detail)))) /\
  sent (snd (run (AccessCredentials.sendAccessCredentials req) w)) = [].
Proof.
  intros Hp Hkey Hk body Hto H.
  rewrite (credentials_run req w k Hp Hkey Hk).
  unfold credentials_main. fold body. rewrite Hto. cbn [negb fst snd sent].
  destruct (stringifiable (get "usuario" body)); cbn [negb];
    [|traces; split; [eexists; reflexivity | reflexivity]].
  destruct (stringifiable (get "contrasena" body)); cbn [negb];
    [|traces; split; [eexists; reflexivity | reflexivity]].
  destruct (stringifiable (get "rol" body)); cbn [negb];
    [|traces; split; [eexists; reflexivity | reflexivity]].
  destruct H as [H | [H | H]]; discriminate H.
Qed.

Lemma credentials_are_converted_before_the_checks_witness :
  let req := mkRequest "POST" (JObj [("usuario", unprintable)]) in
  let w := example_world (Ok []) (Throw ENOENT) in
  fst (run (AccessCredentials.sendAccessCredentials req) w) =
    Ok (respond 500
          (Json false "Ocurrió un error al enviar el correo."
             (Some ("(usuario || " ++ dq ++ dq ++ ").toString is not a function")))) /\
  sent (snd (run (AccessCredentials.sendAccessCredentials req) w)) = [].
Proof.
  intros req w.
  destruct (credentials_are_converted_before_the_checks req w "SG.key" eq_refl eq_refl
              ltac:(discriminate) eq_refl (or_introl eq_refl)) as [[detail Hd] Hs].
  split; [|exact Hs].
  rewrite Hd. vm_compute in Hd. injection Hd as <-. reflexivity.
Defined.

(** X27. An administrator whose [correo] does not convert: the new-provider
    function, with no explicit recipients, ends in 500 after its query and
    sends nothing, where the pre-registration goes on without the
    administrators. *)
Theorem unconvertible_directory_address (req : Request) (w : World) (k : string)
    (docs : list JsVal) :
  req_method req = "POST" ->
  SENDGRID_API_KEY w = Some k -> k <> "" ->
  let body := js_or (req_body req) (JObj []) in
  firestore_get w admins_query = Ok docs ->
  all_stringifiable (map (get "correo") docs) = false ->
  (truthy (get "providerData" body) = true ->
   NewProvider.explicitAdmins (get "adminEmails" body) = [] ->
   run (NewProvider.sendNewProviderEmail req) w =
     (Ok (respond 500
            (Json false "Ocurrió un error al enviar el correo."
               (Some "Cannot convert object to primitive value"))),
      [EvSetApiKey k; EvFirestoreGet admins_query;
       EvLog LogError "[sendNewProviderEmail] Error general:"])) /\
  (forall p,
      stringifiable p = true ->
      run (AppointmentNotification.resolveRecipients p) w =
        (Ok (Set_spread (filter_Boolean [normalizeEmail p])),
         [EvFirestoreGet admins_query;
          EvLog LogError "[sendAppointmentNotification] Error obteniendo admins:"])).
Proof.
  intros Hp Hkey Hk body Hd Hc. split.
  - intros Hdata Hex.
    rewrite (newProvider_run req w k Hp Hkey Hk Hdata).
    unfold newProvider_main. fold body.
    rewrite (resolveAdmins_directory _ w Hex). unfold directoryAdmins.
    now rewrite Hd, Hc.
  - intros p Hp'. rewrite resolveRecipients_run, Hp'.
    unfold preRegRecipients, adminsOrNone, directory_log, directory_read.
    now rewrite Hd, Hc.
Qed.

Lemma unconvertible_directory_address_witness :
  let w := example_world (Ok [JObj [("correo", unprintable)]]) (Throw ENOENT) in
  run (AppointmentNotification.resolveRecipients (JStr "Ventas@Fletes.mx")) w =
    (Ok ["ventas@fletes.mx"],
     [EvFirestoreGet admins_query;
      EvLog LogError "[sendAppointmentNotification] Error obteniendo admins:"]).
Proof.
  intros w.
  exact (proj2 (unconvertible_directory_address (mkRequest "POST" JNull) w "SG.key"
                  [JObj [("correo", unprintable)]] eq_refl eq_refl ltac:(discriminate)
                  eq_refl eq_refl)
           (JStr "Ventas@Fletes.mx") eq_refl).
Defined.

